(** * The asynchronous paper-interpretation pipeline (ansapra)

    A shallow embedding of [src/tasks.py] (the Celery tasks
    [process_paper_task], [search_related_papers_task], [save_to_history] and
    their helpers) and of the two ORM classes of [src/main.py] that the tasks
    write to ([AsyncTask], [InterpretationHistory]).

    Python values are modelled as the code has them: a [str] is a sequence of
    Unicode code points, decoded JSON is a tree, a raised exception is a value
    of [exn] carried by the error monad [M], and everything outside the
    process (database, file system, Celery broker, HTTP services, the PDF and
    DOCX parsers, the clock) is read from a [World] of oracles or kept in the
    [State] that the monad threads. *)

From Stdlib Require Import ZArith NArith List Strings.String Strings.Byte Lia.
From stdpp Require Import base option list gmap.
Import ListNotations.

Set Warnings "-register-all,-abstract-large-number".
Open Scope N_scope.

(* ================================================================== *)
(** * Python strings *)
(* ================================================================== *)

(** A Python [str]: code points, so that [len] and slicing count what
    Python counts. *)
Abbreviation pystr := (list N).

(** One step of a UTF-8 decoder, used only to write the source's string
    literals as they appear in the source. *)
Definition utf8_step (st : pystr * (N * nat)) (b : N) : pystr * (N * nat) :=
  let '(out, (acc, need)) := st in
  if b <? 128 then (b :: out, (0, O))
  else if b <? 192 then
    match need with
    | S O => (N.lor (N.shiftl acc 6) (N.land b 63) :: out, (0, O))
    | S k => (out, (N.lor (N.shiftl acc 6) (N.land b 63), k))
    | O => (out, (0, O))
    end
  else if b <? 224 then (out, (N.land b 31, 1%nat))
  else if b <? 240 then (out, (N.land b 15, 2%nat))
  else (out, (N.land b 7, 3%nat)).

Definition utf8_decode (bs : list byte) : pystr :=
  rev (fst (fold_left utf8_step (map Byte.to_N bs) ([], (0, O)))).

(** [u "..."] is the Python literal ["..."]. *)
Definition u (s : string) : pystr := utf8_decode (list_byte_of_string s).

(** The double-quote character. *)
Definition dquote : pystr := [34].

(** [str(n)] for an integer. *)
Fixpoint uint_digits (d : Decimal.uint) : pystr :=
  match d with
  | Decimal.Nil => []
  | Decimal.D0 d => 48 :: uint_digits d
  | Decimal.D1 d => 49 :: uint_digits d
  | Decimal.D2 d => 50 :: uint_digits d
  | Decimal.D3 d => 51 :: uint_digits d
  | Decimal.D4 d => 52 :: uint_digits d
  | Decimal.D5 d => 53 :: uint_digits d
  | Decimal.D6 d => 54 :: uint_digits d
  | Decimal.D7 d => 55 :: uint_digits d
  | Decimal.D8 d => 56 :: uint_digits d
  | Decimal.D9 d => 57 :: uint_digits d
  end.

Definition str_of_nat (n : nat) : pystr := uint_digits (Nat.to_uint n).

Definition str_of_Z (z : Z) : pystr :=
  match z with
  | Zneg p => 45 :: uint_digits (Pos.to_uint p)
  | _ => uint_digits (N.to_uint (Z.to_N z))
  end.

(** [c.isspace()]: the code points [str.split()] splits on. *)
Definition isspace (c : N) : bool :=
  ((9 <=? c) && (c <=? 13)) || ((28 <=? c) && (c <=? 32))
  || (c =? 133) || (c =? 160) || (c =? 5760)
  || ((8192 <=? c) && (c <=? 8202))
  || (c =? 8232) || (c =? 8233) || (c =? 8239) || (c =? 8287) || (c =? 12288).

(** [s.split()]: the maximal runs of non-space code points, in order.
    [cur] is the run being read, reversed. *)
Fixpoint split_from (cur s : pystr) : list pystr :=
  match s with
  | [] => match cur with [] => [] | _ => [rev cur] end
  | c :: s' =>
      if isspace c
      then match cur with [] => split_from [] s' | _ => rev cur :: split_from [] s' end
      else split_from (c :: cur) s'
  end.

Definition split (s : pystr) : list pystr := split_from [] s.

(** [sep.join(l)]. *)
Fixpoint join (sep : pystr) (l : list pystr) : pystr :=
  match l with
  | [] => []
  | [x] => x
  | x :: l' => x ++ sep ++ join sep l'
  end.

(** [s.strip()] is non-empty exactly when [s] has a non-space code point. *)
Definition strip_nonempty (s : pystr) : bool := existsb (fun c => negb (isspace c)) s.

Definition pystr_eqb (a b : pystr) : bool := bool_decide (a = b).

(** [needle in s] for two strings. *)
Fixpoint is_prefix_of (p s : pystr) : bool :=
  match p, s with
  | [], _ => true
  | a :: p', b :: s' => (a =? b) && is_prefix_of p' s'
  | _ :: _, [] => false
  end.

Fixpoint substring_of (needle s : pystr) : bool :=
  is_prefix_of needle s ||
  match s with
  | [] => false
  | _ :: s' => substring_of needle s'
  end.

(** [s[:n]] for an integer [n], on any sequence: a negative bound counts
    from the end. *)
Definition slice_upto {A} (n : Z) (l : list A) : list A :=
  if (0 <=? n)%Z then take (Z.to_nat n) l
  else take (length l - Z.to_nat (- n))%nat l.

(* ================================================================== *)
(** * Python values, exceptions *)
(* ================================================================== *)

(** A decoded JSON document, which is also the shape of every [dict] the
    tasks build.  An object keeps its keys in order, the first binding of a
    key is the one a lookup sees.  [JFloat m e] is [m * 10^e]. *)
Inductive json : Type :=
  | JNull
  | JBool (b : bool)
  | JNum (n : Z)
  | JFloat (m e : Z)
  | JStr (s : pystr)
  | JArr (l : list json)
  | JObj (kv : list (pystr * json)).

(** A raised exception: a Python exception of class [cls] whose [str(e)]
    is [msg], or the [Retry] that [self.retry(exc=e)] raises after it has
    scheduled the next attempt [countdown] time units later. *)
Inductive exn : Type :=
  | PyErr (cls : string) (msg : pystr)
  | Retry (exc : exn) (countdown : Z).

(** [str(e)]. *)
Fixpoint str_exn (e : exn) : pystr :=
  match e with
  | PyErr _ msg => msg
  | Retry exc countdown => u "Retry in " ++ str_of_Z countdown ++ u "s: " ++ str_exn exc
  end.

(** The outcome of evaluating an expression: a value, or an exception. *)
Inductive res (A : Type) : Type :=
  | Ok (a : A)
  | Raise (e : exn).
Arguments Ok {A} a.
Arguments Raise {A} e.

Definition res_bind {A B} (r : res A) (k : A -> res B) : res B :=
  match r with
  | Ok a => k a
  | Raise e => Raise e
  end.

Definition TypeError (msg : string) : exn := PyErr "TypeError" (u msg).
Definition AttributeError (msg : string) : exn := PyErr "AttributeError" (u msg).
Definition KeyError (key : pystr) : exn := PyErr "KeyError" (u "'" ++ key ++ u "'").
Definition IndexError (msg : string) : exn := PyErr "IndexError" (u msg).

(** [bool(v)]. *)
Definition truthy (v : json) : bool :=
  match v with
  | JNull => false
  | JBool b => b
  | JNum n => negb (n =? 0)%Z
  | JFloat m _ => negb (m =? 0)%Z
  | JStr s => match s with [] => false | _ => true end
  | JArr l => match l with [] => false | _ => true end
  | JObj kv => match kv with [] => false | _ => true end
  end.

(** [bool(s)] for [s : Optional[str]]. *)
Definition truthy_opt (s : option pystr) : bool :=
  match s with
  | Some (_ :: _) => true
  | _ => false
  end.

Fixpoint assoc (key : pystr) (kv : list (pystr * json)) : option json :=
  match kv with
  | [] => None
  | (k, v) :: kv' => if pystr_eqb k key then Some v else assoc key kv'
  end.

Definition is_str (key : pystr) (v : json) : bool :=
  match v with
  | JStr s => pystr_eqb s key
  | _ => false
  end.

(** [key in v], for a string [key]. *)
Definition py_in (key : pystr) (v : json) : res bool :=
  match v with
  | JObj kv => Ok (bool_decide (is_Some (assoc key kv)))
  | JArr l => Ok (existsb (is_str key) l)
  | JStr s => Ok (substring_of key s)
  | _ => Raise (TypeError "argument is not iterable")
  end.

(** [v[key]], for a string [key]. *)
Definition py_item (v : json) (key : pystr) : res json :=
  match v with
  | JObj kv => match assoc key kv with
               | Some x => Ok x
               | None => Raise (KeyError key)
               end
  | JArr _ => Raise (TypeError "list indices must be integers or slices, not str")
  | JStr _ => Raise (TypeError "string indices must be integers")
  | _ => Raise (TypeError "object is not subscriptable")
  end.

(** [v[0]]. *)
Definition py_item0 (v : json) : res json :=
  match v with
  | JArr (x :: _) => Ok x
  | JArr [] => Raise (IndexError "list index out of range")
  | JStr (c :: _) => Ok (JStr [c])
  | JStr [] => Raise (IndexError "string index out of range")
  | JObj _ => Raise (PyErr "KeyError" (u "0"))
  | _ => Raise (TypeError "object is not subscriptable")
  end.

(** [len(v)]. *)
Definition py_len (v : json) : res nat :=
  match v with
  | JStr s => Ok (length s)
  | JArr l => Ok (length l)
  | JObj kv => Ok (length kv)
  | _ => Raise (TypeError "object has no len()")
  end.

(** [v.get(key, default)]: only a [dict] has [get]. *)
Definition py_get (v : json) (key : pystr) (default : json) : res json :=
  match v with
  | JObj kv => Ok (match assoc key kv with Some x => x | None => default end)
  | _ => Raise (AttributeError "object has no attribute 'get'")
  end.

(** [v[:n]]. *)
Definition py_slice (v : json) (n : Z) : res json :=
  match v with
  | JStr s => Ok (JStr (slice_upto n s))
  | JArr l => Ok (JArr (slice_upto n l))
  | JObj _ => Raise (PyErr "KeyError" (u "slice(None, n, None)"))
  | _ => Raise (TypeError "object is not subscriptable")
  end.

(** [a + b] where [b] is a string literal. *)
Definition py_add_str (a : json) (b : pystr) : res json :=
  match a with
  | JStr s => Ok (JStr (s ++ b))
  | _ => Raise (TypeError "unsupported operand type(s) for +")
  end.

(** [for x in v]: the items an iteration over [v] yields. *)
Definition py_iter (v : json) : res (list json) :=
  match v with
  | JArr l => Ok l
  | JStr s => Ok (map (fun c => JStr [c]) s)
  | JObj kv => Ok (map (fun p => JStr (fst p)) kv)
  | _ => Raise (TypeError "object is not iterable")
  end.

(** [sep.join(l)] for a list of arbitrary values: every item must be a
    [str]. *)
Fixpoint strs_of (l : list json) : res (list pystr) :=
  match l with
  | [] => Ok []
  | JStr s :: l' => res_bind (strs_of l') (fun r => Ok (s :: r))
  | _ :: _ => Raise (TypeError "sequence item: expected str instance")
  end.

Definition py_join (sep : pystr) (l : list json) : res pystr :=
  res_bind (strs_of l) (fun ss => Ok (join sep ss)).

(** [[f(x) for x in l]]: the first exception ends the comprehension. *)
Fixpoint res_map {A B} (f : A -> res B) (l : list A) : res (list B) :=
  match l with
  | [] => Ok []
  | x :: l' => res_bind (f x) (fun y => res_bind (res_map f l') (fun r => Ok (y :: r)))
  end.

(* ================================================================== *)
(** * The records of [main.py] *)
(* ================================================================== *)

(** The four values the [status] column takes. *)
Inductive Status : Type := pending | processing | completed | failed.

Module AsyncTask.
(** A row of [async_tasks]; [result] and [error] are nullable columns. *)
Record t : Type := mk {
  task_id : pystr;
  user_id : pystr;
  task_type : pystr;
  status : Status;
  input_data : option json;
  result : option json;
  error : option pystr;
  created_at : Z;
  updated_at : Z
}.
End AsyncTask.

Module InterpretationHistory.
(** A row of [interpretation_history]; the four text columns are
    nullable. *)
Record t : Type := mk {
  user_id : pystr;
  task_id : option pystr;
  content_preview : option pystr;
  interpretation_preview : option pystr;
  full_content : option pystr;
  full_interpretation : option pystr;
  recommendations : json
}.
End InterpretationHistory.

(* ================================================================== *)
(** * The world outside the process *)
(* ================================================================== *)

(** What the file system holds at a path: what [open(path, 'rb').read()]
    gives (the bytes, or the [OSError] it raises, as for a directory) and
    whether [os.remove(path)] raises. *)
Record node : Type := mk_node {
  node_read : res (list byte);
  node_remove : option exn
}.

(** A message published to the Celery broker. *)
Inductive message : Type :=
  | Msg_search_related_papers_task (query : pystr) (count : Z)
  | Msg_save_to_history (user_id task_id : pystr) (result : json)
  | Msg_process_paper_task (task_id user_id : pystr) (file_path text : option pystr)
                           (retries : nat) (countdown : Z).

(** An HTTP request handed to [requests]. *)
Record request : Type := mk_request {
  req_method : string;
  req_url : pystr;
  req_headers : list (pystr * pystr);
  req_data : json;
  req_timeout : Z
}.

(** The [requests.Response] the code looks at. *)
Record Response : Type := mk_Response {
  status_code : Z;
  reason : pystr;
  resp_url : pystr;
  resp_json : res json
}.

(** The state the tasks read and write.  [now] counts the interactions
    with the outside so far; it is the instant the oracles are asked at. *)
Record State : Type := mk_State {
  async_tasks : gmap pystr AsyncTask.t;
  interpretation_history : list InterpretationHistory.t;
  files : gmap pystr node;
  broker : list message;
  sent : list request;
  stdout : list pystr;
  now : nat
}.

(** The behaviour of everything the code calls but does not define.  An
    oracle that takes a [nat] is asked at an instant, so that the same call
    may fail on one attempt and succeed on the next. *)
Record World : Type := mk_World {
  DEEPSEEK_API_KEY : option pystr;
  SPRINGER_API_KEY : option pystr;
  (** the database call made at this instant raises *)
  db_fault : nat -> option exn;
  (** publishing a message at this instant raises *)
  broker_fault : nat -> option exn;
  (** [AsyncResult.get(timeout=10)] started at this instant raises *)
  result_fault : nat -> option exn;
  requests_post : nat -> request -> res Response;
  requests_get : nat -> request -> res Response;
  (** [PdfReader(BytesIO(b)).pages], each page with what its
      [extract_text()] gives *)
  PdfReader : list byte -> res (list (res pystr));
  (** the [text] of each of [docx.Document(BytesIO(b)).paragraphs] *)
  docx_Document : list byte -> res (list pystr);
  (** [b.decode(encoding, errors='ignore')] *)
  bytes_decode : pystr -> list byte -> res pystr;
  utcnow : nat -> Z;
  isoformat : Z -> pystr
}.

(* ================================================================== *)
(** * The monad of a task body *)
(* ================================================================== *)

Definition M (A : Type) : Type := State -> res A * State.

Definition ret {A} (a : A) : M A := fun s => (Ok a, s).

Definition raise {A} (e : exn) : M A := fun s => (Raise e, s).

Definition bind {A B} (m : M A) (k : A -> M B) : M B := fun s =>
  match m s with
  | (Ok a, s') => k a s'
  | (Raise e, s') => (Raise e, s')
  end.

Notation "'let*' x ':=' m 'in' k" := (bind m (fun x => k))
  (at level 10, x name, m at level 100, k at level 200).
Notation "m ';;;' k" := (bind m (fun _ => k))
  (at level 100, k at level 200, right associativity).

(** [try: body / except Exception as e: handler(e)] (and the bare
    [except:]): an exception raised by the handler itself escapes. *)
Definition try_except {A} (body : M A) (handler : exn -> M A) : M A := fun s =>
  match body s with
  | (Ok a, s') => (Ok a, s')
  | (Raise e, s') => handler e s'
  end.

(** [try: body / finally: cleanup]: the cleanup runs on every exit of the
    body; the body's outcome stands unless the cleanup raises. *)
Definition try_finally {A} (body : M A) (cleanup : M unit) : M A := fun s =>
  match body s with
  | (r, s') =>
      match cleanup s' with
      | (Ok _, s'') => (r, s'')
      | (Raise e, s'') => (Raise e, s'')
      end
  end.

(** An expression that touches no state. *)
Definition lift {A} (r : res A) : M A := fun s => (r, s).

Definition get : M State := fun s => (Ok s, s).

(** Take the current instant and move the clock on. *)
Definition tick : M nat := fun s =>
  (Ok (now s),
   mk_State (async_tasks s) (interpretation_history s) (files s) (broker s)
            (sent s) (stdout s) (S (now s))).

Definition set_async_tasks (d : gmap pystr AsyncTask.t) : M unit := fun s =>
  (Ok tt, mk_State d (interpretation_history s) (files s) (broker s)
                   (sent s) (stdout s) (now s)).

Definition set_interpretation_history (h : list InterpretationHistory.t) : M unit := fun s =>
  (Ok tt, mk_State (async_tasks s) h (files s) (broker s) (sent s) (stdout s) (now s)).

Definition set_files (f : gmap pystr node) : M unit := fun s =>
  (Ok tt, mk_State (async_tasks s) (interpretation_history s) f (broker s)
                   (sent s) (stdout s) (now s)).

Definition publish (m : message) : M unit := fun s =>
  (Ok tt, mk_State (async_tasks s) (interpretation_history s) (files s) (broker s ++ [m])
                   (sent s) (stdout s) (now s)).

Definition record_request (r : request) : M unit := fun s =>
  (Ok tt, mk_State (async_tasks s) (interpretation_history s) (files s) (broker s)
                   (sent s ++ [r]) (stdout s) (now s)).

(** [print(line)]. *)
Definition print (line : pystr) : M unit := fun s =>
  (Ok tt, mk_State (async_tasks s) (interpretation_history s) (files s) (broker s)
                   (sent s) (stdout s ++ [line]) (now s)).

(** Ask a fault oracle: raise what it says, if anything. *)
Definition check_fault (f : nat -> option exn) : M unit :=
  let* t := tick in
  match f t with
  | Some e => raise e
  | None => ret tt
  end.

Definition nl : pystr := [10].

Definition nonempty {A} (l : list A) : bool :=
  match l with [] => false | _ => true end.

(** The assignments of [AsyncTask.update_status], [updated_at] being the
    time read: [self.status = status], [self.updated_at = ...], and
    [self.result], [self.error] only under their [is not None] guards. *)
Definition assign (self : AsyncTask.t) (status : Status) (updated_at : Z)
    (result : option json) (error : option pystr) : AsyncTask.t :=
  AsyncTask.mk (AsyncTask.task_id self) (AsyncTask.user_id self)
    (AsyncTask.task_type self)
    status
    (AsyncTask.input_data self)
    (match result with Some r => Some r | None => AsyncTask.result self end)
    (match error with Some e => Some e | None => AsyncTask.error self end)
    (AsyncTask.created_at self)
    updated_at.

Section Pipeline.

Context (w : World).

(* ================================================================== *)
(** * [main.py]: the job store *)
(* ================================================================== *)

(** [AsyncTask.get_by_id]: the row with this [task_id], if any. *)
Definition AsyncTask_get_by_id (task_id : pystr) : M (option AsyncTask.t) :=
  check_fault (db_fault w) ;;;
  let* s := get in
  ret (async_tasks s !! task_id).

(** [AsyncTask.update_status]: [status] and [updated_at] are overwritten,
    [result] and [error] only when the argument is not [None]; then the
    row is committed. *)
Definition AsyncTask_update_status (self : AsyncTask.t) (status : Status)
    (result : option json) (error : option pystr) : M unit :=
  let* t := tick in
  let self' := assign self status (utcnow w t) result error in
  check_fault (db_fault w) ;;;
  let* s := get in
  set_async_tasks (<[AsyncTask.task_id self' := self']> (async_tasks s)).

(** [result.get(key)]: the default is [None]. *)
Definition py_get_none (v : json) (key : pystr) : res json := py_get v key JNull.

(** What the driver does with the value bound to a nullable [Text]
    column: [None] and a [str] are stored, a list is refused.  (Nothing
    else reaches a text column of [create_from_result]: the slice has
    raised before.) *)
Definition bind_text (v : json) : res (option pystr) :=
  match v with
  | JNull => Ok None
  | JStr s => Ok (Some s)
  | _ => Raise (PyErr "StatementError" (u "Error binding parameter: type is not supported"))
  end.

(** [InterpretationHistory.create_from_result]. *)
Definition InterpretationHistory_create_from_result (user_id task_id : pystr)
    (result : json) : M InterpretationHistory.t :=
  let* content_preview :=
    lift (res_bind (py_get result (u "original_content") (JStr [])) (fun v => py_slice v 500)) in
  let* interpretation_preview :=
    lift (res_bind (py_get result (u "interpretation") (JStr [])) (fun v => py_slice v 500)) in
  let* full_content := lift (py_get_none result (u "original_content")) in
  let* full_interpretation := lift (py_get_none result (u "interpretation")) in
  let* recommendations := lift (py_get result (u "recommendations") (JArr [])) in
  (* db.add(history); await db.commit() *)
  check_fault (db_fault w) ;;;
  let* cp := lift (bind_text content_preview) in
  let* ip := lift (bind_text interpretation_preview) in
  let* fc := lift (bind_text full_content) in
  let* fi := lift (bind_text full_interpretation) in
  let history := InterpretationHistory.mk user_id (Some task_id) cp ip fc fi recommendations in
  let* s := get in
  set_interpretation_history (interpretation_history s ++ [history]) ;;;
  ret history.

(* ================================================================== *)
(** * [tasks.py] *)
(* ================================================================== *)

Definition DEEPSEEK_API_URL : pystr := u "https://api.deepseek.com/v1/chat/completions".

Definition max_retries : nat := 3.
Definition default_retry_delay : Z := 30.

(** [update_task_status]: whatever the session raises is printed, not
    raised. *)
Definition update_task_status (task_id : pystr) (status : Status)
    (result : option json) (error : option pystr) : M unit :=
  try_except
    (let* task := AsyncTask_get_by_id task_id in
     match task with
     | Some task => AsyncTask_update_status task status result error
     | None => ret tt
     end)
    (fun e => print (u "更新任务状态失败: " ++ str_exn e)).

(** ** [extract_content] *)

Definition os_path_exists (path : pystr) : M bool :=
  let* s := get in
  ret (bool_decide (is_Some (files s !! path))).

Definition FileNotFoundError : exn :=
  PyErr "FileNotFoundError" (u "[Errno 2] No such file or directory").

(** [with open(path, 'rb') as f: f.read()]. *)
Definition open_read (path : pystr) : M (list byte) :=
  let* s := get in
  match files s !! path with
  | Some n => lift (node_read n)
  | None => raise FileNotFoundError
  end.

Definition os_remove (path : pystr) : M unit :=
  let* s := get in
  match files s !! path with
  | Some n =>
      match node_remove n with
      | Some e => raise e
      | None => set_files (delete path (files s))
      end
  | None => raise FileNotFoundError
  end.

(** The loop over [enumerate(pdf_reader.pages[:5])]. *)
Fixpoint pdf_pages (page_num : nat) (pages : list (res pystr)) (content : pystr) : res pystr :=
  match pages with
  | [] => Ok content
  | page :: pages' =>
      res_bind page (fun page_text =>
        pdf_pages (S page_num) pages'
          (if nonempty page_text
           then content ++ (u "第" ++ str_of_nat (page_num + 1) ++ u "页:" ++ nl
                            ++ page_text ++ nl ++ nl)
           else content))
  end.

(** The PDF attempt: [Some c] when the function returns [c] from it. *)
Definition try_pdf (file_bytes : list byte) : option pystr :=
  match res_bind (PdfReader w file_bytes) (fun pages => pdf_pages 0 (take 5 pages) []) with
  | Ok content => if nonempty content then Some content else None
  | Raise _ => None
  end.

(** The loop over [doc.paragraphs]. *)
Fixpoint docx_paragraphs (paragraphs : list pystr) (content : pystr) : pystr :=
  match paragraphs with
  | [] => content
  | text :: paragraphs' =>
      docx_paragraphs paragraphs'
        (if strip_nonempty text then content ++ text ++ nl else content)
  end.

(** The DOCX attempt. *)
Definition try_docx (file_bytes : list byte) : option pystr :=
  match docx_Document w file_bytes with
  | Ok paragraphs =>
      let content := docx_paragraphs paragraphs [] in
      if nonempty content then Some content else None
  | Raise _ => None
  end.

Definition encodings : list pystr := [u "utf-8"; u "gbk"; u "gb2312"; u "latin-1"].

(** The loop over the encodings: the first decode that does not raise is
    returned, whatever it is. *)
Fixpoint try_decode (encs : list pystr) (file_bytes : list byte) : option pystr :=
  match encs with
  | [] => None
  | encoding :: encs' =>
      match bytes_decode w encoding file_bytes with
      | Ok text => Some text
      | Raise _ => try_decode encs' file_bytes
      end
  end.

Definition EXTRACT_SENTINEL : pystr :=
  u "无法提取文本内容，文件可能是扫描件或包含图像文字。".

(** [file_path and os.path.exists(file_path)]. *)
Definition path_present (file_path : option pystr) : M bool :=
  if truthy_opt file_path then os_path_exists (default [] file_path) else ret false.

(** What the three attempts make of the bytes read: the PDF text if it is
    not empty, else the DOCX text if it is not empty, else the first decode
    that does not raise, else the sentinel. *)
Definition extract_bytes (file_bytes : list byte) : pystr :=
  match try_pdf file_bytes with
  | Some content => content
  | None =>
      match try_docx file_bytes with
      | Some content => content
      | None =>
          match try_decode encodings file_bytes with
          | Some text => text
          | None => EXTRACT_SENTINEL
          end
      end
  end.

(** The [finally] block of [extract_content]. *)
Definition cleanup (file_path : option pystr) : M unit :=
  let* present := path_present file_path in
  if present
  then try_except (os_remove (default [] file_path)) (fun _ => ret tt)
  else ret tt.

Definition extract_content (file_path text : option pystr) : M pystr :=
  if truthy_opt text then ret (take 10000 (default [] text))
  else
    let* present := path_present file_path in
    if negb present then ret []
    else
      try_finally
        (let* file_bytes := open_read (default [] file_path) in
         ret (extract_bytes file_bytes))
        (cleanup file_path).

(** ** [call_deepseek_api] *)

(** [response.raise_for_status()]: an [HTTPError] for a 4xx or 5xx
    status. *)
Definition raise_for_status (response : Response) : res unit :=
  let code := status_code response in
  if ((400 <=? code) && (code <? 500))%Z
  then Raise (PyErr "HTTPError"
                (str_of_Z code ++ u " Client Error: " ++ reason response
                 ++ u " for url: " ++ resp_url response))
  else if ((500 <=? code) && (code <? 600))%Z
  then Raise (PyErr "HTTPError"
                (str_of_Z code ++ u " Server Error: " ++ reason response
                 ++ u " for url: " ++ resp_url response))
  else Ok tt.

(** [requests.post(...)] and [requests.get(...)]. *)
Definition http_post (req : request) : M Response :=
  let* t := tick in
  record_request req ;;;
  lift (requests_post w t req).

Definition http_get (req : request) : M Response :=
  let* t := tick in
  record_request req ;;;
  lift (requests_get w t req).

Definition NOT_CONFIGURED : pystr := u "API密钥未配置".
Definition NO_RESULT : pystr := u "未能获取解读结果".
Definition CALL_FAILED : pystr := u "API调用失败: ".
Definition TRUNCATION_NOTICE : pystr := nl ++ u "[注：内容过长，已截断]".

Definition system_prompt : pystr :=
  u "你是一位专业的自然科学论文解读助手，专门帮助高中生理解学术论文。请用通俗易懂的语言解读。".

Definition user_prompt (content : pystr) : pystr :=
  u "请解读以下自然科学论文内容（用中文回答）：" ++ nl
  ++ u "    " ++ nl
  ++ content ++ nl
  ++ nl
  ++ u "要求：" ++ nl
  ++ u "1. 用通俗易懂的语言解释专业术语" ++ nl
  ++ u "2. 分析研究方法和实验设计" ++ nl
  ++ u "3. 总结主要发现和意义" ++ nl
  ++ u "4. 联系高中自然科学知识" ++ nl
  ++ u "5. 在解读最后附上" ++ dquote ++ u "术语解读区" ++ dquote ++ nl
  ++ nl
  ++ u "请在末尾添加：" ++ dquote ++ u "解读内容由DeepSeek AI生成，仅供参考" ++ dquote ++ u " ".

Definition deepseek_request (api_key content : pystr) : request :=
  mk_request "POST" DEEPSEEK_API_URL
    [(u "Authorization", u "Bearer " ++ api_key);
     (u "Content-Type", u "application/json")]
    (JObj [(u "model", JStr (u "deepseek-chat"));
           (u "messages",
            JArr [JObj [(u "role", JStr (u "system")); (u "content", JStr system_prompt)];
                  JObj [(u "role", JStr (u "user")); (u "content", JStr (user_prompt content))]]);
           (u "temperature", JFloat 7 (-1));
           (u "max_tokens", JNum 2000);
           (u "stream", JBool false)])
    60.

(** The part of [call_deepseek_api] inside its [try]. *)
Definition deepseek_exchange (api_key content : pystr) : M json :=
  let* response := http_post (deepseek_request api_key content) in
  lift (raise_for_status response) ;;;
  let* result := lift (resp_json response) in
  let* has_choices := lift (py_in (u "choices") result) in
  let* some_choice :=
    (if has_choices
     then let* choices := lift (py_item result (u "choices")) in
          let* n := lift (py_len choices) in
          ret (0 <? n)%nat
     else ret false) in
  if some_choice
  then let* choices := lift (py_item result (u "choices")) in
       let* choice := lift (py_item0 choices) in
       let* message := lift (py_item choice (u "message")) in
       lift (py_item message (u "content"))
  else ret (JStr NO_RESULT).

(** [content[:5000] + notice if len(content) > 5000 else content]. *)
Definition capped (content : pystr) : pystr :=
  if (5000 <? length content)%nat then take 5000 content ++ TRUNCATION_NOTICE
  else content.

Definition call_deepseek_api (content : pystr) : M json :=
  if negb (truthy_opt (DEEPSEEK_API_KEY w)) then ret (JStr NOT_CONFIGURED)
  else
    let content := capped content in
    try_except
      (deepseek_exchange (default [] (DEEPSEEK_API_KEY w)) content)
      (fun e => ret (JStr (CALL_FAILED ++ str_exn e))).

(** ** [search_related_papers_task] *)

Definition ELLIPSIS : pystr := u "...".

(** The dictionary built from one record in the loop of
    [search_related_papers_task]. *)
Definition paper_of_record (record : json) : res json :=
  res_bind (py_get record (u "title") (JStr [])) (fun title =>
  res_bind (py_get record (u "creators") (JArr [])) (fun creators =>
  res_bind (py_iter creators) (fun creators =>
  res_bind (res_map (fun creator => py_get creator (u "creator") (JStr [])) creators) (fun names =>
  res_bind (py_join (u ", ") names) (fun authors =>
  res_bind (py_get record (u "publicationName") (JStr [])) (fun publication =>
  res_bind (py_get_none record (u "publicationDate")) (fun has_date =>
  res_bind (if truthy has_date
            then res_bind (py_get record (u "publicationDate") (JStr []))
                          (fun d => py_slice d 4)
            else Ok (JStr [])) (fun year =>
  res_bind (py_get_none record (u "url")) (fun has_url =>
  res_bind (if truthy has_url
            then res_bind (py_get record (u "url") (JArr [JObj []])) (fun urls =>
                 res_bind (py_item0 urls) (fun url0 =>
                 py_get url0 (u "value") (JStr [])))
            else Ok (JStr [])) (fun url =>
  res_bind (py_get_none record (u "abstract")) (fun has_abstract =>
  res_bind (if truthy has_abstract
            then res_bind (py_get record (u "abstract") (JStr [])) (fun a =>
                 res_bind (py_slice a 200) (fun a200 =>
                 py_add_str a200 ELLIPSIS))
            else Ok (JStr [])) (fun abstract =>
  Ok (JObj [(u "title", title);
            (u "authors", JStr authors);
            (u "publication", publication);
            (u "year", year);
            (u "url", url);
            (u "abstract", abstract)]))))))))))))).

Definition springer_request (api_key query : pystr) (count : Z) : request :=
  mk_request "GET" (u "https://api.springernature.com/meta/v2/json") []
    (JObj [(u "q", JStr query);
           (u "api_key", JStr api_key);
           (u "p", JNum count);
           (u "s", JNum 1)])
    15.

Definition search_related_papers_task (query : pystr) (count : Z) : M (list json) :=
  try_except
    (if negb (truthy_opt (SPRINGER_API_KEY w)) then ret []
     else
       let* response :=
         http_get (springer_request (default [] (SPRINGER_API_KEY w)) query count) in
       lift (raise_for_status response) ;;;
       let* data := lift (resp_json response) in
       let* has_records := lift (py_in (u "records") data) in
       if has_records
       then let* records := lift (py_item data (u "records")) in
            let* first := lift (py_slice records count) in
            let* first := lift (py_iter first) in
            lift (res_map paper_of_record first)
       else ret [])
    (fun e => print (u "搜索论文失败: " ++ str_exn e) ;;; ret []).

(** ** [search_related_papers] *)

Definition DEFAULT_QUERY : pystr := u "natural science".

(** The query built from the content. *)
Definition query_of (content : pystr) : pystr :=
  let words := take 3 (split content) in
  if nonempty words then join (u " ") words else DEFAULT_QUERY.

(** [task.apply_async(...)] and [task.delay(...)]: the message reaches
    the broker, or the publish raises. *)
Definition apply_async (m : message) : M unit :=
  check_fault (broker_fault w) ;;;
  publish m.

(** [result.get(timeout=10)] on the sub-task: it raises (the wait expired,
    the result backend failed), or gives what the sub-task, run by another
    worker meanwhile, returned. *)
Definition result_get (query : pystr) (count : Z) : M (list json) :=
  check_fault (result_fault w) ;;;
  search_related_papers_task query count.

Definition search_related_papers (content : pystr) : M (list json) :=
  if negb (truthy_opt (SPRINGER_API_KEY w)) || negb (nonempty content) then ret []
  else
    let query := query_of content in
    apply_async (Msg_search_related_papers_task query 3) ;;;
    try_except (result_get query 3) (fun _ => ret []).

(** ** [save_to_history] *)

Definition save_to_history (user_id task_id : pystr) (result : json) : M unit :=
  try_except
    (let* _h := InterpretationHistory_create_from_result user_id task_id result in
     ret tt)
    (fun e => print (u "保存历史记录失败: " ++ str_exn e)).

(** ** [process_paper_task] *)

Definition EXTRACT_FAILED : pystr := u "无法提取文本内容".

(** [self.retry(exc=e)]: the task is published again with one more retry
    and the default delay, and [Retry] is raised; a publish that fails is
    raised as [Reject]. *)
Definition self_retry (task_id user_id : pystr) (file_path text : option pystr)
    (retries : nat) (e : exn) : M (option json) :=
  try_except
    (apply_async (Msg_process_paper_task task_id user_id file_path text
                    (S retries) default_retry_delay))
    (fun exc => raise (PyErr "Reject" (str_exn exc))) ;;;
  raise (Retry e default_retry_delay).

(** The dictionary stored as the job's result. *)
Definition build_result (interpretation : json) (content : pystr)
    (recommendations : list json) (processed_at : pystr) : json :=
  JObj [(u "interpretation", interpretation);
        (u "original_content",
         JStr (if (2000 <? length content)%nat then take 2000 content ++ ELLIPSIS
               else content));
        (u "recommendations", JArr recommendations);
        (u "processed_at", JStr processed_at);
        (u "content_length", JNum (Z.of_nat (length content)))].

(** The body of the [try] of [process_paper_task]. *)
Definition process_paper_body (task_id user_id : pystr)
    (file_path text : option pystr) : M (option json) :=
  update_task_status task_id processing None None ;;;
  let* content := extract_content file_path text in
  if negb (nonempty content)
  then update_task_status task_id failed None (Some EXTRACT_FAILED) ;;;
       ret None
  else
    let* interpretation := call_deepseek_api content in
    let* recommendations := search_related_papers content in
    let* t := tick in
    let result := build_result interpretation content recommendations
                    (isoformat w (utcnow w t)) in
    update_task_status task_id completed (Some result) None ;;;
    apply_async (Msg_save_to_history user_id task_id result) ;;;
    ret (Some result).

(** One delivery of the task, [retries] being [self.request.retries]. *)
Definition process_paper_task (retries : nat) (task_id user_id : pystr)
    (file_path text : option pystr) : M (option json) :=
  try_except
    (process_paper_body task_id user_id file_path text)
    (fun e =>
       update_task_status task_id failed None (Some (str_exn e)) ;;;
       if (retries <? max_retries)%nat
       then self_retry task_id user_id file_path text retries e
       else ret None).

(** The worker: a delivery that ends in [Retry] is followed by the next
    delivery, with one more retry; any other outcome ends the job.
    [None] only when [fuel] deliveries were not enough. *)
Fixpoint run_job (fuel retries : nat) (task_id user_id : pystr)
    (file_path text : option pystr) (s : State)
    : option (res (option json) * State * nat) :=
  match fuel with
  | O => None
  | S fuel' =>
      match process_paper_task retries task_id user_id file_path text s with
      | (Raise (Retry _ _), s') => run_job fuel' (S retries) task_id user_id file_path text s'
      | (r, s') => Some (r, s', retries)
      end
  end.

End Pipeline.

(* ================================================================== *)
(** * Concrete worlds and states *)
(* ================================================================== *)

Definition not_a_pdf : list byte -> res (list (res pystr)) :=
  fun _ => Raise (PyErr "PdfReadError" (u "EOF marker not found")).

Definition not_a_docx : list byte -> res (list pystr) :=
  fun _ => Raise (PyErr "BadZipFile" (u "File is not a zip file")).

Definition unreachable : nat -> request -> res Response :=
  fun _ _ => Raise (PyErr "ConnectionError" (u "Connection refused")).

(** No credential is configured and nothing fails; files are plain text. *)
Definition plain_world : World :=
  mk_World None None (fun _ => None) (fun _ => None) (fun _ => None)
           unreachable unreachable not_a_pdf not_a_docx
           (fun _ bs => Ok (utf8_decode bs)) Z.of_nat str_of_Z.

Definition READ_TIMEOUT : exn :=
  PyErr "ReadTimeout" (u "Read timed out. (read timeout=60)").

(** The interpretation service is configured and every call to it times
    out. *)
Definition timeout_world : World :=
  mk_World (Some (u "sk-test")) None (fun _ => None) (fun _ => None) (fun _ => None)
           (fun _ _ => Raise READ_TIMEOUT) unreachable not_a_pdf not_a_docx
           (fun _ bs => Ok (utf8_decode bs)) Z.of_nat str_of_Z.

Definition BROKER_DOWN : exn :=
  PyErr "OperationalError" (u "Error 111 connecting to localhost:6379. Connection refused.").

(** As [plain_world], but the broker refuses the message published at
    instant 7. *)
Definition flaky_broker_world : World :=
  mk_World None None (fun _ => None)
           (fun t => if (t =? 7)%nat then Some BROKER_DOWN else None) (fun _ => None)
           unreachable unreachable not_a_pdf not_a_docx
           (fun _ bs => Ok (utf8_decode bs)) Z.of_nat str_of_Z.

(** The search credential is configured and the broker is down. *)
Definition broker_down_world : World :=
  mk_World None (Some (u "springer-key")) (fun _ => None)
           (fun _ => Some BROKER_DOWN) (fun _ => None)
           unreachable unreachable not_a_pdf not_a_docx
           (fun _ bs => Ok (utf8_decode bs)) Z.of_nat str_of_Z.

Definition sample_record : json :=
  JObj [(u "title", JStr (u "Light reactions"));
        (u "creators", JArr [JObj [(u "creator", JStr (u "Hill, R."))];
                             JObj [(u "creator", JStr (u "Bendall, F."))]]);
        (u "publicationName", JStr (u "Nature"));
        (u "publicationDate", JStr (u "1960-04-09"));
        (u "url", JArr [JObj [(u "format", JStr []); (u "value", JStr (u "http://dx.doi.org/10.1038/186136a0"))]]);
        (u "abstract", JStr (u "A short abstract."))].

Definition sample_response : Response :=
  mk_Response 200 (u "OK") (u "https://api.springernature.com/meta/v2/json")
    (Ok (JObj [(u "records", JArr [sample_record; sample_record; sample_record; sample_record])])).

(** The search credential is configured and the index answers with four
    records. *)
Definition springer_world : World :=
  mk_World None (Some (u "springer-key")) (fun _ => None) (fun _ => None) (fun _ => None)
           unreachable (fun _ _ => Ok sample_response) not_a_pdf not_a_docx
           (fun _ bs => Ok (utf8_decode bs)) Z.of_nat str_of_Z.

(** The search credential is configured, the index answers, and the wait
    for the sub-task expires. *)
Definition slow_search_world : World :=
  mk_World None (Some (u "springer-key")) (fun _ => None) (fun _ => None)
           (fun _ => Some (PyErr "TimeoutError" (u "The operation timed out.")))
           unreachable (fun _ _ => Ok sample_response) not_a_pdf not_a_docx
           (fun _ bs => Ok (utf8_decode bs)) Z.of_nat str_of_Z.

Definition job_id : pystr := u "job-1".
Definition owner : pystr := u "user-1".

(** A job as the endpoint creates it. *)
Definition fresh_job : AsyncTask.t :=
  AsyncTask.mk job_id owner (u "interpretation") pending None None None 0 0.

Definition upload : pystr := u "/tmp/paper.txt".

(** The store holds the fresh job, and [files] is the file system. *)
Definition state_with (files : gmap pystr node) : State :=
  mk_State {[ job_id := fresh_job ]} [] files [] [] [] 0.

Definition state0 : State := state_with ∅.

(** A regular file with these bytes. *)
Definition regular_file (bs : list byte) : node := mk_node (Ok bs) None.

(** A directory: it cannot be opened for reading, nor removed as a file. *)
Definition directory : node :=
  mk_node (Raise (PyErr "IsADirectoryError" (u "[Errno 21] Is a directory")))
          (Some (PyErr "IsADirectoryError" (u "[Errno 21] Is a directory"))).

Definition sample_text : pystr := u "Photosynthesis converts light energy...".

Definition sample_result : json :=
  build_result (JStr NOT_CONFIGURED) sample_text [] (u "2024-05-01T08:00:00").

Definition sample_history : InterpretationHistory.t :=
  InterpretationHistory.mk owner (Some job_id) (Some sample_text) (Some NOT_CONFIGURED)
    (Some sample_text) (Some NOT_CONFIGURED) (JArr []).

Definition missing : pystr := u "/tmp/missing.pdf".

Definition paper_bytes : list byte := list_byte_of_string "Chlorophyll absorbs light.".

Definition short_record : json :=
  JObj [(u "title", JStr (u "Light reactions")); (u "abstract", JStr (u "abc"))].

(* ================================================================== *)
(** * Vocabulary of the properties *)
(* ================================================================== *)

(** The computation returns a value from every state. *)
Definition never_raises {A} (m : M A) : Prop :=
  forall s, exists a s', m s = (Ok a, s').

(** Every run of [m] takes the component [f] of the state to one related
    to it by [R]; with [R := eq], [m] leaves the component alone. *)
Definition steps {X A} (f : State -> X) (R : relation X) (m : M A) : Prop :=
  forall s, R (f s) (f (snd (m s))).

(** The database answers every call. *)
Definition db_healthy (w : World) : Prop := forall t, db_fault w t = None.

(** Every row is stored under its own [task_id]. *)
Definition keyed (d : gmap pystr AsyncTask.t) : Prop :=
  forall k j, d !! k = Some j -> AsyncTask.task_id j = k.

(** The two fields as the data model wants them: exactly the one that
    goes with a terminal status is set. *)
Definition exclusive (j : AsyncTask.t) : Prop :=
  (AsyncTask.status j = completed ->
     AsyncTask.result j <> None /\ AsyncTask.error j = None) /\
  (AsyncTask.status j = failed ->
     AsyncTask.error j <> None /\ AsyncTask.result j = None).

(** What the code keeps of it: the field that goes with a terminal status
    is set. *)
Definition terminal_field_set (j : AsyncTask.t) : Prop :=
  (AsyncTask.status j = completed -> AsyncTask.result j <> None) /\
  (AsyncTask.status j = failed -> AsyncTask.error j <> None).

(** The three shapes of status write the orchestrator makes: no field
    with [processing], the error alone with [failed], the result alone with
    [completed]. *)
Inductive orchestrator_write : Status -> option json -> option pystr -> Prop :=
  | write_processing : orchestrator_write processing None None
  | write_failed e : orchestrator_write failed None (Some e)
  | write_completed r : orchestrator_write completed (Some r) None.

(** A field that was set is still set. *)
Definition never_cleared (j j' : AsyncTask.t) : Prop :=
  (is_Some (AsyncTask.result j) -> is_Some (AsyncTask.result j')) /\
  (is_Some (AsyncTask.error j) -> is_Some (AsyncTask.error j')).

(** Two relations between the job store before and after: every row that
    is there has the field of its terminal status, if every row had;
    and, in a keyed store, every row is still there with no field cleared. *)
Definition store_ok (d : gmap pystr AsyncTask.t) : Prop :=
  forall k j, d !! k = Some j -> terminal_field_set j.

Definition keeps_store_ok (d d' : gmap pystr AsyncTask.t) : Prop :=
  store_ok d -> store_ok d'.

Definition clears_nothing (d d' : gmap pystr AsyncTask.t) : Prop :=
  keyed d ->
  keyed d' /\
  forall k j, d !! k = Some j ->
    exists j', d' !! k = Some j' /\ never_cleared j j'.

(** The broker accepts every message. *)
Definition broker_healthy (w : World) : Prop := forall t, broker_fault w t = None.

(** A whitespace-delimited token: not empty, no space in it. *)
Definition token (t : pystr) : Prop :=
  t <> [] /\ Forall (fun c => isspace c = false) t.

(** [p] is a preview of the full text [f]: at most 500 code points, and a
    prefix of the full text when there is one. *)
Definition preview_of (p f : option pystr) : Prop :=
  exists pv, p = Some pv /\ (length pv <= 500)%nat /\
             forall fv, f = Some fv -> pv `prefix_of` fv.


(** The state after the request has been handed to [requests]. *)
Definition requested (r : request) (s : State) : State :=
  snd (record_request r (snd (tick s))).

(** What reading the node gives the extractor: the text made of its
    bytes, or the exception [open] raises. *)
Definition extraction_of (w : World) (n : node) : res pystr :=
  match node_read n with
  | Ok file_bytes => Ok (extract_bytes w file_bytes)
  | Raise e => Raise e
  end.

(** The state once the file at [path] has been removed, or left when
    [os.remove] raises. *)
Definition after_cleanup (path : pystr) (n : node) (s : State) : State :=
  match node_remove n with
  | None => snd (set_files (delete path (files s)) s)
  | Some _ => s
  end.


(* ================================================================== *)
(** * [main.py]: creating a job *)
(* ================================================================== *)

(** The keyword arguments of [AsyncTask.create(db, **kwargs)]: a column
    that is not given is [None] here. *)
Record AsyncTask_kwargs : Type := mk_kwargs {
  kw_task_id : option pystr;
  kw_user_id : option pystr;
  kw_task_type : option pystr;
  kw_status : option Status;
  kw_input_data : option json;
  kw_result : option json;
  kw_error : option pystr
}.

Definition IntegrityError (msg : string) : exn := PyErr "IntegrityError" (u msg).

(** [AsyncTask.create]: the row is built from the keyword arguments, the
    column defaults fill in [status] and the two timestamps, and the
    commit refuses a row that lacks one of the three [nullable=False]
    columns or whose [task_id] is taken ([unique=True]); then the row is
    refreshed and returned. *)
Definition AsyncTask_create (w : World) (kwargs : AsyncTask_kwargs) : M AsyncTask.t :=
  check_fault (db_fault w) ;;;
  match kw_task_id kwargs, kw_user_id kwargs, kw_task_type kwargs with
  | Some task_id, Some user_id, Some task_type =>
      let* s := get in
      match async_tasks s !! task_id with
      | Some _ => raise (IntegrityError "UNIQUE constraint failed: async_tasks.task_id")
      | None =>
          let* t1 := tick in
          let* t2 := tick in
          let task :=
            AsyncTask.mk task_id user_id task_type
              (default pending (kw_status kwargs))
              (kw_input_data kwargs) (kw_result kwargs) (kw_error kwargs)
              (utcnow w t1) (utcnow w t2) in
          set_async_tasks (<[task_id := task]> (async_tasks s)) ;;;
          check_fault (db_fault w) ;;;
          ret task
      end
  | _, _, _ => raise (IntegrityError "NOT NULL constraint failed")
  end.

(* ================================================================== *)
(** * [utils.py] *)
(* ================================================================== *)

(** [os.path.join(a, b)] on a POSIX system. *)
Definition os_path_join (a b : pystr) : pystr :=
  match b with
  | 47 :: _ => b
  | _ =>
      match last a with
      | None => a ++ b
      | Some 47 => a ++ b
      | Some _ => a ++ u "/" ++ b
      end
  end.

(** The [UploadFile] as the function uses it: its [filename], and what
    [await upload_file.read()] gives. *)
Record UploadFile : Type := mk_UploadFile {
  filename : option pystr;
  upload_read : res (list byte)
}.

(** What the two writes of [save_upload_file] meet on the disk, beyond
    what the file store decides: whether [open(path, 'wb')] raises (a
    missing directory, no permission) and whether [f.write(content)] does
    (no space left). *)
Record Disk : Type := mk_Disk {
  open_fault : pystr -> option exn;
  write_fault : pystr -> list byte -> option exn
}.

(** [open(path, 'wb')]: the file is created, or an existing regular file
    is emptied; a node that cannot be opened for reading (a directory)
    cannot be opened for writing either. *)
Definition open_truncate (disk : Disk) (path : pystr) : M unit :=
  match open_fault disk path with
  | Some e => raise e
  | None =>
      let* s := get in
      match files s !! path with
      | None => set_files (<[path := mk_node (Ok []) None]> (files s))
      | Some n =>
          match node_read n with
          | Ok _ => set_files (<[path := mk_node (Ok []) (node_remove n)]> (files s))
          | Raise e => raise e
          end
      end
  end.

(** [f.write(content)] on the file just opened. *)
Definition write_bytes (disk : Disk) (path : pystr) (content : list byte) : M unit :=
  match write_fault disk path content with
  | Some e => raise e
  | None =>
      let* s := get in
      match files s !! path with
      | Some n => set_files (<[path := mk_node (Ok content) (node_remove n)]> (files s))
      | None => raise (PyErr "OSError" (u "[Errno 9] Bad file descriptor"))
      end
  end.

(** [save_upload_file], [temp_dir] being [tempfile.gettempdir()]. *)
Definition save_upload_file (disk : Disk) (temp_dir : pystr) (upload_file : UploadFile)
    : M pystr :=
  match filename upload_file with
  | None =>
      raise (TypeError "expected str, bytes or os.PathLike object, not NoneType")
  | Some name =>
      let file_path := os_path_join temp_dir name in
      open_truncate disk file_path ;;;
      let* content := lift (upload_read upload_file) in
      write_bytes disk file_path content ;;;
      ret file_path
  end.





(* ================================================================== *)
(** * Vocabulary of the further properties *)
(* ================================================================== *)

(** The text stored under ["original_content"] in a result: the content,
    or its first 2000 code points and the marker. *)
Definition original_content_of (content : pystr) : pystr :=
  if (2000 <? length content)%nat then take 2000 content ++ ELLIPSIS else content.

(** A terminal status. *)
Definition terminal (status : Status) : Prop := status = completed \/ status = failed.

(** The interpretation service answers [content] as the text of its
    first choice. *)
Definition chat_completion (content : json) : json :=
  JObj [(u "id", JStr (u "chatcmpl-1"));
        (u "choices",
         JArr [JObj [(u "index", JNum 0);
                     (u "message", JObj [(u "role", JStr (u "assistant"));
                                         (u "content", content)])]])].

Definition answering (body : json) : nat -> request -> res Response :=
  fun _ _ => Ok (mk_Response 200 (u "OK") DEEPSEEK_API_URL (Ok body)).

(** The interpretation service is configured and answers every call with
    [body]. *)
Definition deepseek_world (body : json) : World :=
  mk_World (Some (u "sk-test")) None (fun _ => None) (fun _ => None) (fun _ => None)
           (answering body) unreachable not_a_pdf not_a_docx
           (fun _ bs => Ok (utf8_decode bs)) Z.of_nat str_of_Z.

Definition sample_answer : pystr := u "光合作用把光能转化为化学能。".

(** The part of the [try] of [process_paper_task] that follows the
    extraction, [content] being what was extracted. *)
Definition after_extraction (w : World) (task_id user_id : pystr) (content : pystr)
    : M (option json) :=
  if negb (nonempty content)
  then update_task_status w task_id failed None (Some EXTRACT_FAILED) ;;;
       ret None
  else
    let* interpretation := call_deepseek_api w content in
    let* recommendations := search_related_papers w content in
    let* t := tick in
    let result := build_result interpretation content recommendations
                    (isoformat w (utcnow w t)) in
    update_task_status w task_id completed (Some result) None ;;;
    apply_async w (Msg_save_to_history user_id task_id result) ;;;
    ret (Some result).

(** The [except] branch of [process_paper_task]. *)
Definition handle_failure (w : World) (retries : nat) (task_id user_id : pystr)
    (file_path text : option pystr) (e : exn) : M (option json) :=
  update_task_status w task_id failed None (Some (str_exn e)) ;;;
  if (retries <? max_retries)%nat
  then self_retry w task_id user_id file_path text retries e
  else ret None.

(** A delivery from the point where the extraction has given [r]. *)
Definition finish (w : World) (retries : nat) (task_id user_id : pystr)
    (file_path text : option pystr) (r : res pystr) : M (option json) :=
  try_except
    (let* content := lift r in after_extraction w task_id user_id content)
    (handle_failure w retries task_id user_id file_path text).

(** The row of the job is in the store, under its id. *)
Definition present (task_id : pystr) (s : State) : Prop :=
  exists j, async_tasks s !! task_id = Some j /\ AsyncTask.task_id j = task_id.

(** The row of the job is in the store with this status, result and
    error. *)
Definition job_is (task_id : pystr) (status : Status) (result : option json)
    (error : option pystr) (s : State) : Prop :=
  exists j, async_tasks s !! task_id = Some j /\ AsyncTask.task_id j = task_id /\
            AsyncTask.status j = status /\ AsyncTask.result j = result /\
            AsyncTask.error j = error.

(** The row of the job is in the store with a terminal status. *)
Definition settled (task_id : pystr) (s : State) : Prop :=
  exists j, async_tasks s !! task_id = Some j /\ AsyncTask.task_id j = task_id /\
            terminal (AsyncTask.status j).

(** Two stores of files agree away from the file reference. *)
Definition same_other_files (file_path : option pystr) (f f' : gmap pystr node) : Prop :=
  forall other, Some other <> file_path -> f' !! other = f !! other.

(** A keyed store stays keyed and keeps every row but the job's. *)
Definition same_other_rows (task_id : pystr) (d d' : gmap pystr AsyncTask.t) : Prop :=
  keyed d -> keyed d' /\ forall k, k <> task_id -> d' !! k = d !! k.

(** The row of the job records the outcome [r] of a delivery: a returned
    result goes with [completed] and is the result stored; every other
    outcome goes with [failed] and a stored error. *)
Definition outcome_recorded (task_id : pystr) (r : res (option json)) (s : State) : Prop :=
  exists j, async_tasks s !! task_id = Some j /\ AsyncTask.task_id j = task_id /\
    match r with
    | Ok (Some result) =>
        AsyncTask.status j = completed /\ AsyncTask.result j = Some result
    | _ => AsyncTask.status j = failed /\ is_Some (AsyncTask.error j)
    end.

(** The store holds the fresh job and the file system the upload. *)
Definition uploaded : State := state_with {[ upload := regular_file paper_bytes ]}.

(** The label and text that the PDF loop adds for page [i] (from 0) with
    text [t]: nothing for a page without text. *)
Definition page_block (i : nat) (t : pystr) : pystr :=
  if nonempty t then u "第" ++ str_of_nat (i + 1) ++ u "页:" ++ nl ++ t ++ nl ++ nl
  else [].

(** The text of the pages, labelled from page number [k + 1]. *)
Fixpoint page_blocks (k : nat) (texts : list pystr) : pystr :=
  match texts with
  | [] => []
  | t :: texts' => page_block k t ++ page_blocks (S k) texts'
  end.

(** The non-blank paragraphs, each followed by a newline. *)
Definition paragraph_lines (paragraphs : list pystr) : pystr :=
  concat (map (fun t => t ++ nl) (List.filter strip_nonempty paragraphs)).

(** Every file parses as a PDF with these pages. *)
Definition pdf_world (pages : list (res pystr)) : World :=
  mk_World None None (fun _ => None) (fun _ => None) (fun _ => None)
           unreachable unreachable (fun _ => Ok pages) not_a_docx
           (fun _ bs => Ok (utf8_decode bs)) Z.of_nat str_of_Z.

(** Every file parses as a DOCX document with these paragraphs, and not
    as a PDF. *)
Definition docx_world (paragraphs : list pystr) : World :=
  mk_World None None (fun _ => None) (fun _ => None) (fun _ => None)
           unreachable unreachable not_a_pdf (fun _ => Ok paragraphs)
           (fun _ bs => Ok (utf8_decode bs)) Z.of_nat str_of_Z.

(** The field is absent, or holds a string. *)
Definition str_or_absent (key : pystr) (kv : list (pystr * json)) : bool :=
  match assoc key kv with
  | None | Some (JStr _) => true
  | Some _ => false
  end.

(** The field is absent, null, or holds a string. *)
Definition str_or_null (key : pystr) (kv : list (pystr * json)) : bool :=
  match assoc key kv with
  | None | Some JNull | Some (JStr _) => true
  | Some _ => false
  end.

(** An entry of [creators]: an object whose [creator], if any, is a
    string. *)
Definition creator_ok (c : json) : bool :=
  match c with
  | JObj ckv => str_or_absent (u "creator") ckv
  | _ => false
  end.

Definition creator_name (c : json) : pystr :=
  match c with
  | JObj ckv => match assoc (u "creator") ckv with Some (JStr s) => s | _ => [] end
  | _ => []
  end.

(** A record of the index with the types the loop of
    [search_related_papers_task] relies on: an object; [creators], if
    any, a list of objects whose [creator] is a string; the date and the
    abstract strings, null or absent; [url] absent, null, the empty list,
    or a list that starts with an object. *)
Definition well_typed_record (record : json) : bool :=
  match record with
  | JObj kv =>
      match assoc (u "creators") kv with
      | None => true
      | Some (JArr creators) => forallb creator_ok creators
      | Some _ => false
      end
      && str_or_null (u "publicationDate") kv
      && match assoc (u "url") kv with
         | None | Some JNull | Some (JArr []) | Some (JArr (JObj _ :: _)) => true
         | Some _ => false
         end
      && str_or_null (u "abstract") kv
  | _ => false
  end.

Definition SEARCH_FAILED : pystr := u "搜索论文失败: ".

(** The index answers every request with this body. *)
Definition index_world (body : json) : World :=
  mk_World None (Some (u "springer-key")) (fun _ => None) (fun _ => None) (fun _ => None)
           unreachable
           (fun _ _ => Ok (mk_Response 200 (u "OK")
                             (u "https://api.springernature.com/meta/v2/json") (Ok body)))
           not_a_pdf not_a_docx
           (fun _ bs => Ok (utf8_decode bs)) Z.of_nat str_of_Z.

(** A disk on which every open and every write goes through. *)
Definition sound_disk : Disk := mk_Disk (fun _ => None) (fun _ _ => None).

Definition TMP : pystr := u "/tmp".

(** An upload named [name] whose body reads as [bs]. *)
Definition upload_of (name : string) (bs : list byte) : UploadFile :=
  mk_UploadFile (Some (u name)) (Ok bs).

(** An upload whose body cannot be read. *)
Definition broken_upload (name : string) : UploadFile :=
  mk_UploadFile (Some (u name)) (Raise (PyErr "ClientDisconnect" [])).


(** The columns of a row that say which job it is. *)
Definition same_identity (j j' : AsyncTask.t) : Prop :=
  AsyncTask.task_id j' = AsyncTask.task_id j /\
  AsyncTask.user_id j' = AsyncTask.user_id j /\
  AsyncTask.task_type j' = AsyncTask.task_type j /\
  AsyncTask.input_data j' = AsyncTask.input_data j /\
  AsyncTask.created_at j' = AsyncTask.created_at j.

(** The row of the job, stored under its id, is still there and is the
    row of the same job. *)
Definition keeps_identity (task_id : pystr) (d d' : gmap pystr AsyncTask.t) : Prop :=
  forall j, d !! task_id = Some j -> AsyncTask.task_id j = task_id ->
    exists j', d' !! task_id = Some j' /\ same_identity j j'.

(** The keyword arguments the upload endpoint would pass for a new
    job. *)
Definition new_job (task_id : pystr) : AsyncTask_kwargs :=
  mk_kwargs (Some task_id) (Some owner) (Some (u "interpretation")) None
            (Some (JObj [(u "filename", JStr (u "paper.txt"))])) None None.

(** A PDF of six pages, the second without text and the sixth broken. *)
Definition six_pages : list (res pystr) :=
  [Ok (u "Abstract"); Ok []; Ok (u "Methods"); Ok (u "Results"); Ok (u "Discussion");
   Raise (PyErr "PdfReadError" (u "broken page"))].

(** The paragraphs of a document, two of them blank. *)
Definition some_paragraphs : list pystr :=
  [u "Photosynthesis"; u "   "; []; u "Light reactions"].

(** A body of three records, the second a null. *)
Definition mixed_body : json :=
  JObj [(u "records", JArr [sample_record; JNull; sample_record])].

(* ================================================================== *)
(** * Properties *)
(* ================================================================== *)
(** ** The monad *)

Lemma bind_Ok {A B} (m : M A) (k : A -> M B) s a s' :
  m s = (Ok a, s') -> bind m k s = k a s'.
Proof. intros H. unfold bind. now rewrite H. Qed.

Lemma bind_Raise {A B} (m : M A) (k : A -> M B) s e s' :
  m s = (Raise e, s') -> bind m k s = (Raise e, s').
Proof. intros H. unfold bind. now rewrite H. Qed.

Section Steps.
Context {X : Type} (f : State -> X) (R : relation X) `{!PreOrder R}.

Lemma steps_ret {A} (a : A) : steps f R (ret a).
Proof. intros s. reflexivity. Qed.

Lemma steps_raise {A} e : steps f R (@raise A e).
Proof. intros s. reflexivity. Qed.

Lemma steps_lift {A} (r : res A) : steps f R (lift r).
Proof. intros s. reflexivity. Qed.

Lemma steps_get : steps f R get.
Proof. intros s. reflexivity. Qed.

Lemma steps_bind {A B} (m : M A) (k : A -> M B) :
  steps f R m -> (forall a, steps f R (k a)) -> steps f R (bind m k).
Proof.
  intros Hm Hk s. unfold bind. specialize (Hm s).
  destruct (m s) as [[a|e] s']; simpl in *; [|assumption].
  etransitivity; [exact Hm|apply Hk].
Qed.

Lemma steps_try_except {A} (body : M A) handler :
  steps f R body -> (forall e, steps f R (handler e)) ->
  steps f R (try_except body handler).
Proof.
  intros Hm Hk s. unfold try_except. specialize (Hm s).
  destruct (body s) as [[a|e] s']; simpl in *; [assumption|].
  etransitivity; [exact Hm|apply Hk].
Qed.

Lemma steps_try_finally {A} (body : M A) cleanup :
  steps f R body -> steps f R cleanup -> steps f R (try_finally body cleanup).
Proof.
  intros Hm Hk s. unfold try_finally. specialize (Hm s).
  destruct (body s) as [r s']; simpl in *.
  specialize (Hk s').
  destruct (cleanup s') as [[a|e] s'']; simpl in *; etransitivity; eassumption.
Qed.

Lemma steps_eq {A} (m : M A) : steps f eq m -> steps f R m.
Proof. intros H s. rewrite <- (H s). reflexivity. Qed.
End Steps.

(** A computation built from the combinators steps if its parts do; the
    primitives that do not write [f] are closed by computation. *)
Ltac step_ret := apply steps_ret; exact _.
Ltac step_raise := apply steps_raise; exact _.
Ltac step_bind := apply steps_bind; [exact _ | | intros ?].
Ltac step_try := apply steps_try_except; [exact _ | | intros ?].
Ltac step_finally := apply steps_try_finally; [exact _ | | ].

Ltac steps_go :=
  repeat first
    [ step_ret | step_raise | apply steps_lift; exact _ | apply steps_get; exact _
    | step_bind | step_try | step_finally
    | match goal with
      | |- steps _ _ (match ?x with _ => _ end) => destruct x
      end
    | assumption
    | solve [ let s := fresh "s" in intros s; reflexivity ] ].

(** ** What each function leaves alone

    [f] is a component of the state and [R] a preorder on it; each lemma
    asks only that the primitives the function uses step by [R]. *)
Section Frames.
Context {X : Type} (f : State -> X) (R : relation X) `{!PreOrder R}.
Context (w : World).
Hypothesis Htick : steps f R tick.
Hypothesis Hprint : forall line, steps f R (print line).
Hypothesis Hfiles : forall d, steps f R (set_files d).
Hypothesis Hpublish : forall m, steps f R (publish m).
Hypothesis Hrequest : forall r, steps f R (record_request r).
Hypothesis Hhistory : forall h, steps f R (set_interpretation_history h).

Lemma check_fault_steps o : steps f R (check_fault o).
Proof using Htick PreOrder0. unfold check_fault. steps_go. Qed.

Lemma extract_content_steps file_path text :
  steps f R (extract_content w file_path text).
Proof using Hfiles PreOrder0.
  unfold extract_content, cleanup, path_present, os_path_exists, open_read, os_remove.
  steps_go; apply Hfiles.
Qed.

Lemma call_deepseek_api_steps content : steps f R (call_deepseek_api w content).
Proof using Htick Hrequest PreOrder0.
  unfold call_deepseek_api, deepseek_exchange, http_post. steps_go; apply Hrequest.
Qed.

Lemma search_related_papers_task_steps query count :
  steps f R (search_related_papers_task w query count).
Proof using Htick Hrequest Hprint PreOrder0.
  unfold search_related_papers_task, http_get.
  steps_go; first [apply Hrequest | apply Hprint].
Qed.

Lemma apply_async_steps m : steps f R (apply_async w m).
Proof using Htick Hpublish PreOrder0.
  unfold apply_async. step_bind; [apply check_fault_steps | apply Hpublish].
Qed.

Lemma search_related_papers_steps content :
  steps f R (search_related_papers w content).
Proof using Htick Hrequest Hprint Hpublish PreOrder0.
  unfold search_related_papers, result_get.
  destruct (_ || _); [step_ret|].
  step_bind; [apply apply_async_steps |].
  step_try; [| step_ret].
  step_bind; [apply check_fault_steps |].
  apply search_related_papers_task_steps.
Qed.

Lemma self_retry_steps task_id user_id file_path text retries e :
  steps f R (self_retry w task_id user_id file_path text retries e).
Proof using Htick Hpublish PreOrder0.
  unfold self_retry.
  step_bind; [| step_raise].
  step_try; [apply apply_async_steps | step_raise].
Qed.

(** The status writes are the only part of a delivery that touches the
    job store: a delivery steps by [R] as soon as they do. *)
Lemma process_paper_task_steps retries task_id user_id file_path text :
  (forall status result error,
      orchestrator_write status result error ->
      steps f R (update_task_status w task_id status result error)) ->
  steps f R (process_paper_task w retries task_id user_id file_path text).
Proof using Htick Hrequest Hprint Hpublish Hfiles PreOrder0.
  intros Hupd. unfold process_paper_task, process_paper_body.
  step_try.
  - step_bind; [(apply Hupd; constructor) |].
    step_bind; [apply extract_content_steps |].
    destruct (negb _).
    + step_bind; [(apply Hupd; constructor) | step_ret].
    + step_bind; [apply call_deepseek_api_steps |].
      step_bind; [apply search_related_papers_steps |].
      step_bind; [apply Htick |].
      step_bind; [(apply Hupd; constructor) |].
      step_bind; [apply apply_async_steps | step_ret].
  - step_bind; [(apply Hupd; constructor) |].
    destruct (_ <? _)%nat; [apply self_retry_steps | step_ret].
Qed.

(** A status write on a component other than the job store. *)
Lemma update_task_status_steps task_id status result error :
  (forall d, steps f R (set_async_tasks d)) ->
  steps f R (update_task_status w task_id status result error).
Proof using Htick Hprint PreOrder0.
  intros Hdb. unfold update_task_status, AsyncTask_get_by_id, AsyncTask_update_status.
  step_try; [| apply Hprint].
  step_bind; [| destruct a as [task|]; [|step_ret]].
  - step_bind; [apply check_fault_steps |].
    step_bind; [apply steps_get; exact _ | step_ret].
  - step_bind; [apply Htick |].
    step_bind; [apply check_fault_steps |].
    step_bind; [apply steps_get; exact _ | apply Hdb].
Qed.
End Frames.

(** ** The status write *)

(** Run a computation on a state by unfolding the combinators. *)
Ltac run :=
  unfold update_task_status, AsyncTask_get_by_id, AsyncTask_update_status,
    check_fault, try_except, try_finally, bind, tick, get, ret, raise, lift,
    set_async_tasks, print in *; simpl in *.

(** [update_task_status] returns whatever the session does; the store is
    left as it was, or the row found under [task_id] is written back with
    the assignments made. *)
Lemma update_task_status_effect w task_id status result error s :
  exists s',
    update_task_status w task_id status result error s = (Ok tt, s') /\
    (async_tasks s' = async_tasks s \/
     exists j, async_tasks s !! task_id = Some j /\
       async_tasks s' =
         <[AsyncTask.task_id j := assign j status (utcnow w (S (now s))) result error]>
           (async_tasks s)).
Proof.
  run.
  destruct (db_fault w (now s)); simpl; [eauto|].
  destruct (async_tasks s !! task_id) as [j|] eqn:Hj; simpl; [|eauto].
  destruct (db_fault w (S (S (now s)))); simpl; eauto 6.
Qed.

Lemma update_task_status_never_raises w task_id status result error :
  never_raises (update_task_status w task_id status result error).
Proof.
  intros s. destruct (update_task_status_effect w task_id status result error s)
    as (s' & -> & _). eauto.
Qed.

(** With the database up, the write happens. *)
Lemma update_task_status_healthy w task_id status result error s j :
  db_healthy w -> async_tasks s !! task_id = Some j ->
  async_tasks (snd (update_task_status w task_id status result error s)) =
    <[AsyncTask.task_id j := assign j status (utcnow w (S (now s))) result error]>
      (async_tasks s).
Proof.
  intros Hdb Hj. run. rewrite !Hdb. simpl. rewrite Hj. simpl.
  rewrite Hdb. reflexivity.
Qed.

(** The store steps by any preorder that the write respects. *)
Lemma update_task_status_writes (R : relation (gmap pystr AsyncTask.t)) `{!PreOrder R}
    w task_id status result error :
  (forall d j t, d !! task_id = Some j ->
     R d (<[AsyncTask.task_id j := assign j status t result error]> d)) ->
  steps async_tasks R (update_task_status w task_id status result error).
Proof.
  intros HR s.
  destruct (update_task_status_effect w task_id status result error s)
    as (s' & Hrun & Hdb). rewrite Hrun. simpl.
  destruct Hdb as [-> | (j & Hj & ->)]; [reflexivity | now apply HR].
Qed.

(** A delivery of the task steps the job store by any preorder that the
    orchestrator's three writes respect. *)
Lemma process_paper_task_store (R : relation (gmap pystr AsyncTask.t)) `{!PreOrder R}
    w retries task_id user_id file_path text :
  (forall status result error d j t,
     orchestrator_write status result error -> d !! task_id = Some j ->
     R d (<[AsyncTask.task_id j := assign j status t result error]> d)) ->
  steps async_tasks R (process_paper_task w retries task_id user_id file_path text).
Proof.
  intros HR. apply process_paper_task_steps; try exact _;
    try (intros; apply steps_eq; [exact _ | intros s; reflexivity]).
  intros status result error Hw. apply update_task_status_writes; [exact _|].
  intros. now apply HR.
Qed.

(** ** The result and error fields of a job *)

#[local] Instance keeps_store_ok_preorder : PreOrder keeps_store_ok.
Proof.
  split.
  - intros d H. exact H.
  - intros d1 d2 d3 H12 H23 H. auto.
Qed.

Lemma never_cleared_refl j : never_cleared j j.
Proof. split; auto. Qed.

Lemma never_cleared_trans j1 j2 j3 :
  never_cleared j1 j2 -> never_cleared j2 j3 -> never_cleared j1 j3.
Proof. intros [H1 H2] [H3 H4]. split; auto. Qed.

#[local] Instance clears_nothing_preorder : PreOrder clears_nothing.
Proof.
  split.
  - intros d Hk. split; [exact Hk|]. intros k j Hj. exists j. split; [exact Hj|].
    apply never_cleared_refl.
  - intros d1 d2 d3 H12 H23 Hk.
    destruct (H12 Hk) as [Hk2 H12']. destruct (H23 Hk2) as [Hk3 H23'].
    split; [exact Hk3|]. intros k j Hj.
    destruct (H12' k j Hj) as (j2 & Hj2 & Hc2).
    destruct (H23' k j2 Hj2) as (j3 & Hj3 & Hc3).
    exists j3. split; [exact Hj3|]. eapply never_cleared_trans; eassumption.
Qed.

(** What one assignment does to the two fields. *)
Lemma assign_fields j status t result error :
  AsyncTask.status (assign j status t result error) = status /\
  AsyncTask.task_id (assign j status t result error) = AsyncTask.task_id j /\
  AsyncTask.result (assign j status t result error) =
    match result with Some r => Some r | None => AsyncTask.result j end /\
  AsyncTask.error (assign j status t result error) =
    match error with Some e => Some e | None => AsyncTask.error j end.
Proof. repeat split. Qed.

Lemma orchestrator_write_terminal j status t result error :
  orchestrator_write status result error ->
  terminal_field_set (assign j status t result error).
Proof. intros []; split; simpl; congruence. Qed.

Lemma assign_never_cleared j status t result error :
  never_cleared j (assign j status t result error).
Proof.
  split; simpl; [destruct result | destruct error]; intros H; eauto.
Qed.

Lemma write_keeps_store_ok d task_id j status t result error :
  orchestrator_write status result error -> d !! task_id = Some j ->
  keeps_store_ok d (<[AsyncTask.task_id j := assign j status t result error]> d).
Proof.
  intros Hw Hj Hd k j'. rewrite lookup_insert. case_decide.
  - intros [= <-]. now apply orchestrator_write_terminal.
  - apply Hd.
Qed.

Lemma write_clears_nothing d task_id j status t result error :
  d !! task_id = Some j ->
  clears_nothing d (<[AsyncTask.task_id j := assign j status t result error]> d).
Proof.
  intros Hj Hk. split.
  - intros k j'. rewrite lookup_insert. case_decide.
    + intros [= <-]. simpl. assumption.
    + apply Hk.
  - intros k j0 Hj0. rewrite lookup_insert. case_decide as Hc.
    + subst k. eexists. split; [reflexivity|].
      assert (j0 = j) as ->.
      { pose proof (Hk _ _ Hj) as Hid. rewrite Hid in Hj0. congruence. }
      apply assign_never_cleared.
    + exists j0. split; [exact Hj0 | apply never_cleared_refl].
Qed.

(** A whole job steps the store by a preorder that each delivery steps
    it by. *)
Lemma run_job_steps {X} (f : State -> X) (R : relation X) `{!PreOrder R}
    w task_id user_id file_path text :
  (forall retries, steps f R (process_paper_task w retries task_id user_id file_path text)) ->
  forall fuel retries s r s' n,
    run_job w fuel retries task_id user_id file_path text s = Some (r, s', n) ->
    R (f s) (f s').
Proof.
  intros Hstep fuel. induction fuel as [|fuel IH]; intros retries s r s' n; simpl; [discriminate|].
  pose proof (Hstep retries s) as H1.
  destruct (process_paper_task w retries task_id user_id file_path text s) as [r1 s1].
  simpl in H1.
  destruct r1 as [a|[cls msg|exc cd]].
  - intros [= <- <- <-]. exact H1.
  - intros [= <- <- <-]. exact H1.
  - intros Hrun. etransitivity; [exact H1|]. eapply IH. exact Hrun.
Qed.

(** ** Inline text *)

Lemma extract_content_inline w file_path text s :
  text <> [] ->
  extract_content w file_path (Some text) s = (Ok (take 10000 text), s).
Proof. intros H. destruct text; [congruence|reflexivity]. Qed.

(** C9.  Inline text that is supplied (not empty) is returned cut to its
    first 10,000 code points, whatever the file reference and the world:
    the text itself when it has at most 10,000, exactly 10,000 of them, a
    prefix of the text, when it has more; no exception is raised and the
    state (file system included) is untouched. *)
Theorem C9_inline_text_truncated w file_path text s :
  text <> [] ->
  exists out,
    extract_content w file_path (Some text) s = (Ok out, s) /\
    out = take 10000 text /\
    out `prefix_of` text /\
    (length text <= 10000 -> out = text)%nat /\
    (10000 < length text -> length out = 10000)%nat.
Proof.
  intros H. exists (take 10000 text). split; [now apply extract_content_inline|].
  split; [reflexivity|]. split; [apply prefix_take|]. split.
  - intros Hle. now apply take_ge.
  - intros Hlt. rewrite length_take. lia.
Qed.

Lemma C9_inline_text_truncated_witness :
  exists out,
    extract_content plain_world (Some upload) (Some sample_text)
      (state_with {[ upload := regular_file [] ]})
    = (Ok out, state_with {[ upload := regular_file [] ]}) /\
    out = take 10000 sample_text /\
    out `prefix_of` sample_text /\
    (length sample_text <= 10000 -> out = sample_text)%nat /\
    (10000 < length sample_text -> length out = 10000)%nat.
Proof.
  apply (C9_inline_text_truncated plain_world (Some upload) sample_text).
  discriminate.
Defined.

(** ** The interpretation client *)

Lemma try_except_Ok {A} (body : M A) handler s a s' :
  body s = (Ok a, s') -> try_except body handler s = (Ok a, s').
Proof. intros H. unfold try_except. now rewrite H. Qed.

Lemma try_except_Raise {A} (body : M A) handler s e s' :
  body s = (Raise e, s') -> try_except body handler s = handler e s'.
Proof. intros H. unfold try_except. now rewrite H. Qed.

Lemma try_except_total {A} (body : M A) handler :
  (forall e, never_raises (handler e)) -> never_raises (try_except body handler).
Proof.
  intros Hh s. unfold try_except. destruct (body s) as [[a|e] s']; [eauto|apply Hh].
Qed.

Lemma call_deepseek_api_never_raises w content :
  never_raises (call_deepseek_api w content).
Proof.
  intros s. unfold call_deepseek_api. destruct (negb _).
  - eexists _, _. reflexivity.
  - apply try_except_total. intros e s'. eexists _, _. reflexivity.
Qed.

Lemma call_deepseek_api_unconfigured w content s :
  truthy_opt (DEEPSEEK_API_KEY w) = false ->
  call_deepseek_api w content s = (Ok (JStr NOT_CONFIGURED), s).
Proof. intros H. unfold call_deepseek_api. now rewrite H. Qed.



(** The request fails in transport, or is answered with an error status:
    the exception becomes text. *)
Lemma call_deepseek_api_failure w content s e :
  truthy_opt (DEEPSEEK_API_KEY w) = true ->
  let req := deepseek_request (default [] (DEEPSEEK_API_KEY w)) (capped content) in
  (requests_post w (now s) req = Raise e \/
   exists response, requests_post w (now s) req = Ok response /\
                    (raise_for_status response = Raise e \/
                     raise_for_status response = Ok tt /\ resp_json response = Raise e)) ->
  call_deepseek_api w content s = (Ok (JStr (CALL_FAILED ++ str_exn e)), requested req s).
Proof.
  intros Hkey req H. unfold call_deepseek_api. rewrite Hkey. simpl.
  unfold try_except, deepseek_exchange, http_post, bind, tick, record_request, lift, ret.
  simpl. fold req.
  destruct H as [-> | (response & -> & [-> | [-> ->]])]; reflexivity.
Qed.

Lemma raise_for_status_error response :
  (400 <= status_code response < 600)%Z ->
  exists e, raise_for_status response = Raise e.
Proof.
  intros H. unfold raise_for_status.
  destruct ((400 <=? _)%Z && (_ <? 500)%Z) eqn:E1; [eauto|].
  destruct ((500 <=? _)%Z && (_ <? 600)%Z) eqn:E2; [eauto|].
  exfalso. rewrite andb_false_iff in E1, E2.
  rewrite Z.leb_gt, Z.ltb_ge in E1, E2. lia.
Qed.

(** C5.  The interpretation client returns a value from every state of
    every world, for every content: no exception escapes it.  Without a
    credential (unset or empty) it returns the fixed "not configured" text
    and touches nothing.  With one, when the call raises in transport, or
    is answered with a 4xx or 5xx status (for which [raise_for_status]
    raises), or its body does not parse, it returns the failure text
    followed by [str(e)]. *)
Theorem C5_interpretation_client_never_raises w content s :
  (exists v s', call_deepseek_api w content s = (Ok v, s')) /\
  (truthy_opt (DEEPSEEK_API_KEY w) = false ->
   call_deepseek_api w content s = (Ok (JStr NOT_CONFIGURED), s)) /\
  (truthy_opt (DEEPSEEK_API_KEY w) = true ->
   let req := deepseek_request (default [] (DEEPSEEK_API_KEY w)) (capped content) in
   forall e,
     (requests_post w (now s) req = Raise e \/
      exists response, requests_post w (now s) req = Ok response /\
                       (raise_for_status response = Raise e \/
                        raise_for_status response = Ok tt /\ resp_json response = Raise e)) ->
     fst (call_deepseek_api w content s) = Ok (JStr (CALL_FAILED ++ str_exn e))) /\
  (forall response, (400 <= status_code response < 600)%Z ->
     exists e, raise_for_status response = Raise e).
Proof.
  split; [apply call_deepseek_api_never_raises|].
  split; [apply call_deepseek_api_unconfigured|].
  split; [|apply raise_for_status_error].
  intros Hkey req e H.
  now rewrite (call_deepseek_api_failure w content s e Hkey H).
Qed.

Lemma C5_interpretation_client_never_raises_witness :
  fst (call_deepseek_api plain_world sample_text state0) = Ok (JStr NOT_CONFIGURED) /\
  fst (call_deepseek_api timeout_world sample_text state0)
  = Ok (JStr (CALL_FAILED ++ u "Read timed out. (read timeout=60)")).
Proof.
  split.
  - destruct (C5_interpretation_client_never_raises plain_world sample_text state0)
      as (_ & H & _). rewrite H; reflexivity.
  - destruct (C5_interpretation_client_never_raises timeout_world sample_text state0)
      as (_ & _ & H & _).
    apply (H eq_refl READ_TIMEOUT). left. reflexivity.
Defined.

(** ** The history record *)

Lemma slice_upto_nonneg {A} (n : Z) (l : list A) :
  (0 <= n)%Z -> slice_upto n l = take (Z.to_nat n) l.
Proof. intros H. unfold slice_upto. destruct (Z.leb_spec 0 n); [reflexivity|lia]. Qed.

(** One preview column next to its full column: what is stored when the
    constructor's slice and the driver's binding both go through. *)
Lemma preview_of_sliced result key pj fj p f :
  res_bind (py_get result key (JStr [])) (fun v => py_slice v 500) = Ok pj ->
  py_get_none result key = Ok fj ->
  bind_text pj = Ok p -> bind_text fj = Ok f ->
  preview_of p f.
Proof.
  unfold py_get_none, py_get. destruct result as [| | | | |l|kv]; try discriminate.
  simpl. destruct (assoc key kv) as [v|].
  - intros Hp [= <-]. destruct v; simpl in Hp; try discriminate.
    injection Hp as <-. simpl. intros [= <-] [= <-].
    exists (take 500 s). split; [reflexivity|]. split.
    + rewrite length_take. lia.
    + intros fv [= <-]. apply prefix_take.
  - intros [= <-] [= <-]. simpl. intros [= <-] [= <-].
    exists []. split; [reflexivity|]. split; [simpl; lia|]. discriminate.
Qed.

(** C8.  Every record the history recorder creates, from any result
    dictionary in any world, has a content preview and an interpretation
    preview of at most 500 code points, each a prefix of (or equal to) the
    full text stored beside it whenever there is one; the record is the
    one appended to the history table. *)
Theorem C8_history_previews w user_id task_id result s h s' :
  InterpretationHistory_create_from_result w user_id task_id result s = (Ok h, s') ->
  preview_of (InterpretationHistory.content_preview h)
             (InterpretationHistory.full_content h) /\
  preview_of (InterpretationHistory.interpretation_preview h)
             (InterpretationHistory.full_interpretation h) /\
  interpretation_history s' = interpretation_history s ++ [h].
Proof.
  unfold InterpretationHistory_create_from_result, check_fault, bind, lift, tick, get,
    ret, raise, set_interpretation_history.
  destruct (res_bind (py_get result (u "original_content") (JStr [])) _) as [cpj|] eqn:Hcp;
    [|discriminate].
  destruct (res_bind (py_get result (u "interpretation") (JStr [])) _) as [ipj|] eqn:Hip;
    [|discriminate].
  destruct (py_get_none result (u "original_content")) as [fcj|] eqn:Hfc; [|discriminate].
  destruct (py_get_none result (u "interpretation")) as [fij|] eqn:Hfi; [|discriminate].
  destruct (py_get result (u "recommendations") (JArr [])) as [recs|]; [|discriminate].
  simpl. destruct (db_fault w (now s)); [discriminate|].
  destruct (bind_text cpj) as [cp|] eqn:Hcp'; [|discriminate].
  destruct (bind_text ipj) as [ip|] eqn:Hip'; [|discriminate].
  destruct (bind_text fcj) as [fc|] eqn:Hfc'; [|discriminate].
  destruct (bind_text fij) as [fi|] eqn:Hfi'; [|discriminate].
  simpl. intros [= <- <-]. simpl.
  split; [apply (preview_of_sliced result (u "original_content") cpj fcj); assumption|].
  split; [apply (preview_of_sliced result (u "interpretation") ipj fij); assumption|].
  reflexivity.
Qed.





Lemma C8_history_previews_witness :
  preview_of (Some sample_text) (Some sample_text) /\
  preview_of (Some NOT_CONFIGURED) (Some NOT_CONFIGURED) /\
  interpretation_history
    (snd (InterpretationHistory_create_from_result plain_world owner job_id
            sample_result state0)) = [] ++ [sample_history].
Proof.
  apply (C8_history_previews plain_world owner job_id sample_result state0 sample_history).
  vm_compute. reflexivity.
Defined.

(** ** Empty content *)

Ltac prim := intros; let s := fresh "s" in intros s; reflexivity.

Lemma update_task_status_frame w task_id status result error s :
  let s' := snd (update_task_status w task_id status result error s) in
  files s' = files s /\ broker s' = broker s /\ sent s' = sent s /\
  interpretation_history s' = interpretation_history s.
Proof.
  simpl. repeat split; symmetry.
  - apply (update_task_status_steps files eq w); prim.
  - apply (update_task_status_steps broker eq w); prim.
  - apply (update_task_status_steps sent eq w); prim.
  - apply (update_task_status_steps interpretation_history eq w); prim.
Qed.

Lemma extract_content_frame w file_path text s :
  let s' := snd (extract_content w file_path text s) in
  async_tasks s' = async_tasks s /\ broker s' = broker s /\ sent s' = sent s /\
  interpretation_history s' = interpretation_history s /\ now s' = now s.
Proof.
  simpl. repeat split; symmetry.
  - apply (extract_content_steps async_tasks eq w); prim.
  - apply (extract_content_steps broker eq w); prim.
  - apply (extract_content_steps sent eq w); prim.
  - apply (extract_content_steps interpretation_history eq w); prim.
  - apply (extract_content_steps now eq w); prim.
Qed.

(** No inline text, and no file reference or one that names nothing:
    the extractor returns the empty string and touches nothing. *)
Lemma extract_content_nothing w file_path text s :
  truthy_opt text = false ->
  (truthy_opt file_path = false \/
   exists path, file_path = Some path /\ files s !! path = None) ->
  extract_content w file_path text s = (Ok [], s).
Proof.
  intros Ht Hf. unfold extract_content, path_present. rewrite Ht.
  destruct Hf as [-> | (path & -> & Hnone)]; [reflexivity|].
  destruct (truthy_opt (Some path)); [|reflexivity].
  unfold os_path_exists, bind, get, ret. simpl. rewrite Hnone.
  rewrite bool_decide_eq_false_2; [reflexivity|].
  intros [x Hx]. discriminate.
Qed.

(** A delivery whose extraction comes back empty. *)
Lemma process_paper_task_empty w retries task_id user_id file_path text s s2 :
  extract_content w file_path text
    (snd (update_task_status w task_id processing None None s)) = (Ok [], s2) ->
  process_paper_task w retries task_id user_id file_path text s =
    (Ok None, snd (update_task_status w task_id failed None (Some EXTRACT_FAILED) s2)).
Proof.
  intros Hext. unfold process_paper_task, process_paper_body.
  apply try_except_Ok.
  destruct (update_task_status_effect w task_id processing None None s) as (s1 & E1 & _).
  rewrite E1 in Hext. simpl in Hext.
  rewrite (bind_Ok _ _ _ _ _ E1). rewrite (bind_Ok _ _ _ _ _ Hext). simpl.
  destruct (update_task_status_effect w task_id failed None (Some EXTRACT_FAILED) s2)
    as (s3 & E3 & _).
  rewrite (bind_Ok _ _ _ _ _ E3). rewrite E3. reflexivity.
Qed.

(** The row of a job after a status write, the database being up. *)
Lemma update_task_status_row w task_id status result error s j :
  db_healthy w -> async_tasks s !! task_id = Some j -> AsyncTask.task_id j = task_id ->
  async_tasks (snd (update_task_status w task_id status result error s)) !! task_id =
    Some (assign j status (utcnow w (S (now s))) result error).
Proof.
  intros Hdb Hj Hid.
  rewrite (update_task_status_healthy w task_id status result error s j Hdb Hj).
  rewrite Hid. apply lookup_insert_eq.
Qed.

(** C3.  When the extracted content is empty, the delivery writes
    [failed] with the fixed message and returns [None]: no [Retry] is
    raised, so the worker stops after this delivery; nothing is published
    to the broker (no search, no history, no retry message) and no HTTP
    request is sent (no interpretation); with the database up, the job's
    row ends [failed] with that message, its result field as it was.  The
    content is empty, in particular, when there is no inline text and the
    file reference is missing or names no file. *)
Theorem C3_empty_content_fails_without_retry w retries task_id user_id file_path text s :
  let s1 := snd (update_task_status w task_id processing None None s) in
  (forall s2, extract_content w file_path text s1 = (Ok [], s2) ->
     let s3 := snd (update_task_status w task_id failed None (Some EXTRACT_FAILED) s2) in
     process_paper_task w retries task_id user_id file_path text s = (Ok None, s3) /\
     (forall fuel,
        run_job w (S fuel) retries task_id user_id file_path text s
        = Some (Ok None, s3, retries)) /\
     broker s3 = broker s /\ sent s3 = sent s /\
     interpretation_history s3 = interpretation_history s /\
     (db_healthy w ->
      forall j, async_tasks s !! task_id = Some j -> AsyncTask.task_id j = task_id ->
        exists j', async_tasks s3 !! task_id = Some j' /\
                   AsyncTask.status j' = failed /\
                   AsyncTask.error j' = Some EXTRACT_FAILED /\
                   AsyncTask.result j' = AsyncTask.result j)) /\
  (truthy_opt text = false ->
   (truthy_opt file_path = false \/
    exists path, file_path = Some path /\ files s !! path = None) ->
   extract_content w file_path text s1 = (Ok [], s1)).
Proof.
  intros s1. split.
  - intros s2 Hext s3.
    pose proof (process_paper_task_empty w retries task_id user_id file_path text s s2 Hext)
      as Hrun.
    fold s3 in Hrun.
    destruct (update_task_status_frame w task_id processing None None s)
      as (_ & Hb1 & Hs1 & Hh1).
    destruct (extract_content_frame w file_path text s1) as (Hd2 & Hb2 & Hs2 & Hh2 & _).
    rewrite Hext in Hd2, Hb2, Hs2, Hh2. simpl in Hd2, Hb2, Hs2, Hh2.
    destruct (update_task_status_frame w task_id failed None (Some EXTRACT_FAILED) s2)
      as (_ & Hb3 & Hs3 & Hh3).
    fold s1 in Hb1, Hs1, Hh1. fold s3 in Hb3, Hs3, Hh3.
    split; [exact Hrun|].
    split; [intros fuel; simpl; now rewrite Hrun|].
    split; [congruence|]. split; [congruence|]. split; [congruence|].
    intros Hdb j Hj Hid.
    pose proof (update_task_status_row w task_id processing None None s j Hdb Hj Hid) as Hr1.
    fold s1 in Hr1. rewrite <- Hd2 in Hr1.
    pose proof (update_task_status_row w task_id failed None (Some EXTRACT_FAILED) s2 _
                  Hdb Hr1 Hid) as Hr3.
    fold s3 in Hr3. eexists. split; [exact Hr3|]. repeat split.
  - intros Ht Hf. apply extract_content_nothing; [exact Ht|].
    destruct (update_task_status_frame w task_id processing None None s) as (Hf1 & _).
    fold s1 in Hf1. rewrite Hf1. exact Hf.
Qed.



Lemma C3_empty_content_fails_without_retry_witness :
  exists s3 j',
    run_job plain_world 4 0 job_id owner (Some missing) None state0 = Some (Ok None, s3, 0%nat) /\
    broker s3 = [] /\ sent s3 = [] /\
    async_tasks s3 !! job_id = Some j' /\
    AsyncTask.status j' = failed /\
    AsyncTask.error j' = Some EXTRACT_FAILED /\
    AsyncTask.result j' = None.
Proof.
  destruct (C3_empty_content_fails_without_retry plain_world 0 job_id owner
              (Some missing) None state0) as [H1 H2].
  specialize (H2 eq_refl (or_intror (ex_intro _ missing (conj eq_refl eq_refl)))).
  destruct (H1 _ H2) as (_ & Hrun & Hb & Hs & _ & Hdb).
  destruct (Hdb (fun _ => eq_refl) fresh_job eq_refl eq_refl) as (j' & Hj' & Hst & He & Hr).
  eexists _, j'. split; [apply (Hrun 3%nat)|].
  repeat split; assumption.
Defined.

(** ** The uploaded file *)





(** No inline text and a reference to a file that is there: the outcome
    is that of reading and extracting, and the removal follows on every
    exit. *)
Lemma extract_content_file w path text s n :
  truthy_opt text = false -> path <> [] -> files s !! path = Some n ->
  extract_content w (Some path) text s = (extraction_of w n, after_cleanup path n s).
Proof.
  intros Ht Hp Hn. unfold extract_content, path_present. rewrite Ht.
  destruct path as [|c path]; [congruence|]. simpl truthy_opt. cbv iota.
  unfold cleanup, path_present, os_path_exists, open_read, os_remove, try_finally,
    try_except, bind, get, ret, lift, raise, extraction_of, after_cleanup.
  assert (bool_decide (is_Some (files s !! (c :: path))) = true) as Hex
    by (apply bool_decide_eq_true_2; eauto).
  simpl. rewrite Hex. simpl. rewrite Hn.
  destruct (node_read n) as [bs|e]; simpl; rewrite Hex; rewrite Hn;
    destruct (node_remove n); reflexivity.
Qed.

(** C10 (amended).  With no inline text and a reference to a file that
    exists, the file is removed after extraction on every exit, a raised
    read included, unless [os.remove] itself raises; that exception is
    swallowed: the outcome is the extraction's own and the file stays.
    With inline text the function returns before it looks at the file,
    which stays where it is. *)
Theorem C10_file_removed_unless_inline_text w path text s n :
  path <> [] -> files s !! path = Some n ->
  (truthy_opt text = false ->
     let r := fst (extract_content w (Some path) text s) in
     let s' := snd (extract_content w (Some path) text s) in
     r = extraction_of w n /\
     (node_remove n = None ->
        files s' !! path = None /\
        forall other, other <> path -> files s' !! other = files s !! other) /\
     (node_remove n <> None -> s' = s)) /\
  (truthy_opt text = true ->
     extract_content w (Some path) text s = (Ok (take 10000 (default [] text)), s)).
Proof.
  intros Hp Hn. split.
  - intros Ht. rewrite (extract_content_file w path text s n Ht Hp Hn). simpl.
    split; [reflexivity|]. unfold after_cleanup. split.
    + intros ->. simpl. split; [apply lookup_delete_eq|].
      intros other Hne. now apply lookup_delete_ne.
    + intros Hr. destruct (node_remove n); [reflexivity|congruence].
  - intros Ht. unfold extract_content. now rewrite Ht.
Qed.



Lemma C10_file_removed_unless_inline_text_witness :
  fst (extract_content plain_world (Some upload) None
         (state_with {[ upload := regular_file paper_bytes ]}))
  = Ok (u "Chlorophyll absorbs light.") /\
  files (snd (extract_content plain_world (Some upload) None
                (state_with {[ upload := regular_file paper_bytes ]}))) !! upload = None /\
  snd (extract_content plain_world (Some upload) None (state_with {[ upload := directory ]}))
  = state_with {[ upload := directory ]} /\
  extract_content plain_world (Some upload) (Some sample_text)
    (state_with {[ upload := regular_file paper_bytes ]})
  = (Ok sample_text, state_with {[ upload := regular_file paper_bytes ]}).
Proof.
  assert (upload <> []) as Hp by discriminate.
  assert (files (state_with {[ upload := regular_file paper_bytes ]}) !! upload
          = Some (regular_file paper_bytes)) as Hfile by (vm_compute; reflexivity).
  assert (files (state_with {[ upload := directory ]}) !! upload = Some directory)
    as Hdir by (vm_compute; reflexivity).
  destruct (C10_file_removed_unless_inline_text plain_world upload None
              (state_with {[ upload := regular_file paper_bytes ]})
              (regular_file paper_bytes) Hp Hfile) as [H1 _].
  destruct (H1 eq_refl) as (Hr & Hdel & _).
  destruct (C10_file_removed_unless_inline_text plain_world upload None
              (state_with {[ upload := directory ]}) directory Hp Hdir) as [H2 _].
  destruct (H2 eq_refl) as (_ & _ & Hkeep).
  destruct (C10_file_removed_unless_inline_text plain_world upload (Some sample_text)
              (state_with {[ upload := regular_file paper_bytes ]})
              (regular_file paper_bytes) Hp Hfile) as [_ H3].
  split; [rewrite Hr; vm_compute; reflexivity|].
  split; [apply (Hdel eq_refl)|].
  split; [apply Hkeep; discriminate|].
  apply (H3 eq_refl).
Defined.

(** C10 as stated fails: a call that is given both inline text and a
    reference to an existing file returns the text and leaves the file. *)
Lemma C10_counterexample :
  let s := state_with {[ upload := regular_file paper_bytes ]} in
  let s' := snd (extract_content plain_world (Some upload) (Some sample_text) s) in
  files s !! upload = Some (regular_file paper_bytes) /\
  fst (extract_content plain_world (Some upload) (Some sample_text) s) = Ok sample_text /\
  files s' !! upload = Some (regular_file paper_bytes) /\
  files s' !! upload <> None.
Proof. vm_compute. repeat split. discriminate. Qed.

(** ** The sentinel *)

(** C4 (the code at the failing input, and around it).  With no inline
    text and a readable file in which neither a PDF nor a DOCX text is
    found, the text branch returns the first decode as it is: when the
    bytes decode to the empty string the extractor returns the empty
    string, and the sentinel, which is not empty, is not what comes
    back. *)
Theorem C4_empty_decode_returned_as_is w path text s n file_bytes decoded :
  truthy_opt text = false -> path <> [] ->
  files s !! path = Some n -> node_read n = Ok file_bytes ->
  try_pdf w file_bytes = None -> try_docx w file_bytes = None ->
  bytes_decode w (u "utf-8") file_bytes = Ok decoded ->
  fst (extract_content w (Some path) text s) = Ok decoded /\
  (decoded = [] -> fst (extract_content w (Some path) text s) <> Ok EXTRACT_SENTINEL).
Proof.
  intros Ht Hp Hn Hread Hpdf Hdocx Hdec.
  rewrite (extract_content_file w path text s n Ht Hp Hn). simpl.
  unfold extraction_of, extract_bytes. rewrite Hread, Hpdf, Hdocx.
  change (try_decode w encodings file_bytes) with
    (match bytes_decode w (u "utf-8") file_bytes with
     | Ok t => Some t
     | Raise _ => try_decode w [u "gbk"; u "gb2312"; u "latin-1"] file_bytes
     end).
  rewrite Hdec. split; [reflexivity|]. intros ->. discriminate.
Qed.

Lemma C4_empty_decode_returned_as_is_witness :
  fst (extract_content plain_world (Some upload) None
         (state_with {[ upload := regular_file [] ]})) = Ok [] /\
  fst (extract_content plain_world (Some upload) None
         (state_with {[ upload := regular_file [] ]})) <> Ok EXTRACT_SENTINEL.
Proof.
  assert (files (state_with {[ upload := regular_file [] ]}) !! upload
          = Some (regular_file [])) as Hfile by (vm_compute; reflexivity).
  destruct (C4_empty_decode_returned_as_is plain_world upload None
              (state_with {[ upload := regular_file [] ]}) (regular_file []) [] []
              eq_refl ltac:(discriminate) Hfile eq_refl eq_refl eq_refl eq_refl) as [H1 H2].
  split; [exact H1 | exact (H2 eq_refl)].
Defined.

(** ** The projection of a search record *)

Lemma res_bind_Ok {A B} (r : res A) (k : A -> res B) b :
  res_bind r k = Ok b -> exists a, r = Ok a /\ k a = Ok b.
Proof. destruct r as [a|e]; simpl; [eauto|discriminate]. Qed.

(** C7 (the code, for every record).  Whenever a record with a non-empty
    string abstract is projected, the abstract of the projection is the
    first 200 code points followed by the marker, also when the abstract
    has 200 code points or fewer and nothing was cut; the year is the
    first 4 code points of a non-empty publication date, and empty when
    the record has none. *)
Theorem C7_abstract_marker_always_appended kv a p :
  assoc (u "abstract") kv = Some (JStr a) -> a <> [] ->
  paper_of_record (JObj kv) = Ok p ->
  py_item p (u "abstract") = Ok (JStr (take 200 a ++ ELLIPSIS)) /\
  ((length a <= 200)%nat -> py_item p (u "abstract") = Ok (JStr (a ++ ELLIPSIS))) /\
  (forall d, assoc (u "publicationDate") kv = Some (JStr d) -> d <> [] ->
     py_item p (u "year") = Ok (JStr (take 4 d))) /\
  (assoc (u "publicationDate") kv = None -> py_item p (u "year") = Ok (JStr [])).
Proof.
  intros Ha Hne Hp. unfold paper_of_record in Hp.
  repeat (apply res_bind_Ok in Hp; destruct Hp as (? & ? & Hp)).
  injection Hp as <-.
  repeat match goal with
         | H : py_get_none _ _ = Ok _ |- _ => unfold py_get_none, py_get in H
         end.
  match goal with
  | H : Ok (match assoc (u "abstract") kv with _ => _ end) = Ok ?x,
    H' : (if truthy ?x then _ else _) = Ok ?y |- _ =>
      rewrite Ha in H; injection H as <-;
      assert (y = JStr (take 200 a ++ ELLIPSIS)) as ->;
      [ destruct a; [congruence|]; simpl truthy in H'; cbv iota in H';
        unfold py_get in H'; rewrite Ha in H';
        unfold res_bind, py_slice, py_add_str in H';
        rewrite slice_upto_nonneg in H' by lia; injection H' as <-; reflexivity |]
  end.
  split; [reflexivity|]. split.
  { intros Hle. rewrite take_ge by lia. reflexivity. }
  match goal with
  | H : Ok (match assoc (u "publicationDate") kv with _ => _ end) = Ok ?x,
    H' : (if truthy ?x then _ else _) = Ok ?y |- _ => rename H into Hx; rename H' into Hy
  end.
  split.
  - intros d Hd Hdne. rewrite Hd in Hx. injection Hx as <-.
    destruct d; [congruence|]. simpl truthy in Hy. cbv iota in Hy.
    unfold py_get in Hy. rewrite Hd in Hy.
    unfold res_bind, py_slice in Hy. rewrite slice_upto_nonneg in Hy by lia.
    injection Hy as <-. reflexivity.
  - intros Hd. rewrite Hd in Hx. injection Hx as <-. simpl in Hy. injection Hy as <-.
    reflexivity.
Qed.



Lemma C7_abstract_marker_always_appended_witness :
  exists p, paper_of_record short_record = Ok p /\
            py_item p (u "abstract") = Ok (JStr (u "abc...")) /\
            py_item p (u "year") = Ok (JStr []).
Proof.
  eexists. split; [vm_compute; reflexivity|].
  destruct (C7_abstract_marker_always_appended
              [(u "title", JStr (u "Light reactions")); (u "abstract", JStr (u "abc"))]
              (u "abc") _ eq_refl ltac:(discriminate) eq_refl) as (H1 & _ & _ & H2).
  split; [exact H1 | exact (H2 eq_refl)].
Defined.

(** ** The literature search *)

Lemma res_map_length {A B} (f : A -> res B) l r :
  res_map f l = Ok r -> length r = length l.
Proof.
  revert r. induction l as [|x l IH]; intros r; simpl.
  - now intros [= <-].
  - destruct (f x) as [y|]; simpl; [|discriminate].
    destruct (res_map f l) as [r'|]; simpl; [|discriminate].
    intros [= <-]. simpl. now rewrite (IH r').
Qed.

(** The items a loop over [records[:count]] visits. *)
Lemma sliced_items_length records count sl items :
  (0 <= count)%Z ->
  py_slice records count = Ok sl -> py_iter sl = Ok items ->
  (length items <= Z.to_nat count)%nat.
Proof.
  intros Hc Hs Hi. destruct records; simpl in Hs; try discriminate;
    injection Hs as <-; simpl in Hi; injection Hi as <-;
    rewrite slice_upto_nonneg by assumption.
  - rewrite length_map, length_take. lia.
  - rewrite length_take. lia.
Qed.

(** The sub-task: it returns a list from every state, of at most [count]
    papers; without its credential, or when the request raises, is
    answered with an error status or does not parse, the list is empty.
    It publishes nothing. *)
Lemma search_related_papers_task_spec w query count s :
  exists papers s',
    search_related_papers_task w query count s = (Ok papers, s') /\
    broker s' = broker s /\
    ((0 <= count)%Z -> (length papers <= Z.to_nat count)%nat) /\
    (truthy_opt (SPRINGER_API_KEY w) = false -> papers = []) /\
    (forall e,
       let req := springer_request (default [] (SPRINGER_API_KEY w)) query count in
       (requests_get w (now s) req = Raise e \/
        exists response, requests_get w (now s) req = Ok response /\
                         (raise_for_status response = Raise e \/
                          raise_for_status response = Ok tt /\
                          resp_json response = Raise e)) ->
       papers = []).
Proof.
  unfold search_related_papers_task, try_except, http_get, bind, tick, record_request,
    lift, ret, print. simpl.
  destruct (truthy_opt (SPRINGER_API_KEY w)) eqn:Hkey; simpl.
  2:{ eexists _, _. split; [reflexivity|]. repeat split; auto. simpl. lia. }
  set (req := springer_request _ _ _).
  destruct (requests_get w (now s) req) as [response|e0] eqn:Hget; simpl.
  2:{ eexists _, _. split; [reflexivity|]. repeat split; auto; simpl; try lia; discriminate. }
  destruct (raise_for_status response) as [[]|e0] eqn:Hst; simpl.
  2:{ eexists _, _. split; [reflexivity|]. repeat split; auto; simpl; try lia; discriminate. }
  destruct (resp_json response) as [data|e0] eqn:Hjson; simpl.
  2:{ eexists _, _. split; [reflexivity|]. repeat split; auto; simpl; try lia; discriminate. }
  assert (forall P : Prop, (forall e : exn,
            Ok response = Raise e \/
            (exists response0, Ok response = Ok response0 /\
               (raise_for_status response0 = Raise e \/
                raise_for_status response0 = Ok tt /\ resp_json response0 = Raise e)) -> P))
    as Hno.
  { intros P e [H | (r0 & [= <-] & [H | [_ H]])]; congruence. }
  destruct (py_in (u "records") data) as [[]|e0]; simpl.
  - destruct (py_item data (u "records")) as [records|e0]; simpl.
    2:{ eexists _, _. split; [reflexivity|]. repeat split; auto; simpl; try lia; discriminate. }
    destruct (py_slice records count) as [sl|e0] eqn:Hsl; simpl.
    2:{ eexists _, _. split; [reflexivity|]. repeat split; auto; simpl; try lia; discriminate. }
    destruct (py_iter sl) as [items|e0] eqn:Hit; simpl.
    2:{ eexists _, _. split; [reflexivity|]. repeat split; auto; simpl; try lia; discriminate. }
    destruct (res_map paper_of_record items) as [papers|e0] eqn:Hmap; simpl.
    2:{ eexists _, _. split; [reflexivity|]. repeat split; auto; simpl; try lia; discriminate. }
    eexists _, _. split; [reflexivity|]. split; [reflexivity|]. split.
    + intros Hc. rewrite (res_map_length _ _ _ Hmap).
      eapply sliced_items_length; eassumption.
    + split; [discriminate|]. intros e. apply Hno.
  - eexists _, _. split; [reflexivity|]. repeat split; auto; simpl; lia.
  - eexists _, _. split; [reflexivity|]. repeat split; auto; simpl; try lia; discriminate.
Qed.

(** [split] cuts the content into its tokens, in order: every piece is a
    token, and together they are the non-space code points of the
    content. *)
Lemma split_from_spec cur s :
  Forall (fun c => isspace c = false) cur ->
  Forall token (split_from cur s) /\
  concat (split_from cur s) = rev cur ++ List.filter (fun c => negb (isspace c)) s.
Proof.
  revert cur. induction s as [|c s IH]; intros cur Hcur; simpl.
  - destruct cur as [|c0 cur']; simpl; [split; [constructor|reflexivity]|].
    split.
    + constructor; [|constructor]. split.
      * intros H. apply (f_equal length) in H. rewrite length_app in H. simpl in H. lia.
      * rewrite Forall_app. split.
        -- apply Forall_rev. now inversion Hcur.
        -- constructor; [now inversion Hcur | constructor].
    + now rewrite !app_nil_r.
  - destruct (isspace c) eqn:Hc; simpl.
    + destruct (IH [] ltac:(constructor)) as [IH1 IH2]. simpl in IH2.
      destruct cur as [|c0 cur'].
      * split; [exact IH1 | exact IH2].
      * split.
        -- constructor; [|exact IH1]. split.
           ++ simpl. intros H. apply (f_equal length) in H. rewrite length_app in H.
              simpl in H. lia.
           ++ now apply Forall_rev.
        -- simpl. now rewrite IH2.
    + destruct (IH (c :: cur)) as [IH1 IH2]; [now constructor|].
      split; [exact IH1|]. rewrite IH2. simpl. now rewrite <- app_assoc.
Qed.

Lemma split_spec s :
  Forall token (split s) /\
  concat (split s) = List.filter (fun c => negb (isspace c)) s.
Proof. apply (split_from_spec [] s). constructor. Qed.

Lemma query_of_spec content :
  (split content = [] -> query_of content = DEFAULT_QUERY) /\
  (split content <> [] -> query_of content = join (u " ") (take 3 (split content))).
Proof.
  unfold query_of. destruct (split content) as [|t ts]; simpl.
  - split; [reflexivity|congruence].
  - split; [discriminate|reflexivity].
Qed.

(** The state once a message has been published. *)
Lemma apply_async_accepted w m s :
  broker_fault w (now s) = None ->
  apply_async w m s = (Ok tt, snd (publish m (snd (tick s)))).
Proof.
  intros H. unfold apply_async, check_fault, bind, tick, ret. simpl. now rewrite H.
Qed.

Lemma apply_async_refused w m s e :
  broker_fault w (now s) = Some e ->
  apply_async w m s = (Raise e, snd (tick s)).
Proof.
  intros H. unfold apply_async, check_fault, bind, tick, raise. simpl. now rewrite H.
Qed.

(** The search client once the sub-task has been published. *)
Lemma search_related_papers_dispatched w content s :
  truthy_opt (SPRINGER_API_KEY w) = true -> content <> [] ->
  broker_fault w (now s) = None ->
  exists papers s',
    search_related_papers w content s = (Ok papers, s') /\
    (length papers <= 3)%nat /\
    broker s' = broker s ++ [Msg_search_related_papers_task (query_of content) 3] /\
    (result_fault w (S (now s)) <> None -> papers = []) /\
    (forall e,
       let req := springer_request (default [] (SPRINGER_API_KEY w)) (query_of content) 3 in
       (requests_get w (S (S (now s))) req = Raise e \/
        exists response, requests_get w (S (S (now s))) req = Ok response /\
                         (raise_for_status response = Raise e \/
                          raise_for_status response = Ok tt /\
                          resp_json response = Raise e)) ->
       papers = []).
Proof.
  intros Hkey Hc Hb. unfold search_related_papers. rewrite Hkey.
  destruct content as [|c content]; [congruence|].
  change (negb true || negb (nonempty (c :: content))) with false. cbv iota.
  set (query := query_of (c :: content)).
  rewrite (bind_Ok _ _ _ _ _ (apply_async_accepted w _ s Hb)).
  set (s1 := snd (publish _ (snd (tick s)))).
  unfold try_except, result_get, check_fault.
  unfold bind at 1. unfold bind at 1. simpl.
  destruct (result_fault w (S (now s))) as [e0|] eqn:Hr; simpl.
  - eexists _, _. split; [reflexivity|]. simpl. repeat split; auto; lia.
  - set (s2 := mk_State _ _ _ _ _ _ _).
    destruct (search_related_papers_task_spec w query 3 s2)
      as (papers & s' & Hrun & Hbr & Hlen & _ & Hfail).
    rewrite Hrun. eexists _, _. split; [reflexivity|].
    split; [apply Hlen; lia|]. split; [rewrite Hbr; reflexivity|].
    split; [congruence|]. intros e H. apply (Hfail e). exact H.
Qed.

(** C6 (amended).  For every content, in every world: without the search
    credential, or for empty content, the client returns the empty
    sequence at once.  Otherwise it publishes one sub-task, whose query is
    the first three whitespace-delimited tokens of the content joined by a
    space, or the fixed default when the content has no token, and whose
    count is 3.  If the broker refuses that message the exception escapes
    to the caller; if it accepts, the client returns an ordered sequence of
    at most 3 entries and raises nothing: the expiry of the wait, a
    request that raises, an error status and a body that does not parse
    all give the empty sequence. *)
Theorem C6_search_degrades_once_dispatched w content s :
  ((truthy_opt (SPRINGER_API_KEY w) = false \/ content = []) ->
   search_related_papers w content s = (Ok [], s)) /\
  (truthy_opt (SPRINGER_API_KEY w) = true -> content <> [] ->
   (forall e, broker_fault w (now s) = Some e ->
      fst (search_related_papers w content s) = Raise e) /\
   (broker_fault w (now s) = None ->
    exists papers s',
      search_related_papers w content s = (Ok papers, s') /\
      (length papers <= 3)%nat /\
      broker s' = broker s ++ [Msg_search_related_papers_task (query_of content) 3] /\
      (result_fault w (S (now s)) <> None -> papers = []) /\
      (forall e,
         let req := springer_request (default [] (SPRINGER_API_KEY w)) (query_of content) 3 in
         (requests_get w (S (S (now s))) req = Raise e \/
          exists response, requests_get w (S (S (now s))) req = Ok response /\
                           (raise_for_status response = Raise e \/
                            raise_for_status response = Ok tt /\
                            resp_json response = Raise e)) ->
         papers = []))) /\
  (split content = [] -> query_of content = DEFAULT_QUERY) /\
  (split content <> [] -> query_of content = join (u " ") (take 3 (split content))) /\
  Forall token (split content) /\
  concat (split content) = List.filter (fun c => negb (isspace c)) content.
Proof.
  split.
  { intros H. unfold search_related_papers.
    destruct H as [-> | ->]; [reflexivity|]. now rewrite orb_true_r. }
  split.
  { intros Hkey Hc. split.
    - intros e He. unfold search_related_papers. rewrite Hkey.
      destruct content; [congruence|]. simpl.
      now rewrite (bind_Raise _ _ _ _ _ (apply_async_refused w _ s e He)).
    - now apply search_related_papers_dispatched. }
  split; [apply query_of_spec|]. split; [apply query_of_spec|]. apply split_spec.
Qed.

Lemma C6_search_degrades_once_dispatched_witness :
  (exists papers s',
     search_related_papers springer_world sample_text state0 = (Ok papers, s') /\
     (length papers <= 3)%nat /\
     broker s' = [Msg_search_related_papers_task (u "Photosynthesis converts light") 3]) /\
  fst (search_related_papers slow_search_world sample_text state0) = Ok [] /\
  search_related_papers plain_world sample_text state0 = (Ok [], state0).
Proof.
  destruct (C6_search_degrades_once_dispatched springer_world sample_text state0)
    as (_ & H & _).
  destruct (H eq_refl ltac:(discriminate)) as [_ H2].
  destruct (H2 eq_refl) as (papers & s' & Hrun & Hlen & Hbr & _).
  destruct (C6_search_degrades_once_dispatched slow_search_world sample_text state0)
    as (_ & H' & _).
  destruct (H' eq_refl ltac:(discriminate)) as [_ H2'].
  destruct (H2' eq_refl) as (papers' & s'' & Hrun' & _ & _ & Hexp & _).
  destruct (C6_search_degrades_once_dispatched plain_world sample_text state0)
    as (H0 & _).
  split; [exists papers, s'; repeat split; assumption|].
  split; [rewrite Hrun'; simpl; f_equal; apply Hexp; discriminate|].
  apply H0. left. reflexivity.
Defined.

(** C6 as stated fails: with the credential configured and the broker
    down, the publish of the sub-task raises and the client lets it
    through. *)
Lemma C6_counterexample :
  fst (search_related_papers broker_down_world sample_text state0) = Raise BROKER_DOWN /\
  ~ (exists papers, fst (search_related_papers broker_down_world sample_text state0)
                    = Ok papers).
Proof. split; [vm_compute; reflexivity|]. intros [papers H]. vm_compute in H. discriminate. Qed.

(** ** Retries *)

(** The search client returns a sequence whenever the broker accepts the
    message published at that instant, and leaves the job store alone. *)
Lemma search_related_papers_accepted w content s :
  broker_fault w (now s) = None ->
  exists papers s',
    search_related_papers w content s = (Ok papers, s') /\
    async_tasks s' = async_tasks s.
Proof.
  intros Hb.
  assert (async_tasks (snd (search_related_papers w content s)) = async_tasks s) as Hfr.
  { symmetry. apply (search_related_papers_steps async_tasks eq w); prim. }
  destruct (truthy_opt (SPRINGER_API_KEY w)) eqn:Hkey.
  - destruct content as [|c rest].
    + exists [], s. split; [|reflexivity]. unfold search_related_papers.
      now rewrite orb_true_r.
    + destruct (search_related_papers_dispatched w (c :: rest) s Hkey ltac:(discriminate) Hb)
        as (papers & s' & Hrun & _).
      exists papers, s'. split; [exact Hrun|]. now rewrite Hrun in Hfr.
  - exists [], s. split; [|reflexivity]. unfold search_related_papers. now rewrite Hkey.
Qed.

(** A delivery whose body raised: the failure is written, then the task
    is scheduled again if retries remain. *)
Lemma process_paper_task_raised w retries task_id user_id file_path text s e s1 :
  process_paper_body w task_id user_id file_path text s = (Raise e, s1) ->
  let s2 := snd (update_task_status w task_id failed None (Some (str_exn e)) s1) in
  process_paper_task w retries task_id user_id file_path text s =
    (if (retries <? max_retries)%nat
     then self_retry w task_id user_id file_path text retries e
     else ret None) s2.
Proof.
  intros Hbody s2. unfold process_paper_task.
  rewrite (try_except_Raise _ _ _ _ _ Hbody).
  destruct (update_task_status_effect w task_id failed None (Some (str_exn e)) s1)
    as (s2' & E & _).
  subst s2. rewrite E. simpl. now rewrite (bind_Ok _ _ _ _ _ E).
Qed.

Lemma self_retry_accepted w task_id user_id file_path text retries e s :
  broker_fault w (now s) = None ->
  self_retry w task_id user_id file_path text retries e s =
    (Raise (Retry e default_retry_delay),
     snd (publish (Msg_process_paper_task task_id user_id file_path text (S retries)
                     default_retry_delay) (snd (tick s)))).
Proof.
  intros Hb. unfold self_retry.
  rewrite (bind_Ok _ _ _ _ _
             (try_except_Ok _ _ _ _ _ (apply_async_accepted w _ s Hb))).
  reflexivity.
Qed.

(** The last delivery returns. *)
Lemma process_paper_task_last w retries task_id user_id file_path text s :
  (max_retries <= retries)%nat ->
  exists a s', process_paper_task w retries task_id user_id file_path text s = (Ok a, s').
Proof.
  intros Hr.
  destruct (process_paper_body w task_id user_id file_path text s) as [[a|e] s1] eqn:Hbody.
  - exists a, s1. unfold process_paper_task. now apply try_except_Ok.
  - rewrite (process_paper_task_raised w retries _ _ _ _ _ _ _ Hbody).
    destruct (Nat.ltb_spec retries max_retries); [lia|]. eexists _, _. reflexivity.
Qed.

(** The worker ends the job within the retry budget: with fuel for the
    deliveries that remain, [run_job] returns, its outcome is not a
    [Retry], and the last delivery has at most [max_retries] retries
    behind it. *)
Lemma run_job_total w task_id user_id file_path text fuel :
  forall retries s,
    (0 < fuel)%nat -> (max_retries < fuel + retries)%nat ->
    exists r s' n,
      run_job w fuel retries task_id user_id file_path text s = Some (r, s', n) /\
      (retries <= n)%nat /\ (n <= Nat.max retries max_retries)%nat /\
      (forall exc countdown, r <> Raise (Retry exc countdown)).
Proof.
  induction fuel as [|fuel IH]; intros retries s Hpos Hf; [lia|].
  simpl.
  destruct (process_paper_task w retries task_id user_id file_path text s)
    as [[a|[cls msg|exc cd]] s1] eqn:Hrun.
  - exists (Ok a), s1, retries. repeat split; [lia..|discriminate].
  - exists (Raise (PyErr cls msg)), s1, retries. repeat split; [lia..|discriminate].
  - destruct (Nat.le_gt_cases max_retries retries) as [Hlast|Hmore].
    + destruct (process_paper_task_last w retries task_id user_id file_path text s Hlast)
        as (a & s' & Hok). congruence.
    + destruct (IH (S retries) s1) as (r & s' & n & Hr & Hn1 & Hn2 & Hne); [lia..|].
      exists r, s', n. split; [exact Hr|]. repeat split; [lia..|exact Hne].
Qed.

Lemma nonempty_take {A} n (l : list A) :
  (0 < n)%nat -> l <> [] -> nonempty (take n l) = true.
Proof. intros Hn Hl. destruct n; [lia|]. destruct l; [congruence|reflexivity]. Qed.

(** A delivery with inline text in which the interpretation call raises:
    the exception ends up as text in the result and the job completes. *)
Lemma process_paper_task_call_failed w retries task_id user_id file_path text s e j :
  db_healthy w -> broker_healthy w ->
  truthy_opt (DEEPSEEK_API_KEY w) = true ->
  (forall t req, requests_post w t req = Raise e) ->
  text <> [] ->
  async_tasks s !! task_id = Some j -> AsyncTask.task_id j = task_id ->
  exists result s',
    process_paper_task w retries task_id user_id file_path (Some text) s
    = (Ok (Some result), s') /\
    py_item result (u "interpretation") = Ok (JStr (CALL_FAILED ++ str_exn e)) /\
    exists j', async_tasks s' !! task_id = Some j' /\
               AsyncTask.status j' = completed /\
               AsyncTask.result j' = Some result /\
               AsyncTask.error j' = AsyncTask.error j.
Proof.
  intros Hdb Hbr Hkey Hpost Ht Hj Hid.
  unfold process_paper_task, process_paper_body.
  (* processing *)
  pose proof (update_task_status_row w task_id processing None None s j Hdb Hj Hid) as Hrow1.
  destruct (update_task_status_effect w task_id processing None None s) as (s1 & E1 & _).
  rewrite E1 in Hrow1. simpl in Hrow1.
  (* extraction *)
  pose proof (extract_content_inline w file_path text s1 Ht) as E2.
  set (content := take 10000 text) in *.
  assert (nonempty content = true) as Hc.
  { apply nonempty_take; [|exact Ht]. apply Nat.ltb_lt. vm_compute. reflexivity. }
  (* interpretation *)
  pose proof (call_deepseek_api_failure w content s1 e Hkey (or_introl (Hpost _ _))) as E3.
  simpl in E3.
  set (s3 := requested _ s1) in E3.
  (* search *)
  destruct (search_related_papers_accepted w content s3 (Hbr _)) as (papers & s4 & E4 & Hfr4).
  (* completed *)
  set (result := build_result (JStr (CALL_FAILED ++ str_exn e)) content papers
                              (isoformat w (utcnow w (now s4)))).
  set (s5 := snd (tick s4)).
  assert (async_tasks s5 !! task_id
          = Some (assign j processing (utcnow w (S (now s))) None None)) as Hrow5.
  { subst s5. simpl. rewrite Hfr4. subst s3. exact Hrow1. }
  pose proof (update_task_status_row w task_id completed (Some result) None s5 _
                Hdb Hrow5 Hid) as Hrow6.
  destruct (update_task_status_effect w task_id completed (Some result) None s5)
    as (s6 & E6 & _).
  rewrite E6 in Hrow6. simpl in Hrow6.
  pose proof (apply_async_accepted w (Msg_save_to_history user_id task_id result) s6 (Hbr _))
    as E7.
  exists result. eexists. split.
  - apply try_except_Ok.
    rewrite (bind_Ok _ _ _ _ _ E1). rewrite (bind_Ok _ _ _ _ _ E2).
    rewrite Hc. change (negb true) with false. cbv iota.
    rewrite (bind_Ok _ _ _ _ _ E3). rewrite (bind_Ok _ _ _ _ _ E4).
    rewrite (bind_Ok tick _ s4 (now s4) s5 eq_refl).
    fold result.
    rewrite (bind_Ok _ _ _ _ _ E6). rewrite (bind_Ok _ _ _ _ _ E7). reflexivity.
  - split; [reflexivity|].
    eexists. split.
    + simpl. exact Hrow6.
    + repeat split.
Qed.

(** C2 (amended).  When a step of a delivery raises, the orchestrator
    writes [failed] with [str(e)] and, while fewer than 3 retries have
    been made and the broker takes the message, publishes the task again
    with one more retry and a delay of 30 and raises [Retry]; on the
    delivery that follows the third retry it returns instead, so a job is
    delivered at most 4 times and [run_job] always ends it.  A time-out of
    the interpretation call is not such a step: the client turns it into
    the failure text, and with inline text and the database and broker up
    the delivery completes the job with that text as its interpretation,
    whatever the number of retries behind it. *)
Theorem C2_retry_policy_and_absorbed_timeout w task_id user_id file_path text :
  (forall retries s e s1,
     process_paper_body w task_id user_id file_path text s = (Raise e, s1) ->
     let s2 := snd (update_task_status w task_id failed None (Some (str_exn e)) s1) in
     (db_healthy w ->
      forall j, async_tasks s1 !! task_id = Some j -> AsyncTask.task_id j = task_id ->
        exists j', async_tasks s2 !! task_id = Some j' /\
                   AsyncTask.status j' = failed /\
                   AsyncTask.error j' = Some (str_exn e)) /\
     ((retries < 3)%nat -> broker_fault w (now s2) = None ->
      process_paper_task w retries task_id user_id file_path text s =
        (Raise (Retry e 30),
         snd (publish (Msg_process_paper_task task_id user_id file_path text (S retries) 30)
                      (snd (tick s2))))) /\
     ((3 <= retries)%nat ->
      process_paper_task w retries task_id user_id file_path text s = (Ok None, s2))) /\
  (forall s, exists r s' n,
     run_job w 4 0 task_id user_id file_path text s = Some (r, s', n) /\
     (n <= 3)%nat /\ forall exc countdown, r <> Raise (Retry exc countdown)) /\
  (forall content s e,
     truthy_opt (DEEPSEEK_API_KEY w) = true ->
     requests_post w (now s)
       (deepseek_request (default [] (DEEPSEEK_API_KEY w)) (capped content)) = Raise e ->
     fst (call_deepseek_api w content s) = Ok (JStr (CALL_FAILED ++ str_exn e))) /\
  (forall retries s e t j,
     db_healthy w -> broker_healthy w ->
     truthy_opt (DEEPSEEK_API_KEY w) = true ->
     (forall i req, requests_post w i req = Raise e) ->
     text = Some t -> t <> [] ->
     async_tasks s !! task_id = Some j -> AsyncTask.task_id j = task_id ->
     exists result s',
       process_paper_task w retries task_id user_id file_path text s
       = (Ok (Some result), s') /\
       py_item result (u "interpretation") = Ok (JStr (CALL_FAILED ++ str_exn e)) /\
       exists j', async_tasks s' !! task_id = Some j' /\
                  AsyncTask.status j' = completed /\
                  AsyncTask.result j' = Some result /\
                  AsyncTask.error j' = AsyncTask.error j).
Proof.
  split; [|split; [|split]].
  - intros retries s e s1 Hbody s2.
    pose proof (process_paper_task_raised w retries _ _ _ _ _ _ _ Hbody) as Hrun.
    simpl in Hrun. fold s2 in Hrun. split; [|split].
    + intros Hdb j Hj Hid.
      pose proof (update_task_status_row w task_id failed None (Some (str_exn e)) s1 j
                    Hdb Hj Hid) as Hrow.
      fold s2 in Hrow. eexists. split; [exact Hrow|]. split; reflexivity.
    + intros Hr Hb. rewrite Hrun. unfold max_retries.
      destruct (Nat.ltb_spec retries 3); [|lia].
      now apply self_retry_accepted.
    + intros Hr. rewrite Hrun. unfold max_retries.
      destruct (Nat.ltb_spec retries 3); [lia|reflexivity].
  - intros s.
    destruct (run_job_total w task_id user_id file_path text 4 0 s)
      as (r & s' & n & Hrun & _ & Hn & Hne); [lia | unfold max_retries; lia |].
    exists r, s', n. split; [exact Hrun|]. split; [exact Hn | exact Hne].
  - intros content s e Hkey Hpost.
    now rewrite (call_deepseek_api_failure w content s e Hkey (or_introl Hpost)).
  - intros retries s e t j Hdb Hbr Hkey Hpost -> Ht Hj Hid.
    now apply process_paper_task_call_failed.
Qed.

Lemma plain_world_healthy : db_healthy plain_world /\ broker_healthy plain_world.
Proof. split; intros t; reflexivity. Qed.

Lemma timeout_world_healthy : db_healthy timeout_world /\ broker_healthy timeout_world.
Proof. split; intros t; reflexivity. Qed.

Lemma C2_retry_policy_and_absorbed_timeout_witness :
  (exists s',
     process_paper_task plain_world 0 job_id owner (Some upload) None
       (state_with {[ upload := directory ]})
     = (Raise (Retry (PyErr "IsADirectoryError" (u "[Errno 21] Is a directory")) 30), s')) /\
  (exists s', run_job plain_world 4 0 job_id owner (Some upload) None
                (state_with {[ upload := directory ]}) = Some (Ok None, s', 3%nat)) /\
  (exists result s',
     process_paper_task timeout_world 0 job_id owner None (Some sample_text) state0
     = (Ok (Some result), s') /\
     py_item result (u "interpretation")
     = Ok (JStr (CALL_FAILED ++ u "Read timed out. (read timeout=60)"))).
Proof.
  destruct (C2_retry_policy_and_absorbed_timeout plain_world job_id owner (Some upload) None)
    as (H1 & _).
  assert (exists s1, process_paper_body plain_world job_id owner (Some upload) None
                       (state_with {[ upload := directory ]})
                     = (Raise (PyErr "IsADirectoryError" (u "[Errno 21] Is a directory")), s1))
    as [s1 Hbody] by (eexists; vm_compute; reflexivity).
  destruct (H1 0%nat _ _ _ Hbody) as (_ & Hretry & _).
  destruct (C2_retry_policy_and_absorbed_timeout timeout_world job_id owner None
              (Some sample_text)) as (_ & _ & _ & H4).
  destruct (H4 0%nat state0 READ_TIMEOUT sample_text fresh_job
              (proj1 timeout_world_healthy) (proj2 timeout_world_healthy) eq_refl
              (fun _ _ => eq_refl) eq_refl ltac:(discriminate) eq_refl eq_refl)
    as (result & s' & Hrun & Hint & _).
  split; [eexists; apply Hretry; [lia | reflexivity]|].
  split; [eexists; vm_compute; reflexivity|].
  exists result, s'. split; [exact Hrun | exact Hint].
Defined.

(** C2 as stated fails: with the interpretation service configured and
    every call to it timing out, the first delivery completes the job; no
    retry is made and the job does not end [failed]. *)
Lemma C2_counterexample :
  exists result s' j,
    run_job timeout_world 4 0 job_id owner None (Some sample_text) state0
    = Some (Ok (Some result), s', 0%nat) /\
    async_tasks s' !! job_id = Some j /\
    AsyncTask.status j = completed /\
    AsyncTask.status j <> failed /\
    AsyncTask.error j = None /\
    broker s' = [Msg_save_to_history owner job_id result].
Proof.
  eexists _, _, _. split; [vm_compute; reflexivity|].
  split; [vm_compute; reflexivity|].
  repeat split. discriminate.
Qed.

(** ** The two fields on concrete runs *)

(** C1 (amended).  Whatever the world does, over a whole job with its
    retries (and [run_job] does end every job): a row whose status is
    [completed] has a result and a row whose status is [failed] has an
    error, if that held before; no row loses a field that was set, so the
    two fields are not exclusive once one attempt has failed and another
    completed.  A delivery changes the job store only by writes of three
    shapes to the row found under the job's id (any preorder on stores
    that those writes respect relates the store before to the store
    after), and each of them overwrites at most one of the two fields,
    the one it supplies, leaving the other as stored. *)
Theorem C1_terminal_field_set_never_cleared w task_id user_id file_path text :
  (forall s, exists r s' n,
     run_job w 4 0 task_id user_id file_path text s = Some (r, s', n)) /\
  (forall fuel retries s r s' n,
     run_job w fuel retries task_id user_id file_path text s = Some (r, s', n) ->
     (store_ok (async_tasks s) -> store_ok (async_tasks s')) /\
     (keyed (async_tasks s) ->
      forall k j, async_tasks s !! k = Some j ->
        exists j', async_tasks s' !! k = Some j' /\ never_cleared j j')) /\
  (forall (R : relation (gmap pystr AsyncTask.t)), PreOrder R ->
     (forall status result error d j t,
        orchestrator_write status result error -> d !! task_id = Some j ->
        R d (<[AsyncTask.task_id j := assign j status t result error]> d)) ->
     forall retries s,
       R (async_tasks s)
         (async_tasks (snd (process_paper_task w retries task_id user_id file_path text s)))) /\
  (forall j status t result error,
     orchestrator_write status result error ->
     let j' := assign j status t result error in
     AsyncTask.status j' = status /\
     (result = None \/ error = None) /\
     (result = None -> AsyncTask.result j' = AsyncTask.result j) /\
     (error = None -> AsyncTask.error j' = AsyncTask.error j) /\
     (status = completed -> AsyncTask.result j' = result /\ result <> None) /\
     (status = failed -> AsyncTask.error j' = error /\ error <> None)).
Proof.
  split.
  { intros s.
    destruct (run_job_total w task_id user_id file_path text 4 0 s)
      as (r & s' & n & Hrun & _); [lia | unfold max_retries; lia |].
    exists r, s', n. exact Hrun. }
  split.
  - intros fuel retries s r s' n Hrun. split.
    + apply (run_job_steps async_tasks keeps_store_ok w task_id user_id file_path text)
        with (fuel := fuel) (retries := retries) (r := r) (n := n); [|exact Hrun].
      intros retries'. apply process_paper_task_store; [exact _|].
      intros. eapply write_keeps_store_ok; eassumption.
    + intros Hk.
      apply (run_job_steps async_tasks clears_nothing w task_id user_id file_path text)
        with (fuel := fuel) (retries := retries) (r := r) (n := n); [|exact Hrun|exact Hk].
      intros retries'. apply process_paper_task_store; [exact _|].
      intros. eapply write_clears_nothing; eassumption.
  - split.
    + intros R HR Hwrite retries s.
      now apply (process_paper_task_store R w retries task_id user_id file_path text).
    + intros j status t result error Hw j'. subst j'.
      destruct Hw; simpl; repeat split; auto; congruence.
Qed.


Lemma fresh_store_ok : store_ok (async_tasks state0) /\ keyed (async_tasks state0).
Proof.
  split; intros k j H; simpl in H; apply lookup_singleton_Some in H as [<- <-].
  - split; discriminate.
  - reflexivity.
Qed.

Lemma C1_terminal_field_set_never_cleared_witness :
  exists r s' j',
    run_job flaky_broker_world 4 0 job_id owner None (Some sample_text) state0
    = Some (r, s', 1%nat) /\
    store_ok (async_tasks s') /\
    async_tasks s' !! job_id = Some j' /\ never_cleared fresh_job j'.
Proof.
  destruct (C1_terminal_field_set_never_cleared flaky_broker_world job_id owner None
              (Some sample_text)) as (_ & H & _ & _).
  assert (exists r s', run_job flaky_broker_world 4 0 job_id owner None (Some sample_text)
                         state0 = Some (r, s', 1%nat)) as (r & s' & Hrun)
    by (eexists _, _; vm_compute; reflexivity).
  destruct (H _ _ _ _ _ _ Hrun) as [Hok Hkeep].
  destruct (Hkeep (proj2 fresh_store_ok) job_id fresh_job eq_refl) as (j' & Hj' & Hnc).
  exists r, s', j'. split; [exact Hrun|]. split; [exact (Hok (proj1 fresh_store_ok))|].
  split; assumption.
Defined.

(** C1 as stated fails: the broker refuses the history message of the
    first delivery, after [completed] was written; the failure is written
    over it, leaving a [failed] job with a result, and the job is retried.
    The retry completes, and the job ends [completed] with its result and
    the error of the first delivery both set.  The same on the row alone:
    the assignments of a [failed] write followed by those of a
    [completed] write leave both fields set. *)
Lemma C1_counterexample :
  (exists result s' j,
     run_job flaky_broker_world 4 0 job_id owner None (Some sample_text) state0
     = Some (Ok (Some result), s', 1%nat) /\
     async_tasks s' !! job_id = Some j /\
     AsyncTask.status j = completed /\
     AsyncTask.result j = Some result /\
     AsyncTask.error j = Some (str_exn BROKER_DOWN) /\
     ~ exclusive j) /\
  (exists s1 j1,
     process_paper_task flaky_broker_world 0 job_id owner None (Some sample_text) state0
     = (Raise (Retry BROKER_DOWN 30), s1) /\
     async_tasks s1 !! job_id = Some j1 /\
     AsyncTask.status j1 = failed /\
     AsyncTask.result j1 <> None /\
     ~ exclusive j1) /\
  (let j1 := assign fresh_job failed 1 None (Some (str_exn READ_TIMEOUT)) in
   let j2 := assign j1 completed 2 (Some sample_result) None in
   AsyncTask.status j2 = completed /\
   AsyncTask.result j2 = Some sample_result /\
   AsyncTask.error j2 = Some (str_exn READ_TIMEOUT) /\
   ~ exclusive j2).
Proof.
  split; [|split].
  - eexists _, _, _. split; [vm_compute; reflexivity|].
    split; [vm_compute; reflexivity|].
    split; [reflexivity|]. split; [reflexivity|]. split; [vm_compute; reflexivity|].
    intros [H _]. destruct (H eq_refl) as [_ He]. discriminate.
  - eexists _, _. split; [vm_compute; reflexivity|].
    split; [vm_compute; reflexivity|].
    split; [reflexivity|]. split; [discriminate|].
    intros [_ H]. destruct (H eq_refl) as [_ Hr]. discriminate.
  - simpl. repeat split. intros [H _]. destruct (H eq_refl) as [_ He]. discriminate.
Qed.

(* ================================================================== *)
(** * Further properties of the code *)
(* ================================================================== *)

(** ** The status write, in full *)

(** X1.  [update_task_status] returns from every state of every world:
    what the session raises is printed, not raised.  If the first database
    call raises, or no row has this [task_id], the job store is left as it
    is, so the status asked for is lost.  When the row is found and both
    database calls go through, that row takes the new status and time and
    keeps its identity ([task_id], [user_id], [task_type], [input_data],
    [created_at]), and nothing is printed.  In a keyed store no other row
    changes and the store stays keyed. *)
Theorem X1_update_task_status_swallows_failures w task_id status result error s :
  let s' := snd (update_task_status w task_id status result error s) in
  fst (update_task_status w task_id status result error s) = Ok tt /\
  (forall e, db_fault w (now s) = Some e ->
     async_tasks s' = async_tasks s /\
     stdout s' = stdout s ++ [u "更新任务状态失败: " ++ str_exn e]) /\
  (async_tasks s !! task_id = None -> async_tasks s' = async_tasks s) /\
  (forall j, db_fault w (now s) = None -> db_fault w (S (S (now s))) = None ->
     async_tasks s !! task_id = Some j ->
     exists j',
       async_tasks s' = <[AsyncTask.task_id j := j']> (async_tasks s) /\
       AsyncTask.status j' = status /\
       AsyncTask.updated_at j' = utcnow w (S (now s)) /\
       AsyncTask.task_id j' = AsyncTask.task_id j /\
       AsyncTask.user_id j' = AsyncTask.user_id j /\
       AsyncTask.task_type j' = AsyncTask.task_type j /\
       AsyncTask.input_data j' = AsyncTask.input_data j /\
       AsyncTask.created_at j' = AsyncTask.created_at j /\
       stdout s' = stdout s) /\
  (keyed (async_tasks s) ->
     keyed (async_tasks s') /\
     forall k, k <> task_id -> async_tasks s' !! k = async_tasks s !! k).
Proof.
  intros s'. subst s'. split; [|split; [|split; [|split]]].
  - destruct (update_task_status_effect w task_id status result error s) as (s' & -> & _).
    reflexivity.
  - intros e He. run. rewrite He. simpl. split; reflexivity.
  - intros Hnone. run. destruct (db_fault w (now s)); simpl; [reflexivity|].
    rewrite Hnone. reflexivity.
  - intros j H1 H2 Hj. run. rewrite H1. simpl. rewrite Hj. simpl. rewrite H2. simpl.
    eexists. split; [reflexivity|]. repeat split.
  - intros Hk.
    destruct (update_task_status_effect w task_id status result error s)
      as (s' & Hrun & Hdb). rewrite Hrun. simpl.
    destruct Hdb as [-> | (j & Hj & ->)]; [split; [exact Hk | reflexivity]|].
    pose proof (Hk _ _ Hj) as Hid. rewrite Hid. split.
    + intros k j'. rewrite lookup_insert. case_decide.
      * intros [= <-]. subst k. exact Hid.
      * apply Hk.
    + intros k Hne. now apply lookup_insert_ne.
Qed.

Lemma X1_update_task_status_swallows_failures_witness :
  let s' := snd (update_task_status plain_world job_id completed (Some sample_result) None
                   state0) in
  exists j',
    async_tasks s' = <[job_id := j']> (async_tasks state0) /\
    AsyncTask.status j' = completed /\ AsyncTask.user_id j' = owner /\
    keyed (async_tasks s').
Proof.
  destruct (X1_update_task_status_swallows_failures plain_world job_id completed
              (Some sample_result) None state0) as (_ & _ & _ & H & Hk).
  destruct (H fresh_job eq_refl eq_refl eq_refl) as (j' & Hs & Hst & _ & _ & Hu & _).
  exists j'. split; [exact Hs|]. split; [exact Hst|]. split; [exact Hu|].
  apply Hk. apply fresh_store_ok.
Defined.

(** ** The history task *)

Lemma create_from_result_steps {X} (f : State -> X) (R : relation X) `{!PreOrder R}
    w user_id task_id result :
  steps f R tick ->
  (forall h, steps f R (set_interpretation_history h)) ->
  steps f R (InterpretationHistory_create_from_result w user_id task_id result).
Proof.
  intros Htick Hh. unfold InterpretationHistory_create_from_result, check_fault.
  steps_go; apply Hh.
Qed.

(** A record that is not created is not stored. *)
Lemma create_from_result_raised w user_id task_id result s e s1 :
  InterpretationHistory_create_from_result w user_id task_id result s = (Raise e, s1) ->
  interpretation_history s1 = interpretation_history s.
Proof.
  unfold InterpretationHistory_create_from_result, check_fault, bind, lift, tick, get,
    ret, raise, set_interpretation_history.
  destruct (res_bind (py_get result (u "original_content") (JStr [])) _) as [cpj|];
    [|intros [= <- <-]; reflexivity].
  destruct (res_bind (py_get result (u "interpretation") (JStr [])) _) as [ipj|];
    [|intros [= <- <-]; reflexivity].
  destruct (py_get_none result (u "original_content")) as [fcj|];
    [|intros [= <- <-]; reflexivity].
  destruct (py_get_none result (u "interpretation")) as [fij|];
    [|intros [= <- <-]; reflexivity].
  destruct (py_get result (u "recommendations") (JArr [])) as [recs|];
    [|intros [= <- <-]; reflexivity].
  simpl. destruct (db_fault w (now s)); [intros [= <- <-]; reflexivity|].
  destruct (bind_text cpj) as [cp|]; [|intros [= <- <-]; reflexivity].
  destruct (bind_text ipj) as [ip|]; [|intros [= <- <-]; reflexivity].
  destruct (bind_text fcj) as [fc|]; [|intros [= <- <-]; reflexivity].
  destruct (bind_text fij) as [fi|]; [|intros [= <- <-]; reflexivity].
  discriminate.
Qed.

(** X2.  [save_to_history] returns from every state of every world and
    never touches the job store, the files, the broker or the requests: a
    failure to record is printed and is invisible to the job.  The history
    table gains the one record built from the result, whose owner and job
    id are the arguments and whose previews are previews of its full
    texts, or it is left as it was and one line is printed. *)
Theorem X2_save_to_history_isolated w user_id task_id result s :
  let s' := snd (save_to_history w user_id task_id result s) in
  fst (save_to_history w user_id task_id result s) = Ok tt /\
  async_tasks s' = async_tasks s /\ files s' = files s /\
  broker s' = broker s /\ sent s' = sent s /\
  ((exists h,
      interpretation_history s' = interpretation_history s ++ [h] /\
      stdout s' = stdout s /\
      InterpretationHistory.user_id h = user_id /\
      InterpretationHistory.task_id h = Some task_id /\
      preview_of (InterpretationHistory.content_preview h)
                 (InterpretationHistory.full_content h) /\
      preview_of (InterpretationHistory.interpretation_preview h)
                 (InterpretationHistory.full_interpretation h)) \/
   (interpretation_history s' = interpretation_history s /\
    exists e, stdout s' = stdout s ++ [u "保存历史记录失败: " ++ str_exn e])).
Proof.
  intros s'. subst s'.
  assert (forall {X} (f : State -> X),
            steps f eq tick -> (forall l, steps f eq (print l)) ->
            (forall h, steps f eq (set_interpretation_history h)) ->
            f (snd (save_to_history w user_id task_id result s)) = f s) as Hframe.
  { intros X f H1 H2 H3. symmetry. unfold save_to_history.
    apply steps_try_except; [exact _ | | intros; apply H2].
    apply steps_bind; [exact _ | | intros; apply steps_ret; exact _].
    apply create_from_result_steps; [exact _ | exact H1 | exact H3]. }
  split; [|split; [|split; [|split; [|split]]]]; try (apply Hframe; prim).
  - unfold save_to_history, try_except, bind, ret, print.
    destruct (InterpretationHistory_create_from_result w user_id task_id result s)
      as [[h|e] s1]; reflexivity.
  - unfold save_to_history, try_except, bind, ret, print.
    destruct (InterpretationHistory_create_from_result w user_id task_id result s)
      as [[h|e] s1] eqn:Hrun; simpl.
    + left. exists h.
      assert (stdout s1 = stdout s) as Hout.
      { pose proof (create_from_result_steps stdout eq w user_id task_id result
                      ltac:(prim) ltac:(prim) s) as H. rewrite Hrun in H. now symmetry. }
      revert Hrun.
      unfold InterpretationHistory_create_from_result, check_fault, bind, lift, tick, get,
        ret, raise, set_interpretation_history.
      destruct (res_bind (py_get result (u "original_content") (JStr [])) _)
        as [cpj|] eqn:Hcp; [|discriminate].
      destruct (res_bind (py_get result (u "interpretation") (JStr [])) _)
        as [ipj|] eqn:Hip; [|discriminate].
      destruct (py_get_none result (u "original_content")) as [fcj|] eqn:Hfc; [|discriminate].
      destruct (py_get_none result (u "interpretation")) as [fij|] eqn:Hfi; [|discriminate].
      destruct (py_get result (u "recommendations") (JArr [])) as [recs|]; [|discriminate].
      simpl. destruct (db_fault w (now s)); [discriminate|].
      destruct (bind_text cpj) as [cp|] eqn:Hcp'; [|discriminate].
      destruct (bind_text ipj) as [ip|] eqn:Hip'; [|discriminate].
      destruct (bind_text fcj) as [fc|] eqn:Hfc'; [|discriminate].
      destruct (bind_text fij) as [fi|] eqn:Hfi'; [|discriminate].
      simpl. intros [= <- <-]. simpl.
      split; [reflexivity|]. split; [reflexivity|]. split; [reflexivity|].
      split; [reflexivity|].
      split; [apply (preview_of_sliced result (u "original_content") cpj fcj); assumption|].
      apply (preview_of_sliced result (u "interpretation") ipj fij); assumption.
    + right.
      pose proof (create_from_result_raised w user_id task_id result s e s1 Hrun) as Hh.
      assert (stdout s1 = stdout s) as Hout.
      { pose proof (create_from_result_steps stdout eq w user_id task_id result
                      ltac:(prim) ltac:(prim) s) as H'. rewrite Hrun in H'. now symmetry. }
      split; [exact Hh|]. exists e. now rewrite Hout.
Qed.

(** ** The history of a completed job *)

Lemma build_result_fields interpretation content recommendations processed_at :
  let result := build_result interpretation content recommendations processed_at in
  py_item result (u "interpretation") = Ok interpretation /\
  py_item result (u "original_content") = Ok (JStr (original_content_of content)) /\
  py_item result (u "recommendations") = Ok (JArr recommendations) /\
  py_item result (u "processed_at") = Ok (JStr processed_at) /\
  py_item result (u "content_length") = Ok (JNum (Z.of_nat (length content))).
Proof. repeat split. Qed.

Lemma build_result_get interpretation content recommendations processed_at d :
  let result := build_result interpretation content recommendations processed_at in
  py_get result (u "interpretation") d = Ok interpretation /\
  py_get result (u "original_content") d = Ok (JStr (original_content_of content)) /\
  py_get result (u "recommendations") d = Ok (JArr recommendations).
Proof. repeat split. Qed.

Lemma take_original_content n content :
  (n <= 2000)%nat -> take n (original_content_of content) = take n content.
Proof.
  intros Hn. unfold original_content_of.
  destruct (Nat.ltb_spec 2000 (length content)) as [Hlt|Hle]; [|reflexivity].
  rewrite take_app_le by (rewrite length_take; lia).
  rewrite take_take. f_equal. lia.
Qed.

Lemma original_content_length content :
  (length (original_content_of content) <= 2003)%nat /\
  ((length content <= 2000)%nat -> original_content_of content = content) /\
  ((2000 < length content)%nat ->
   original_content_of content = take 2000 content ++ ELLIPSIS /\
   length (original_content_of content) = 2003%nat).
Proof.
  unfold original_content_of.
  destruct (Nat.ltb_spec 2000 (length content)) as [Hlt|Hle].
  - assert (length (take 2000 content ++ ELLIPSIS) = 2003%nat) as Hlen.
    { rewrite length_app, length_take. change (length ELLIPSIS) with 3%nat. lia. }
    split; [lia|]. split; [lia|]. intros _. split; [reflexivity | exact Hlen].
  - split; [lia|]. split; [reflexivity|]. lia.
Qed.

(** X3.  The history of a result as the orchestrator builds it.  When
    the interpretation is a string and the database call goes through,
    the record stored has the interpretation in full and its first 500
    code points as preview; its "full" content is the result's
    [original_content], which is the extracted content only up to 2000
    code points (beyond that, the first 2000 and the marker), and its
    content preview is the first 500 code points of the extracted content.
    When the interpretation is anything but a string (the service answered
    with a null or structured content), no record is stored. *)
Theorem X3_history_of_a_result w user_id task_id interpretation content recs processed_at s :
  let result := build_result interpretation content recs processed_at in
  let s' := snd (save_to_history w user_id task_id result s) in
  (forall i, interpretation = JStr i -> db_fault w (now s) = None ->
     interpretation_history s' =
       interpretation_history s ++
       [InterpretationHistory.mk user_id (Some task_id)
          (Some (take 500 content)) (Some (take 500 i))
          (Some (original_content_of content)) (Some i) (JArr recs)]) /\
  ((forall i, interpretation <> JStr i) ->
     interpretation_history s' = interpretation_history s).
Proof.
  intros result s'. subst s'.
  destruct (build_result_get interpretation content recs processed_at (JStr []))
    as (Hi & Hc & _).
  destruct (build_result_get interpretation content recs processed_at JNull)
    as (Hi' & Hc' & _).
  destruct (build_result_get interpretation content recs processed_at (JArr []))
    as (_ & _ & Hr).
  fold result in Hi, Hc, Hr, Hi', Hc'.
  split.
  - intros i -> Hdb.
    unfold save_to_history, try_except, InterpretationHistory_create_from_result,
      py_get_none, check_fault, bind, lift, tick, get, ret, raise,
      set_interpretation_history.
    rewrite Hi, Hc, Hi', Hc', Hr. simpl. rewrite Hdb. simpl.
    rewrite !slice_upto_nonneg by lia.
    change (Z.to_nat 500) with 500%nat.
    rewrite take_original_content by lia. reflexivity.
  - intros Hns.
    destruct (InterpretationHistory_create_from_result w user_id task_id result s)
      as [[h|e] s1] eqn:Hrun.
    + exfalso. revert Hrun.
      unfold InterpretationHistory_create_from_result, py_get_none, check_fault, bind,
        lift, tick, get, ret, raise, set_interpretation_history.
      rewrite Hi, Hc, Hi', Hc', Hr. simpl.
      destruct interpretation; simpl; try discriminate.
      * now destruct (Hns s0).
      * destruct (db_fault w (now s)); simpl; discriminate.
    + unfold save_to_history, try_except, bind. rewrite Hrun. simpl.
      exact (create_from_result_raised w user_id task_id result s e s1 Hrun).
Qed.

Lemma X3_history_of_a_result_witness :
  interpretation_history
    (snd (save_to_history plain_world owner job_id sample_result state0))
  = [sample_history] /\
  interpretation_history
    (snd (save_to_history plain_world owner job_id
            (build_result JNull sample_text [] (u "2024-05-01T08:00:00")) state0))
  = [].
Proof.
  destruct (X3_history_of_a_result plain_world owner job_id (JStr NOT_CONFIGURED)
              sample_text [] (u "2024-05-01T08:00:00") state0) as [H1 _].
  destruct (X3_history_of_a_result plain_world owner job_id JNull
              sample_text [] (u "2024-05-01T08:00:00") state0) as [_ H2].
  split.
  - unfold sample_result. rewrite (H1 NOT_CONFIGURED eq_refl eq_refl).
    vm_compute. reflexivity.
  - rewrite H2; [reflexivity | discriminate].
Defined.

(** ** The interpretation client, when the service answers *)

(** The client's answer to a response that arrived with a good status
    and a body that parses, as a function of the body. *)
Lemma call_deepseek_api_answered w content s response body :
  truthy_opt (DEEPSEEK_API_KEY w) = true ->
  let req := deepseek_request (default [] (DEEPSEEK_API_KEY w)) (capped content) in
  requests_post w (now s) req = Ok response ->
  raise_for_status response = Ok tt -> resp_json response = Ok body ->
  call_deepseek_api w content s =
    (match
       res_bind (py_in (u "choices") body) (fun has =>
       res_bind (if has
                 then res_bind (py_item body (u "choices")) (fun choices =>
                      res_bind (py_len choices) (fun n => Ok (0 <? n)%nat))
                 else Ok false) (fun some =>
       if some
       then res_bind (py_item body (u "choices")) (fun choices =>
            res_bind (py_item0 choices) (fun choice =>
            res_bind (py_item choice (u "message")) (fun message =>
            py_item message (u "content"))))
       else Ok (JStr NO_RESULT)))
     with
     | Ok v => Ok v
     | Raise e => Ok (JStr (CALL_FAILED ++ str_exn e))
     end, requested req s).
Proof.
  intros Hkey req Hpost Hst Hjson. unfold call_deepseek_api. rewrite Hkey. simpl.
  unfold try_except, deepseek_exchange, http_post, bind, tick, record_request, lift, ret.
  simpl. fold req. rewrite Hpost, Hst, Hjson.
  destruct (py_in (u "choices") body) as [[]|e]; simpl; [|reflexivity|reflexivity].
  destruct (py_item body (u "choices")) as [choices|e]; simpl; [|reflexivity].
  destruct (py_len choices) as [n|e]; simpl; [|reflexivity].
  destruct (0 <? n)%nat; simpl; [|reflexivity].
  destruct (py_item0 choices) as [choice|e]; simpl; [|reflexivity].
  destruct (py_item choice (u "message")) as [message|e]; simpl; [|reflexivity].
  destruct (py_item message (u "content")) as [v|e]; reflexivity.
Qed.

(** X5.  When the interpretation service answers with a good status and
    a JSON object: the client returns the [content] of the [message] of
    the first of its [choices], whatever that value is (a string, but also
    a null); it returns the fixed "no result" text when the object has no
    [choices] key or an empty list of choices; and when the first choice
    has no [message], or the message no [content], the [KeyError] ends up
    as text in the failure message. *)
Theorem X5_interpretation_of_an_answer w content s response kv :
  truthy_opt (DEEPSEEK_API_KEY w) = true ->
  requests_post w (now s)
    (deepseek_request (default [] (DEEPSEEK_API_KEY w)) (capped content)) = Ok response ->
  raise_for_status response = Ok tt -> resp_json response = Ok (JObj kv) ->
  let answer := fst (call_deepseek_api w content s) in
  (forall choice rest message v,
     assoc (u "choices") kv = Some (JArr (choice :: rest)) ->
     py_item choice (u "message") = Ok message ->
     py_item message (u "content") = Ok v ->
     answer = Ok v) /\
  (assoc (u "choices") kv = None \/ assoc (u "choices") kv = Some (JArr []) ->
   answer = Ok (JStr NO_RESULT)) /\
  (forall ckv rest,
     assoc (u "choices") kv = Some (JArr (JObj ckv :: rest)) ->
     assoc (u "message") ckv = None ->
     answer = Ok (JStr (CALL_FAILED ++ u "'message'"))) /\
  (forall ckv rest mkv,
     assoc (u "choices") kv = Some (JArr (JObj ckv :: rest)) ->
     assoc (u "message") ckv = Some (JObj mkv) ->
     assoc (u "content") mkv = None ->
     answer = Ok (JStr (CALL_FAILED ++ u "'content'"))).
Proof.
  intros Hkey Hpost Hst Hjson answer. subst answer.
  rewrite (call_deepseek_api_answered w content s response (JObj kv) Hkey Hpost Hst Hjson).
  unfold py_in.
  change (py_item (JObj kv) (u "choices")) with
    (match assoc (u "choices") kv with
     | Some x => Ok x
     | None => Raise (KeyError (u "choices"))
     end).
  assert (forall x : json, bool_decide (is_Some (Some x)) = true) as Hsome
    by (intros; apply bool_decide_eq_true_2; eauto).
  assert (bool_decide (is_Some (@None json)) = false) as Hnone
    by (apply bool_decide_eq_false_2; intros [x Hx]; discriminate).
  split; [|split; [|split]].
  - intros choice rest message v Hc Hm Hv. rewrite Hc, Hsome. simpl.
    rewrite Hm. simpl. rewrite Hv. reflexivity.
  - intros [Hc | Hc]; rewrite Hc; [rewrite Hnone | rewrite Hsome]; reflexivity.
  - intros ckv rest Hc Hm. rewrite Hc, Hsome. simpl. rewrite Hm. reflexivity.
  - intros ckv rest mkv Hc Hm Hv. rewrite Hc, Hsome. simpl. rewrite Hm. simpl.
    rewrite Hv. reflexivity.
Qed.

Lemma X5_interpretation_of_an_answer_witness :
  fst (call_deepseek_api (deepseek_world (chat_completion (JStr sample_answer)))
         sample_text state0) = Ok (JStr sample_answer) /\
  fst (call_deepseek_api (deepseek_world (chat_completion JNull)) sample_text state0)
  = Ok JNull /\
  fst (call_deepseek_api (deepseek_world (JObj [(u "error", JStr (u "overloaded"))]))
         sample_text state0) = Ok (JStr NO_RESULT).
Proof.
  split; [|split].
  - destruct (X5_interpretation_of_an_answer
                (deepseek_world (chat_completion (JStr sample_answer))) sample_text state0
                _ _ eq_refl eq_refl eq_refl eq_refl) as (H & _).
    eapply H; [vm_compute; reflexivity | vm_compute; reflexivity | vm_compute; reflexivity].
  - destruct (X5_interpretation_of_an_answer
                (deepseek_world (chat_completion JNull)) sample_text state0
                _ _ eq_refl eq_refl eq_refl eq_refl) as (H & _).
    eapply H; [vm_compute; reflexivity | vm_compute; reflexivity | vm_compute; reflexivity].
  - destruct (X5_interpretation_of_an_answer
                (deepseek_world (JObj [(u "error", JStr (u "overloaded"))])) sample_text
                state0 _ _ eq_refl eq_refl eq_refl eq_refl) as (_ & H & _).
    apply H. left. vm_compute. reflexivity.
Defined.

(** The state in which a configured client leaves the world: the
    request has been handed over, whatever came back. *)
Lemma call_deepseek_api_requested w content s :
  truthy_opt (DEEPSEEK_API_KEY w) = true ->
  snd (call_deepseek_api w content s) =
    requested (deepseek_request (default [] (DEEPSEEK_API_KEY w)) (capped content)) s.
Proof.
  intros Hkey. unfold call_deepseek_api. rewrite Hkey. simpl.
  unfold try_except, deepseek_exchange, http_post, bind, tick, record_request, lift, ret.
  simpl.
  destruct (requests_post w (now s) _) as [response|e]; simpl; [|reflexivity].
  destruct (raise_for_status response) as [[]|e]; simpl; [|reflexivity].
  destruct (resp_json response) as [body|e]; simpl; [|reflexivity].
  destruct (py_in (u "choices") body) as [[]|e]; simpl; [|reflexivity|reflexivity].
  destruct (py_item body (u "choices")) as [choices|e]; simpl; [|reflexivity].
  destruct (py_len choices) as [n|e]; simpl; [|reflexivity].
  destruct (0 <? n)%nat; simpl; [|reflexivity].
  destruct (py_item0 choices) as [choice|e]; simpl; [|reflexivity].
  destruct (py_item choice (u "message")) as [message|e]; simpl; [|reflexivity].
  destruct (py_item message (u "content")) as [v|e]; reflexivity.
Qed.

Lemma capped_spec content :
  (length (capped content) <= 5000 + 13)%nat /\
  ((length content <= 5000)%nat -> capped content = content) /\
  ((5000 < length content)%nat ->
   capped content = take 5000 content ++ TRUNCATION_NOTICE /\
   length (capped content) = (5000 + 13)%nat).
Proof.
  unfold capped. destruct (Nat.ltb_spec 5000 (length content)) as [Hlt|Hle].
  - assert (length (take 5000 content ++ TRUNCATION_NOTICE) = (5000 + 13)%nat) as Hlen.
    { rewrite length_app, length_take. change (length TRUNCATION_NOTICE) with 13%nat. lia. }
    split; [lia|]. split; [lia|]. intros _. split; [reflexivity|exact Hlen].
  - split; [lia|]. split; [reflexivity|]. lia.
Qed.

(** X6.  A configured interpretation client sends exactly one request
    per call, whatever the service does with it, and nothing else changes
    but the clock: one POST to the service's URL with a time-out of 60,
    whose user message is the prompt around the capped content.  The
    capped content is the content itself up to 5000 code points, and
    beyond that its first 5000 code points followed by the 13 code points
    of the truncation notice, so never more than 5013 in all. *)
Theorem X6_one_request_with_capped_content w content s :
  truthy_opt (DEEPSEEK_API_KEY w) = true ->
  let s' := snd (call_deepseek_api w content s) in
  let req := deepseek_request (default [] (DEEPSEEK_API_KEY w)) (capped content) in
  sent s' = sent s ++ [req] /\
  now s' = S (now s) /\
  async_tasks s' = async_tasks s /\ files s' = files s /\ broker s' = broker s /\
  interpretation_history s' = interpretation_history s /\ stdout s' = stdout s /\
  req_method req = "POST"%string /\ req_url req = DEEPSEEK_API_URL /\ req_timeout req = 60%Z /\
  res_bind (py_item (req_data req) (u "messages")) (fun ms =>
    res_bind (py_iter ms) (fun ms =>
      res_map (fun m => py_item m (u "content")) ms))
  = Ok [JStr system_prompt; JStr (user_prompt (capped content))] /\
  (length (capped content) <= 5000 + 13)%nat /\
  ((length content <= 5000)%nat -> capped content = content) /\
  ((5000 < length content)%nat ->
   capped content = take 5000 content ++ TRUNCATION_NOTICE).
Proof.
  intros Hkey s' req. subst s'. rewrite (call_deepseek_api_requested w content s Hkey).
  fold req. repeat (split; [reflexivity|]).
  destruct (capped_spec content) as (H1 & H2 & H3).
  split; [exact H1|]. split; [exact H2|]. intros H. now destruct (H3 H).
Qed.

Lemma X6_one_request_with_capped_content_witness :
  sent (snd (call_deepseek_api timeout_world sample_text state0))
  = [deepseek_request (u "sk-test") sample_text] /\
  sent (snd (call_deepseek_api (deepseek_world (chat_completion (JStr sample_answer)))
               sample_text state0))
  = [deepseek_request (u "sk-test") sample_text].
Proof.
  destruct (X6_one_request_with_capped_content timeout_world sample_text state0 eq_refl)
    as (H1 & _).
  destruct (X6_one_request_with_capped_content
              (deepseek_world (chat_completion (JStr sample_answer))) sample_text state0
              eq_refl) as (H2 & _).
  split; [rewrite H1 | rewrite H2]; vm_compute; reflexivity.
Defined.

(** ** A delivery, step by step *)

Lemma process_paper_body_unfold w task_id user_id file_path text :
  process_paper_body w task_id user_id file_path text =
    (update_task_status w task_id processing None None ;;;
     let* content := extract_content w file_path text in
     after_extraction w task_id user_id content).
Proof. reflexivity. Qed.

(** A delivery is the [processing] write, the extraction, and the rest. *)
Lemma process_paper_task_finish w retries task_id user_id file_path text s :
  let s1 := snd (update_task_status w task_id processing None None s) in
  process_paper_task w retries task_id user_id file_path text s =
    finish w retries task_id user_id file_path text
      (fst (extract_content w file_path text s1))
      (snd (extract_content w file_path text s1)).
Proof.
  intros s1. unfold process_paper_task, finish. rewrite process_paper_body_unfold.
  change (fun e => update_task_status w task_id failed None (Some (str_exn e));;;
                   (if (retries <? max_retries)%nat
                    then self_retry w task_id user_id file_path text retries e
                    else ret None))
    with (handle_failure w retries task_id user_id file_path text).
  unfold try_except. subst s1.
  destruct (update_task_status_effect w task_id processing None None s) as (s1 & E1 & _).
  rewrite E1. simpl. rewrite (bind_Ok _ _ _ _ _ E1).
  unfold bind, lift.
  destruct (extract_content w file_path text s1) as [[content|e] s2]; reflexivity.
Qed.

(** What the rest of a delivery leaves alone: all but the job store, the
    broker, the requests, the output and the clock. *)
Section Rest.
Context {X : Type} (f : State -> X) (R : relation X) `{!PreOrder R}.
Context (w : World).
Hypothesis Htick : steps f R tick.
Hypothesis Hprint : forall line, steps f R (print line).
Hypothesis Hpublish : forall m, steps f R (publish m).
Hypothesis Hrequest : forall r, steps f R (record_request r).

Lemma after_extraction_steps task_id user_id content :
  (forall status result error,
      orchestrator_write status result error ->
      steps f R (update_task_status w task_id status result error)) ->
  steps f R (after_extraction w task_id user_id content).
Proof using Htick Hprint Hpublish Hrequest PreOrder0.
  intros Hupd. unfold after_extraction. destruct (negb _).
  - step_bind; [apply Hupd; constructor | step_ret].
  - step_bind; [apply call_deepseek_api_steps; assumption |].
    step_bind; [apply search_related_papers_steps; assumption |].
    step_bind; [apply Htick |].
    step_bind; [apply Hupd; constructor |].
    step_bind; [apply apply_async_steps; assumption | step_ret].
Qed.

Lemma handle_failure_steps retries task_id user_id file_path text e :
  (forall status result error,
      orchestrator_write status result error ->
      steps f R (update_task_status w task_id status result error)) ->
  steps f R (handle_failure w retries task_id user_id file_path text e).
Proof using Htick Hpublish PreOrder0.
  intros Hupd. unfold handle_failure.
  step_bind; [apply Hupd; constructor |].
  destruct (_ <? _)%nat; [apply self_retry_steps; assumption | step_ret].
Qed.

Lemma finish_steps retries task_id user_id file_path text r :
  (forall status result error,
      orchestrator_write status result error ->
      steps f R (update_task_status w task_id status result error)) ->
  steps f R (finish w retries task_id user_id file_path text r).
Proof using Htick Hprint Hpublish Hrequest PreOrder0.
  intros Hupd. unfold finish. step_try.
  - step_bind; [apply steps_lift; exact _ | now apply after_extraction_steps].
  - now apply handle_failure_steps.
Qed.

(** A delivery steps by [R] as soon as its status writes and its
    extraction do. *)
Lemma process_paper_task_steps_from retries task_id user_id file_path text :
  (forall status result error,
      orchestrator_write status result error ->
      steps f R (update_task_status w task_id status result error)) ->
  steps f R (extract_content w file_path text) ->
  steps f R (process_paper_task w retries task_id user_id file_path text).
Proof using Htick Hprint Hpublish Hrequest PreOrder0.
  intros Hupd Hext s. rewrite process_paper_task_finish.
  etransitivity; [apply (Hupd processing None None); constructor|].
  etransitivity; [apply Hext|]. now apply finish_steps.
Qed.
End Rest.

(** ** What a delivery leaves alone *)

#[local] Instance same_other_files_preorder file_path : PreOrder (same_other_files file_path).
Proof.
  split.
  - intros f other _. reflexivity.
  - intros f1 f2 f3 H12 H23 other Hne. rewrite (H23 other Hne). now apply H12.
Qed.

#[local] Instance same_other_rows_preorder task_id : PreOrder (same_other_rows task_id).
Proof.
  split.
  - intros d Hk. split; [exact Hk | reflexivity].
  - intros d1 d2 d3 H12 H23 Hk. destruct (H12 Hk) as [Hk2 H2].
    destruct (H23 Hk2) as [Hk3 H3]. split; [exact Hk3|].
    intros k Hne. rewrite (H3 k Hne). now apply H2.
Qed.

(** The extraction leaves the files as they are, or removes the one it
    was given. *)
Lemma extract_content_files w file_path text s :
  files (snd (extract_content w file_path text s)) = files s \/
  exists path, file_path = Some path /\
               files (snd (extract_content w file_path text s)) = delete path (files s).
Proof.
  destruct (truthy_opt text) eqn:Ht.
  { left. unfold extract_content. now rewrite Ht. }
  destruct file_path as [path|].
  2:{ left. unfold extract_content, path_present. rewrite Ht. reflexivity. }
  destruct path as [|c path].
  { left. unfold extract_content, path_present. rewrite Ht. reflexivity. }
  destruct (files s !! (c :: path)) as [n|] eqn:Hn.
  - rewrite (extract_content_file w (c :: path) text s n Ht ltac:(discriminate) Hn).
    simpl. unfold after_cleanup. destruct (node_remove n); [now left|].
    right. exists (c :: path). split; reflexivity.
  - left. rewrite (extract_content_nothing w (Some (c :: path)) text s Ht); [reflexivity|].
    right. exists (c :: path). split; [reflexivity | exact Hn].
Qed.

Lemma extract_content_other_files w file_path text :
  steps files (same_other_files file_path) (extract_content w file_path text).
Proof.
  intros s other Hne.
  destruct (extract_content_files w file_path text s) as [-> | (path & -> & ->)];
    [reflexivity|].
  apply lookup_delete_ne. congruence.
Qed.

Lemma write_same_other_rows d task_id j status t result error :
  d !! task_id = Some j ->
  same_other_rows task_id d
    (<[AsyncTask.task_id j := assign j status t result error]> d).
Proof.
  intros Hj Hk. pose proof (Hk _ _ Hj) as Hid. rewrite Hid. split.
  - intros k j'. rewrite lookup_insert. case_decide.
    + intros [= <-]. subst k. exact Hid.
    + apply Hk.
  - intros k Hne. now apply lookup_insert_ne.
Qed.

(** X9.  Whatever the world does, a delivery of the job, and the whole
    job with its retries, never writes the history table (only the
    separate history task does), never touches a file other than the one
    it was given, and in a keyed store never touches the row of another
    job. *)
Theorem X9_delivery_touches_only_its_own w task_id user_id file_path text :
  (forall retries s,
     let s' := snd (process_paper_task w retries task_id user_id file_path text s) in
     interpretation_history s' = interpretation_history s /\
     same_other_files file_path (files s) (files s') /\
     same_other_rows task_id (async_tasks s) (async_tasks s')) /\
  (forall fuel retries s r s' n,
     run_job w fuel retries task_id user_id file_path text s = Some (r, s', n) ->
     interpretation_history s' = interpretation_history s /\
     same_other_files file_path (files s) (files s') /\
     same_other_rows task_id (async_tasks s) (async_tasks s')).
Proof.
  assert (forall retries,
            steps interpretation_history eq
              (process_paper_task w retries task_id user_id file_path text)) as H1.
  { intros retries. apply process_paper_task_steps; try exact _; try prim.
    intros. apply update_task_status_steps; try exact _; prim. }
  assert (forall retries,
            steps files (same_other_files file_path)
              (process_paper_task w retries task_id user_id file_path text)) as H2.
  { intros retries. apply process_paper_task_steps_from; try exact _;
      try (intros; apply steps_eq; [exact _ | prim]).
    - intros. apply steps_eq; [exact _|].
      apply update_task_status_steps; try exact _; prim.
    - apply extract_content_other_files. }
  assert (forall retries,
            steps async_tasks (same_other_rows task_id)
              (process_paper_task w retries task_id user_id file_path text)) as H3.
  { intros retries. apply process_paper_task_store; [exact _|].
    intros. now apply write_same_other_rows. }
  split.
  - intros retries s s'. subst s'. split; [symmetry; apply H1|].
    split; [apply H2 | apply H3].
  - intros fuel retries s r s' n Hrun. split; [|split].
    + symmetry.
      exact (run_job_steps interpretation_history eq w task_id user_id file_path text H1
               fuel retries s r s' n Hrun).
    + exact (run_job_steps files (same_other_files file_path) w task_id user_id file_path
               text H2 fuel retries s r s' n Hrun).
    + exact (run_job_steps async_tasks (same_other_rows task_id) w task_id user_id
               file_path text H3 fuel retries s r s' n Hrun).
Qed.

(** ** The outcome of a delivery and the status stored *)

Lemma present_same task_id s s' :
  async_tasks s' = async_tasks s -> present task_id s -> present task_id s'.
Proof. intros H (j & Hj & Hid). exists j. now rewrite H. Qed.

Lemma outcome_recorded_same task_id r s s' :
  async_tasks s' = async_tasks s ->
  outcome_recorded task_id r s -> outcome_recorded task_id r s'.
Proof. intros H (j & Hj & Hrest). exists j. now rewrite H. Qed.

Lemma outcome_recorded_present task_id r s :
  outcome_recorded task_id r s -> present task_id s.
Proof. intros (j & Hj & Hid & _). now exists j. Qed.

(** The row after a status write, the database being up. *)
Lemma update_task_status_present w task_id status result error s :
  db_healthy w -> present task_id s ->
  exists j,
    async_tasks s !! task_id = Some j /\
    async_tasks (snd (update_task_status w task_id status result error s)) !! task_id
    = Some (assign j status (utcnow w (S (now s))) result error) /\
    AsyncTask.task_id j = task_id.
Proof.
  intros Hdb (j & Hj & Hid). exists j. split; [exact Hj|]. split; [|exact Hid].
  now apply update_task_status_row.
Qed.

Lemma write_failed_recorded w task_id error s r :
  db_healthy w -> present task_id s ->
  (forall result, r <> Ok (Some result)) ->
  outcome_recorded task_id r
    (snd (update_task_status w task_id failed None (Some error) s)).
Proof.
  intros Hdb Hp Hr.
  destruct (update_task_status_present w task_id failed None (Some error) s Hdb Hp)
    as (j & _ & Hrow & Hid).
  eexists. split; [exact Hrow|]. split; [exact Hid|].
  destruct r as [[result|]|e]; [now destruct (Hr result) | |]; simpl; eauto.
Qed.

Lemma write_completed_recorded w task_id result s :
  db_healthy w -> present task_id s ->
  outcome_recorded task_id (Ok (Some result))
    (snd (update_task_status w task_id completed (Some result) None s)).
Proof.
  intros Hdb Hp.
  destruct (update_task_status_present w task_id completed (Some result) None s Hdb Hp)
    as (j & _ & Hrow & Hid).
  eexists. split; [exact Hrow|]. split; [exact Hid|]. simpl. eauto.
Qed.

Lemma update_task_status_keeps_present w task_id status result error s :
  present task_id s ->
  present task_id (snd (update_task_status w task_id status result error s)).
Proof.
  intros (j & Hj & Hid).
  destruct (update_task_status_effect w task_id status result error s)
    as (s' & Hrun & Hdb). rewrite Hrun. simpl. unfold present.
  destruct Hdb as [-> | (j' & Hj' & ->)]; [now exists j|].
  assert (j' = j) as -> by congruence.
  eexists. rewrite Hid. split; [apply lookup_insert_eq | exact Hid].
Qed.

(** The [except] branch leaves the job [failed]. *)
Lemma handle_failure_recorded w retries task_id user_id file_path text e s :
  db_healthy w -> present task_id s ->
  let rs := handle_failure w retries task_id user_id file_path text e s in
  outcome_recorded task_id (fst rs) (snd rs) /\
  forall result, fst rs <> Ok (Some result).
Proof.
  intros Hdb Hp. unfold handle_failure.
  destruct (update_task_status_effect w task_id failed None (Some (str_exn e)) s)
    as (s1 & E1 & _).
  rewrite (bind_Ok _ _ _ _ _ E1).
  assert (forall r, (forall result, r <> Ok (Some result)) ->
            outcome_recorded task_id r s1) as Hrec.
  { intros r Hr.
    pose proof (write_failed_recorded w task_id (str_exn e) s r Hdb Hp Hr) as H.
    now rewrite E1 in H. }
  destruct (retries <? max_retries)%nat; simpl.
  - assert (async_tasks (snd (self_retry w task_id user_id file_path text retries e s1))
            = async_tasks s1) as Hfr.
    { symmetry. apply (self_retry_steps async_tasks eq w); prim. }
    assert (forall result,
              fst (self_retry w task_id user_id file_path text retries e s1)
              <> Ok (Some result)) as Hne.
    { intros result. unfold self_retry, bind, try_except, raise.
      destruct (apply_async w _ s1) as [[[]|e0] s2]; simpl; discriminate. }
    split; [|exact Hne].
    apply (outcome_recorded_same task_id _ s1 _ Hfr). now apply Hrec.
  - split; [apply Hrec|]; discriminate.
Qed.

(** The rest of the [try]: a returned value is recorded; an exception
    leaves the row in place for the [except] branch. *)
Lemma after_extraction_recorded w task_id user_id content s :
  db_healthy w -> present task_id s ->
  let rs := after_extraction w task_id user_id content s in
  present task_id (snd rs) /\
  forall a, fst rs = Ok a -> outcome_recorded task_id (Ok a) (snd rs).
Proof.
  intros Hdb Hp. unfold after_extraction. destruct (negb (nonempty content)).
  - destruct (update_task_status_effect w task_id failed None (Some EXTRACT_FAILED) s)
      as (s1 & E1 & _).
    rewrite (bind_Ok _ _ _ _ _ E1). simpl.
    pose proof (write_failed_recorded w task_id EXTRACT_FAILED s (Ok None) Hdb Hp
                  ltac:(discriminate)) as H. rewrite E1 in H. simpl in H.
    split; [now apply outcome_recorded_present in H|]. now intros a [= <-].
  - destruct (call_deepseek_api_never_raises w content s) as (interp & s1 & E1).
    rewrite (bind_Ok _ _ _ _ _ E1).
    assert (present task_id s1) as Hp1.
    { apply (present_same task_id s); [|exact Hp].
      pose proof (call_deepseek_api_steps async_tasks eq w ltac:(prim) ltac:(prim)
                    content s) as H. rewrite E1 in H. now symmetry. }
    destruct (search_related_papers w content s1) as [[papers|e] s2] eqn:E2.
    2:{ rewrite (bind_Raise _ _ _ _ _ E2). simpl. split; [|discriminate].
        apply (present_same task_id s1); [|exact Hp1].
        pose proof (search_related_papers_steps async_tasks eq w ltac:(prim) ltac:(prim)
                      ltac:(prim) ltac:(prim) content s1) as H.
        rewrite E2 in H. now symmetry. }
    rewrite (bind_Ok _ _ _ _ _ E2).
    assert (present task_id s2) as Hp2.
    { apply (present_same task_id s1); [|exact Hp1].
      pose proof (search_related_papers_steps async_tasks eq w ltac:(prim) ltac:(prim)
                    ltac:(prim) ltac:(prim) content s1) as H.
      rewrite E2 in H. now symmetry. }
    rewrite (bind_Ok tick _ s2 (now s2) (snd (tick s2)) eq_refl).
    set (result := build_result interp content papers (isoformat w (utcnow w (now s2)))).
    set (s3 := snd (tick s2)).
    assert (present task_id s3) as Hp3 by exact Hp2.
    destruct (update_task_status_effect w task_id completed (Some result) None s3)
      as (s4 & E4 & _).
    rewrite (bind_Ok _ _ _ _ _ E4).
    pose proof (write_completed_recorded w task_id result s3 Hdb Hp3) as H4.
    rewrite E4 in H4. simpl in H4.
    assert (async_tasks
              (snd (apply_async w (Msg_save_to_history user_id task_id result) s4))
            = async_tasks s4) as Hfr.
    { symmetry. apply (apply_async_steps async_tasks eq w); prim. }
    destruct (apply_async w (Msg_save_to_history user_id task_id result) s4)
      as [[[]|e] s5] eqn:E5; simpl in Hfr.
    + rewrite (bind_Ok _ _ _ _ _ E5). simpl.
      split.
      * apply (present_same task_id s4 s5 Hfr). now apply outcome_recorded_present in H4.
      * intros a [= <-]. now apply (outcome_recorded_same task_id _ s4 s5 Hfr).
    + rewrite (bind_Raise _ _ _ _ _ E5). simpl. split; [|discriminate].
      apply (present_same task_id s4 s5 Hfr). now apply outcome_recorded_present in H4.
Qed.

Lemma finish_recorded w retries task_id user_id file_path text r s :
  db_healthy w -> present task_id s ->
  let rs := finish w retries task_id user_id file_path text r s in
  outcome_recorded task_id (fst rs) (snd rs).
Proof.
  intros Hdb Hp. unfold finish, try_except, bind, lift.
  destruct r as [content|e].
  - destruct (after_extraction_recorded w task_id user_id content s Hdb Hp) as [Hp' Hok].
    destruct (after_extraction w task_id user_id content s) as [[a|e] s1]; simpl in *.
    + now apply Hok.
    + now apply handle_failure_recorded.
  - now apply handle_failure_recorded.
Qed.

Lemma process_paper_task_recorded w retries task_id user_id file_path text s :
  db_healthy w -> present task_id s ->
  let rs := process_paper_task w retries task_id user_id file_path text s in
  outcome_recorded task_id (fst rs) (snd rs).
Proof.
  intros Hdb Hp. rewrite process_paper_task_finish.
  apply finish_recorded; [exact Hdb|].
  apply (present_same task_id
           (snd (update_task_status w task_id processing None None s))).
  - symmetry. apply (extract_content_steps async_tasks eq w); prim.
  - now apply update_task_status_keeps_present.
Qed.

(** X8.  With the database up and the job's row in the store, the status
    stored always tells the outcome, after each delivery and at the end of
    the job: when a result is returned the row is [completed] and holds
    that very result; when [None] is returned or anything is raised (a
    retry included) the row is [failed] and holds an error.  So no
    delivery leaves the job [pending] or [processing]. *)
Theorem X8_status_tells_the_outcome w task_id user_id file_path text :
  db_healthy w ->
  (forall retries s, present task_id s ->
     let rs := process_paper_task w retries task_id user_id file_path text s in
     outcome_recorded task_id (fst rs) (snd rs) /\ settled task_id (snd rs)) /\
  (forall fuel retries s r s' n, present task_id s ->
     run_job w fuel retries task_id user_id file_path text s = Some (r, s', n) ->
     outcome_recorded task_id r s' /\ settled task_id s').
Proof.
  intros Hdb.
  assert (forall r s, outcome_recorded task_id r s -> settled task_id s) as Hset.
  { intros r s (j & Hj & Hid & H). exists j. split; [exact Hj|]. split; [exact Hid|].
    destruct r as [[result|]|e]; destruct H as [H _]; rewrite H;
      [now left | now right | now right]. }
  split.
  - intros retries s Hp rs.
    pose proof (process_paper_task_recorded w retries task_id user_id file_path text s
                  Hdb Hp) as H.
    split; [exact H | exact (Hset _ _ H)].
  - intros fuel. induction fuel as [|fuel IH]; intros retries s r s' n Hp; simpl;
      [discriminate|].
    pose proof (process_paper_task_recorded w retries task_id user_id file_path text s
                  Hdb Hp) as H. simpl in H.
    destruct (process_paper_task w retries task_id user_id file_path text s)
      as [[a|[cls msg|exc cd]] s1]; simpl in H.
    + intros [= <- <- <-]. split; [exact H | exact (Hset _ _ H)].
    + intros [= <- <- <-]. split; [exact H | exact (Hset _ _ H)].
    + intros Hrun. apply (IH (S retries) s1 r s' n); [|exact Hrun].
      now apply outcome_recorded_present in H.
Qed.

(** ** A delivery that completes *)

Lemma search_related_papers_bounded w content s :
  broker_fault w (now s) = None ->
  exists papers s',
    search_related_papers w content s = (Ok papers, s') /\ (length papers <= 3)%nat.
Proof.
  intros Hb. destruct (truthy_opt (SPRINGER_API_KEY w)) eqn:Hkey.
  - destruct content as [|c rest].
    + exists [], s. split; [|simpl; lia]. unfold search_related_papers.
      now rewrite orb_true_r.
    + destruct (search_related_papers_dispatched w (c :: rest) s Hkey ltac:(discriminate) Hb)
        as (papers & s' & Hrun & Hlen & _).
      now exists papers, s'.
  - exists [], s. split; [|simpl; lia]. unfold search_related_papers. now rewrite Hkey.
Qed.

(** With the broker up, the rest of the [try] on non-empty content runs
    to its end. *)
Lemma after_extraction_completes w task_id user_id content s :
  broker_healthy w -> content <> [] ->
  exists interpretation papers t s',
    after_extraction w task_id user_id content s =
      (Ok (Some (build_result interpretation content papers (isoformat w (utcnow w t)))),
       s') /\
    fst (call_deepseek_api w content s) = Ok interpretation /\
    (length papers <= 3)%nat /\
    last (broker s') =
      Some (Msg_save_to_history user_id task_id
              (build_result interpretation content papers (isoformat w (utcnow w t)))).
Proof.
  intros Hbr Hc. unfold after_extraction.
  destruct content as [|c content]; [congruence|].
  change (negb (nonempty (c :: content))) with false. cbv iota.
  set (text := c :: content).
  destruct (call_deepseek_api_never_raises w text s) as (interp & s1 & E1).
  destruct (search_related_papers_bounded w text s1 (Hbr _)) as (papers & s2 & E2 & Hlen).
  set (result := build_result interp text papers (isoformat w (utcnow w (now s2)))).
  destruct (update_task_status_effect w task_id completed (Some result) None
              (snd (tick s2))) as (s4 & E4 & _).
  pose proof (apply_async_accepted w (Msg_save_to_history user_id task_id result) s4 (Hbr _))
    as E5.
  exists interp, papers, (now s2). eexists. split; [|split; [|split]].
  - rewrite (bind_Ok _ _ _ _ _ E1). rewrite (bind_Ok _ _ _ _ _ E2).
    rewrite (bind_Ok tick _ s2 (now s2) (snd (tick s2)) eq_refl). fold result.
    rewrite (bind_Ok _ _ _ _ _ E4). rewrite (bind_Ok _ _ _ _ _ E5). reflexivity.
  - now rewrite E1.
  - exact Hlen.
  - simpl. apply last_snoc.
Qed.

(** X7.  With the database and the broker up and the job's row in the
    store, a delivery whose extraction gives non-empty content completes
    the job, whatever the two services do and whatever the number of
    retries behind it: it returns the result, the row is [completed] with
    that result, the last message on the broker is the history task for
    that result, and the worker stops.  The result holds whatever the
    interpretation client returned for the content, at most 3
    recommendations, the length of the content, and the content itself up
    to 2000 code points, its first 2000 followed by the marker beyond. *)
Theorem X7_delivery_completes w retries task_id user_id file_path text s content s2 :
  db_healthy w -> broker_healthy w -> present task_id s ->
  extract_content w file_path text
    (snd (update_task_status w task_id processing None None s)) = (Ok content, s2) ->
  content <> [] ->
  exists interpretation papers t s',
    let result := build_result interpretation content papers (isoformat w (utcnow w t)) in
    process_paper_task w retries task_id user_id file_path text s = (Ok (Some result), s') /\
    (forall fuel, run_job w (S fuel) retries task_id user_id file_path text s
                  = Some (Ok (Some result), s', retries)) /\
    fst (call_deepseek_api w content s2) = Ok interpretation /\
    (length papers <= 3)%nat /\
    py_item result (u "original_content") = Ok (JStr (original_content_of content)) /\
    py_item result (u "content_length") = Ok (JNum (Z.of_nat (length content))) /\
    py_item result (u "recommendations") = Ok (JArr papers) /\
    last (broker s') = Some (Msg_save_to_history user_id task_id result) /\
    outcome_recorded task_id (Ok (Some result)) s'.
Proof.
  intros Hdb Hbr Hp Hext Hc.
  destruct (after_extraction_completes w task_id user_id content s2 Hbr Hc)
    as (interp & papers & t & s' & Hrun & Hint & Hlen & Hlast).
  exists interp, papers, t, s'. intros result.
  assert (process_paper_task w retries task_id user_id file_path text s
          = (Ok (Some result), s')) as Hdel.
  { rewrite process_paper_task_finish. rewrite Hext. simpl. unfold finish.
    apply try_except_Ok. unfold bind, lift. exact Hrun. }
  split; [exact Hdel|].
  split; [intros fuel; simpl; now rewrite Hdel|].
  split; [exact Hint|]. split; [exact Hlen|].
  destruct (build_result_fields interp content papers (isoformat w (utcnow w t)))
    as (_ & H1 & H2 & _ & H3).
  split; [exact H1|]. split; [exact H3|]. split; [exact H2|]. split; [exact Hlast|].
  pose proof (process_paper_task_recorded w retries task_id user_id file_path text s
                Hdb Hp) as H. simpl in H. now rewrite Hdel in H.
Qed.

Lemma X7_delivery_completes_witness :
  exists interpretation papers t s',
    process_paper_task (deepseek_world (chat_completion (JStr sample_answer))) 0
      job_id owner None (Some sample_text) state0
    = (Ok (Some (build_result interpretation sample_text papers (str_of_Z (Z.of_nat t)))),
       s') /\
    interpretation = JStr sample_answer /\ (length papers <= 3)%nat.
Proof.
  assert (db_healthy (deepseek_world (chat_completion (JStr sample_answer)))) as Hdb
    by (intros t; reflexivity).
  assert (broker_healthy (deepseek_world (chat_completion (JStr sample_answer)))) as Hbr
    by (intros t; reflexivity).
  assert (present job_id state0) as Hp by (exists fresh_job; split; reflexivity).
  destruct (X7_delivery_completes (deepseek_world (chat_completion (JStr sample_answer)))
              0 job_id owner None (Some sample_text) state0 sample_text _
              Hdb Hbr Hp ltac:(vm_compute; reflexivity) ltac:(discriminate))
    as (interp & papers & t & s' & Hrun & _ & Hint & Hlen & _).
  exists interp, papers, t, s'. split; [exact Hrun|]. split; [|exact Hlen].
  vm_compute in Hint. injection Hint as <-. vm_compute. reflexivity.
Defined.

(** ** Retries and the uploaded file *)

Lemma finish_keeps_files w retries task_id user_id file_path text r s :
  files (snd (finish w retries task_id user_id file_path text r s)) = files s.
Proof.
  symmetry. apply (finish_steps files eq w); try prim.
  intros. apply update_task_status_steps; try exact _; prim.
Qed.

(** After a delivery that was given a file it could remove, the file is
    gone. *)
Lemma delivery_removes_file w retries task_id user_id path text s n :
  truthy_opt text = false -> path <> [] ->
  files s !! path = Some n -> node_remove n = None ->
  files (snd (process_paper_task w retries task_id user_id (Some path) text s)) !! path
  = None.
Proof.
  intros Ht Hp Hn Hrm. rewrite process_paper_task_finish. rewrite finish_keeps_files.
  set (s1 := snd (update_task_status w task_id processing None None s)).
  assert (files s1 !! path = Some n) as Hn1.
  { destruct (update_task_status_frame w task_id processing None None s) as (Hf & _).
    fold s1 in Hf. now rewrite Hf. }
  rewrite (extract_content_file w path text s1 n Ht Hp Hn1). simpl.
  unfold after_cleanup. rewrite Hrm. simpl. apply lookup_delete_eq.
Qed.

(** A delivery that finds no file and has no text returns [None]. *)
Lemma delivery_without_file w retries task_id user_id path text s :
  truthy_opt text = false -> files s !! path = None ->
  process_paper_task w retries task_id user_id (Some path) text s =
    (Ok None,
     snd (update_task_status w task_id failed None (Some EXTRACT_FAILED)
            (snd (update_task_status w task_id processing None None s)))).
Proof.
  intros Ht Hn. apply process_paper_task_empty.
  apply extract_content_nothing; [exact Ht|]. right. exists path. split; [reflexivity|].
  destruct (update_task_status_frame w task_id processing None None s) as (Hf & _).
  now rewrite Hf.
Qed.

(** X10.  A job that is given a file and no inline text can be
    delivered usefully only once.  If the file exists and can be removed,
    it is gone after the first delivery, however that delivery ends; any
    delivery that finds it gone returns [None] without asking for a
    retry.  So such a job is retried at most once, and when it is, it
    ends with [None], and (the database being up) [failed] with the fixed
    "could not extract" message in place of the error that caused the
    retry. *)
Theorem X10_retry_finds_the_file_gone w task_id user_id path text s n :
  truthy_opt text = false -> path <> [] ->
  files s !! path = Some n -> node_remove n = None ->
  (forall retries,
     files (snd (process_paper_task w retries task_id user_id (Some path) text s)) !! path
     = None) /\
  (forall retries s1, files s1 !! path = None ->
     fst (process_paper_task w retries task_id user_id (Some path) text s1) = Ok None) /\
  (forall fuel r s' k,
     run_job w fuel 0 task_id user_id (Some path) text s = Some (r, s', k) ->
     (k <= 1)%nat /\
     (k = 1%nat ->
      r = Ok None /\
      (db_healthy w -> present task_id s ->
       exists j, async_tasks s' !! task_id = Some j /\
                 AsyncTask.status j = failed /\
                 AsyncTask.error j = Some EXTRACT_FAILED))).
Proof.
  intros Ht Hp Hn Hrm. split; [|split].
  - intros retries. now apply (delivery_removes_file w retries task_id user_id path text s n).
  - intros retries s1 Hgone. now rewrite (delivery_without_file w retries _ _ _ _ _ Ht Hgone).
  - intros [|fuel] r s' k; simpl; [discriminate|].
    pose proof (delivery_removes_file w 0 task_id user_id path text s n Ht Hp Hn Hrm)
      as Hgone.
    pose proof (fun Hdb Hpr =>
                  process_paper_task_recorded w 0 task_id user_id (Some path) text s Hdb Hpr)
      as Hrec.
    destruct (process_paper_task w 0 task_id user_id (Some path) text s)
      as [[a|[cls msg|exc cd]] s1]; simpl in Hgone, Hrec.
    + intros [= <- <- <-]. split; [lia|]. discriminate.
    + intros [= <- <- <-]. split; [lia|]. discriminate.
    + destruct fuel as [|fuel]; simpl; [discriminate|].
      rewrite (delivery_without_file w 1 _ _ _ _ _ Ht Hgone).
      intros [= <- <- <-]. split; [lia|]. intros _. split; [reflexivity|].
      intros Hdb Hpr.
      assert (present task_id s1) as Hp1
        by (eapply outcome_recorded_present; apply (Hrec Hdb Hpr)).
      assert (present task_id (snd (update_task_status w task_id processing None None s1)))
        as Hp2 by now apply update_task_status_keeps_present.
      destruct (update_task_status_present w task_id failed None (Some EXTRACT_FAILED) _
                  Hdb Hp2) as (j & _ & Hrow & _).
      eexists. split; [exact Hrow|]. split; reflexivity.
Qed.

(** One delivery of a job whose file can neither be read nor removed. *)
Lemma delivery_unreadable w retries task_id user_id path text s n e :
  db_healthy w -> broker_healthy w -> present task_id s ->
  truthy_opt text = false -> path <> [] ->
  files s !! path = Some n -> node_read n = Raise e -> node_remove n <> None ->
  exists s',
    process_paper_task w retries task_id user_id (Some path) text s =
      (if (retries <? max_retries)%nat
       then Raise (Retry e default_retry_delay) else Ok None, s') /\
    files s' = files s /\
    broker s' =
      broker s ++
      (if (retries <? max_retries)%nat
       then [Msg_process_paper_task task_id user_id (Some path) text (S retries)
               default_retry_delay]
       else []) /\
    exists j, async_tasks s' !! task_id = Some j /\ AsyncTask.task_id j = task_id /\
              AsyncTask.status j = failed /\ AsyncTask.error j = Some (str_exn e).
Proof.
  intros Hdb Hbr Hpr Ht Hp Hn Hread Hrm.
  rewrite process_paper_task_finish.
  set (s1 := snd (update_task_status w task_id processing None None s)).
  destruct (update_task_status_frame w task_id processing None None s)
    as (Hf1 & Hb1 & _). fold s1 in Hf1, Hb1.
  assert (present task_id s1) as Hp1 by now apply update_task_status_keeps_present.
  assert (files s1 !! path = Some n) as Hn1 by now rewrite Hf1.
  rewrite (extract_content_file w path text s1 n Ht Hp Hn1). simpl.
  unfold extraction_of, after_cleanup. rewrite Hread.
  destruct (node_remove n) as [e'|]; [|congruence].
  unfold finish, try_except, bind, lift. cbv beta iota. unfold handle_failure, bind.
  set (s2 := snd (update_task_status w task_id failed None (Some (str_exn e)) s1)).
  destruct (update_task_status_effect w task_id failed None (Some (str_exn e)) s1)
    as (s2' & E2 & _).
  assert (s2' = s2) as -> by (subst s2; now rewrite E2).
  rewrite E2.
  destruct (update_task_status_frame w task_id failed None (Some (str_exn e)) s1)
    as (Hf2 & Hb2 & _). fold s2 in Hf2, Hb2.
  destruct (update_task_status_present w task_id failed None (Some (str_exn e)) s1 Hdb Hp1)
    as (j & _ & Hrow & Hid). fold s2 in Hrow.
  destruct (retries <? max_retries)%nat.
  - rewrite (self_retry_accepted w task_id user_id (Some path) text retries e s2 (Hbr _)).
    eexists. split; [reflexivity|]. simpl. split; [congruence|].
    split; [congruence|]. eexists. split; [exact Hrow|]. repeat split. exact Hid.
  - eexists. split; [reflexivity|]. simpl. split; [congruence|].
    split; [rewrite app_nil_r; congruence|].
    eexists. split; [exact Hrow|]. repeat split. exact Hid.
Qed.

(** X11.  A job whose file can neither be read nor removed (a directory,
    say), with no inline text and the database and broker up, uses up its
    retries: it is delivered four times, the three retry messages are
    published with retries 1, 2, 3 and a delay of 30, the last delivery
    returns [None], and the job ends [failed] with the text of the read
    error.  The file is still there. *)
Theorem X11_unreadable_file_exhausts_retries w task_id user_id path text s n e :
  db_healthy w -> broker_healthy w -> present task_id s ->
  truthy_opt text = false -> path <> [] ->
  files s !! path = Some n -> node_read n = Raise e -> node_remove n <> None ->
  exists s',
    run_job w 4 0 task_id user_id (Some path) text s = Some (Ok None, s', 3%nat) /\
    files s' = files s /\
    broker s' =
      broker s ++
      [Msg_process_paper_task task_id user_id (Some path) text 1 30;
       Msg_process_paper_task task_id user_id (Some path) text 2 30;
       Msg_process_paper_task task_id user_id (Some path) text 3 30] /\
    exists j, async_tasks s' !! task_id = Some j /\
              AsyncTask.status j = failed /\ AsyncTask.error j = Some (str_exn e).
Proof.
  intros Hdb Hbr Hpr Ht Hp Hn Hread Hrm.
  destruct (delivery_unreadable w 0 task_id user_id path text s n e
              Hdb Hbr Hpr Ht Hp Hn Hread Hrm)
    as (s1 & R1 & F1 & B1 & j1 & J1 & I1 & _).
  assert (present task_id s1) as P1 by (exists j1; now split).
  destruct (delivery_unreadable w 1 task_id user_id path text s1 n e
              Hdb Hbr P1 Ht Hp ltac:(now rewrite F1) Hread Hrm)
    as (s2 & R2 & F2 & B2 & j2 & J2 & I2 & _).
  assert (present task_id s2) as P2 by (exists j2; now split).
  destruct (delivery_unreadable w 2 task_id user_id path text s2 n e
              Hdb Hbr P2 Ht Hp ltac:(now rewrite F2, F1) Hread Hrm)
    as (s3 & R3 & F3 & B3 & j3 & J3 & I3 & _).
  assert (present task_id s3) as P3 by (exists j3; now split).
  destruct (delivery_unreadable w 3 task_id user_id path text s3 n e
              Hdb Hbr P3 Ht Hp ltac:(now rewrite F3, F2, F1) Hread Hrm)
    as (s4 & R4 & F4 & B4 & j4 & J4 & _ & S4 & E4).
  exists s4. split; [|split; [|split]].
  - simpl. rewrite R1. simpl. rewrite R2. simpl. rewrite R3. simpl. rewrite R4.
    reflexivity.
  - congruence.
  - rewrite B4, B3, B2, B1. simpl. rewrite app_nil_r, <- !app_assoc. reflexivity.
  - exists j4. split; [exact J4|]. split; assumption.
Qed.

Lemma X11_unreadable_file_exhausts_retries_witness :
  exists s',
    run_job plain_world 4 0 job_id owner (Some upload) None
      (state_with {[ upload := directory ]}) = Some (Ok None, s', 3%nat) /\
    files s' = {[ upload := directory ]} /\
    exists j, async_tasks s' !! job_id = Some j /\
              AsyncTask.status j = failed /\
              AsyncTask.error j = Some (u "[Errno 21] Is a directory").
Proof.
  assert (present job_id (state_with {[ upload := directory ]})) as Hp
    by (exists fresh_job; split; reflexivity).
  destruct (X11_unreadable_file_exhausts_retries plain_world job_id owner upload None
              (state_with {[ upload := directory ]}) directory
              (PyErr "IsADirectoryError" (u "[Errno 21] Is a directory"))
              (proj1 plain_world_healthy) (proj2 plain_world_healthy) Hp eq_refl
              ltac:(discriminate) ltac:(vm_compute; reflexivity) eq_refl
              ltac:(discriminate))
    as (s' & Hrun & Hf & _ & Hj).
  exists s'. split; [exact Hrun|]. split; [exact Hf | exact Hj].
Defined.

(** ** The same on runs *)

Lemma uploaded_present : present job_id uploaded.
Proof. exists fresh_job. split; reflexivity. Qed.

Lemma flaky_broker_world_db : db_healthy flaky_broker_world.
Proof. intros t. reflexivity. Qed.

Lemma X8_status_tells_the_outcome_witness :
  exists result s',
    run_job flaky_broker_world 4 0 job_id owner None (Some sample_text) state0
    = Some (Ok (Some result), s', 1%nat) /\
    outcome_recorded job_id (Ok (Some result)) s' /\ settled job_id s'.
Proof.
  destruct (X8_status_tells_the_outcome flaky_broker_world job_id owner None
              (Some sample_text) flaky_broker_world_db) as [_ H].
  assert (exists result s',
            run_job flaky_broker_world 4 0 job_id owner None (Some sample_text) state0
            = Some (Ok (Some result), s', 1%nat)) as (result & s' & Hrun)
    by (eexists _, _; vm_compute; reflexivity).
  exists result, s'. split; [exact Hrun|].
  apply (H 4%nat 0%nat state0 _ _ _ ltac:(exists fresh_job; split; reflexivity) Hrun).
Defined.

Lemma X9_delivery_touches_only_its_own_witness :
  exists r s',
    run_job flaky_broker_world 4 0 job_id owner (Some upload) None uploaded
    = Some (r, s', 1%nat) /\
    interpretation_history s' = [] /\
    same_other_files (Some upload) (files uploaded) (files s') /\
    same_other_rows job_id (async_tasks uploaded) (async_tasks s').
Proof.
  destruct (X9_delivery_touches_only_its_own flaky_broker_world job_id owner (Some upload)
              None) as [_ H].
  assert (exists r s',
            run_job flaky_broker_world 4 0 job_id owner (Some upload) None uploaded
            = Some (r, s', 1%nat)) as (r & s' & Hrun)
    by (eexists _, _; vm_compute; reflexivity).
  exists r, s'. split; [exact Hrun|].
  apply (H 4%nat 0%nat uploaded r s' 1%nat Hrun).
Defined.

Lemma X10_retry_finds_the_file_gone_witness :
  exists s' j,
    run_job flaky_broker_world 4 0 job_id owner (Some upload) None uploaded
    = Some (Ok None, s', 1%nat) /\
    files s' !! upload = None /\
    async_tasks s' !! job_id = Some j /\
    AsyncTask.status j = failed /\ AsyncTask.error j = Some EXTRACT_FAILED.
Proof.
  destruct (X10_retry_finds_the_file_gone flaky_broker_world job_id owner upload None
              uploaded (regular_file paper_bytes) eq_refl ltac:(discriminate)
              ltac:(vm_compute; reflexivity) eq_refl) as (_ & _ & H).
  assert (exists r s',
            run_job flaky_broker_world 4 0 job_id owner (Some upload) None uploaded
            = Some (r, s', 1%nat)) as (r & s' & Hrun)
    by (eexists _, _; vm_compute; reflexivity).
  destruct (H 4%nat r s' 1%nat Hrun) as [_ H1].
  destruct (H1 eq_refl) as [-> Hjob].
  destruct (Hjob flaky_broker_world_db uploaded_present) as (j & Hj & Hst & He).
  exists s', j. split; [exact Hrun|]. split; [|repeat split; assumption].
  assert (files s' !! upload = None) as Hgone.
  { revert Hrun. vm_compute. intros [= <-]. reflexivity. }
  exact Hgone.
Defined.

(** ** The PDF and DOCX attempts *)

Lemma pdf_pages_all_ok k texts content :
  pdf_pages k (map Ok texts) content = Ok (content ++ page_blocks k texts).
Proof.
  revert k content. induction texts as [|t texts IH]; intros k content.
  - cbn [map pdf_pages page_blocks]. now rewrite app_nil_r.
  - cbn [map pdf_pages page_blocks res_bind]. rewrite IH. unfold page_block.
    destruct (nonempty t).
    + f_equal. symmetry. apply app_assoc.
    + reflexivity.
Qed.

Lemma pdf_pages_raises k before e after content :
  pdf_pages k (map Ok before ++ Raise e :: after) content = Raise e.
Proof.
  revert k content. induction before as [|t before IH]; intros k content; simpl.
  - reflexivity.
  - apply IH.
Qed.

Lemma page_blocks_empty k texts :
  page_blocks k texts = [] <-> Forall (fun t => t = []) texts.
Proof.
  revert k. induction texts as [|t texts IH]; intros k; simpl.
  - split; [constructor | reflexivity].
  - split.
    + intros H. apply app_eq_nil in H as [H1 H2]. constructor; [|now apply (IH (S k))].
      unfold page_block in H1. destruct t; [reflexivity|]. simpl in H1.
      destruct (u "第" ++ str_of_nat (k + 1) ++ u "页:" ++ nl ++ (n :: t) ++ nl ++ nl) eqn:E;
        [|discriminate].
      apply (f_equal length) in E. rewrite !length_app in E. simpl in E. lia.
    + intros H. inversion H as [|? ? -> H']; subst. simpl.
      now apply (IH (S k)).
Qed.

(** X13.  The PDF attempt of [extract_content], for a readable file with
    no inline text that parses as a PDF.  Only the first five pages are
    looked at.  When each of them gives its text, the content is the
    texts of the pages that have some, in order, each under a label with
    the page's own number (a page without text takes a number but leaves
    no block) and followed by a blank line; that content is returned if it
    is not empty.  When one of the five raises, the whole attempt is
    dropped, text of earlier pages included, and the function goes on to
    the DOCX attempt. *)
Theorem X13_pdf_attempt w path text s n file_bytes pages :
  truthy_opt text = false -> path <> [] ->
  files s !! path = Some n -> node_read n = Ok file_bytes ->
  PdfReader w file_bytes = Ok pages ->
  (forall texts, take 5 pages = map Ok texts ->
     try_pdf w file_bytes =
       (if nonempty (page_blocks 0 texts) then Some (page_blocks 0 texts) else None) /\
     (~ Forall (fun t => t = []) texts ->
      fst (extract_content w (Some path) text s) = Ok (page_blocks 0 texts))) /\
  (forall before e after, take 5 pages = map Ok before ++ Raise e :: after ->
     try_pdf w file_bytes = None /\
     fst (extract_content w (Some path) text s) =
       Ok (match try_docx w file_bytes with
           | Some content => content
           | None =>
               match try_decode w encodings file_bytes with
               | Some decoded => decoded
               | None => EXTRACT_SENTINEL
               end
           end)).
Proof.
  intros Ht Hp Hn Hread Hpdf.
  rewrite (extract_content_file w path text s n Ht Hp Hn). simpl.
  unfold extraction_of. rewrite Hread. unfold extract_bytes.
  split.
  - intros texts Htexts.
    assert (try_pdf w file_bytes =
              (if nonempty (page_blocks 0 texts) then Some (page_blocks 0 texts) else None))
      as Htry.
    { unfold try_pdf. rewrite Hpdf. simpl. rewrite Htexts, pdf_pages_all_ok. reflexivity. }
    split; [exact Htry|]. intros Hsome. rewrite Htry.
    destruct (page_blocks 0 texts) eqn:E; [|reflexivity].
    exfalso. apply Hsome. now apply (page_blocks_empty 0).
  - intros before e after Hpages.
    assert (try_pdf w file_bytes = None) as Htry.
    { unfold try_pdf. rewrite Hpdf. simpl. rewrite Hpages, pdf_pages_raises. reflexivity. }
    split; [exact Htry|]. now rewrite Htry.
Qed.

Lemma X13_pdf_attempt_witness :
  fst (extract_content (pdf_world six_pages) (Some upload) None uploaded)
  = Ok (u "第1页:" ++ nl ++ u "Abstract" ++ nl ++ nl ++
        u "第3页:" ++ nl ++ u "Methods" ++ nl ++ nl ++
        u "第4页:" ++ nl ++ u "Results" ++ nl ++ nl ++
        u "第5页:" ++ nl ++ u "Discussion" ++ nl ++ nl) /\
  fst (extract_content (pdf_world (Ok (u "Abstract") :: Raise READ_TIMEOUT :: []))
         (Some upload) None uploaded)
  = Ok (u "Chlorophyll absorbs light.").
Proof.
  split.
  - destruct (X13_pdf_attempt (pdf_world six_pages) upload None uploaded
                (regular_file paper_bytes) paper_bytes six_pages eq_refl
                ltac:(discriminate) ltac:(vm_compute; reflexivity) eq_refl eq_refl)
      as [H _].
    destruct (H [u "Abstract"; []; u "Methods"; u "Results"; u "Discussion"] eq_refl)
      as [_ H'].
    rewrite H'; [vm_compute; reflexivity|].
    intros HF. inversion HF as [|? ? Hx _]. discriminate.
  - destruct (X13_pdf_attempt (pdf_world (Ok (u "Abstract") :: Raise READ_TIMEOUT :: []))
                upload None uploaded (regular_file paper_bytes) paper_bytes _ eq_refl
                ltac:(discriminate) ltac:(vm_compute; reflexivity) eq_refl eq_refl)
      as [_ H].
    destruct (H [u "Abstract"] READ_TIMEOUT [] eq_refl) as [_ H'].
    rewrite H'. vm_compute. reflexivity.
Defined.

Lemma docx_paragraphs_lines paragraphs content :
  docx_paragraphs paragraphs content = content ++ paragraph_lines paragraphs.
Proof.
  revert content. unfold paragraph_lines.
  induction paragraphs as [|t paragraphs IH]; intros content.
  - cbn [docx_paragraphs List.filter map concat]. now rewrite app_nil_r.
  - cbn [docx_paragraphs List.filter]. rewrite IH.
    destruct (strip_nonempty t); [|reflexivity].
    cbn [map concat]. now rewrite <- !app_assoc.
Qed.

Lemma paragraph_lines_empty paragraphs :
  paragraph_lines paragraphs = [] <-> Forall (fun t => strip_nonempty t = false) paragraphs.
Proof.
  unfold paragraph_lines. induction paragraphs as [|t paragraphs IH]; simpl.
  - split; [constructor | reflexivity].
  - destruct (strip_nonempty t) eqn:E; simpl.
    + split.
      * intros H. apply app_eq_nil in H as [H _]. apply app_eq_nil in H as [_ H].
        discriminate.
      * intros H. inversion H; congruence.
    + rewrite IH. split; [now constructor | intros H; now inversion H].
Qed.

(** X12.  The DOCX attempt of [extract_content], for a readable file
    with no inline text in which no PDF text was found and that parses as
    a DOCX document: the content is the paragraphs that are not blank, in
    document order, each followed by a newline; it is what the function
    returns as soon as one paragraph is not blank, and a document of blank
    paragraphs only falls through to the text decoding. *)
Theorem X12_docx_attempt w path text s n file_bytes paragraphs :
  truthy_opt text = false -> path <> [] ->
  files s !! path = Some n -> node_read n = Ok file_bytes ->
  try_pdf w file_bytes = None ->
  docx_Document w file_bytes = Ok paragraphs ->
  (~ Forall (fun t => strip_nonempty t = false) paragraphs ->
   fst (extract_content w (Some path) text s) = Ok (paragraph_lines paragraphs)) /\
  (Forall (fun t => strip_nonempty t = false) paragraphs ->
   try_docx w file_bytes = None /\
   forall decoded, bytes_decode w (u "utf-8") file_bytes = Ok decoded ->
     fst (extract_content w (Some path) text s) = Ok decoded).
Proof.
  intros Ht Hp Hn Hread Hpdf Hdocx.
  rewrite (extract_content_file w path text s n Ht Hp Hn). simpl.
  unfold extraction_of. rewrite Hread. unfold extract_bytes. rewrite Hpdf.
  assert (try_docx w file_bytes =
            (if nonempty (paragraph_lines paragraphs)
             then Some (paragraph_lines paragraphs) else None)) as Htry.
  { unfold try_docx. rewrite Hdocx. now rewrite docx_paragraphs_lines. }
  rewrite Htry. split.
  - intros Hsome. destruct (paragraph_lines paragraphs) eqn:E; [|reflexivity].
    exfalso. apply Hsome. now apply paragraph_lines_empty.
  - intros Hblank. apply paragraph_lines_empty in Hblank. rewrite Hblank. simpl.
    split; [reflexivity|]. intros decoded Hdec.
    change (try_decode w encodings file_bytes) with
      (match bytes_decode w (u "utf-8") file_bytes with
       | Ok t => Some t
       | Raise _ => try_decode w [u "gbk"; u "gb2312"; u "latin-1"] file_bytes
       end).
    now rewrite Hdec.
Qed.

Lemma X12_docx_attempt_witness :
  fst (extract_content (docx_world some_paragraphs) (Some upload) None uploaded)
  = Ok (u "Photosynthesis" ++ nl ++ u "Light reactions" ++ nl) /\
  fst (extract_content (docx_world [u "   "; []]) (Some upload) None uploaded)
  = Ok (u "Chlorophyll absorbs light.").
Proof.
  split.
  - destruct (X12_docx_attempt (docx_world some_paragraphs) upload None uploaded
                (regular_file paper_bytes) paper_bytes some_paragraphs eq_refl
                ltac:(discriminate) ltac:(vm_compute; reflexivity) eq_refl eq_refl eq_refl)
      as [H _].
    rewrite H; [vm_compute; reflexivity|].
    intros HF. inversion HF as [|? ? Hx _]. discriminate.
  - destruct (X12_docx_attempt (docx_world [u "   "; []]) upload None uploaded
                (regular_file paper_bytes) paper_bytes _ eq_refl
                ltac:(discriminate) ltac:(vm_compute; reflexivity) eq_refl eq_refl eq_refl)
      as [_ H].
    destruct H as [_ H]; [repeat constructor|].
    rewrite (H (u "Chlorophyll absorbs light.")); [reflexivity|].
    vm_compute. reflexivity.
Defined.

(** ** The records of the literature index *)

Lemma creators_names creators :
  forallb creator_ok creators = true ->
  exists names,
    res_map (fun creator => py_get creator (u "creator") (JStr [])) creators = Ok names /\
    strs_of names = Ok (map creator_name creators).
Proof.
  induction creators as [|c creators IH]; intros H.
  - exists []. split; reflexivity.
  - cbn [forallb] in H. apply andb_prop in H as [Hc Hl].
    destruct (IH Hl) as (names & Hmap & Hstrs).
    destruct c as [| | | | |?|ckv]; try discriminate.
    unfold creator_ok, str_or_absent in Hc.
    cbn [res_map map]. unfold py_get at 1. unfold creator_name at 1.
    destruct (assoc (u "creator") ckv) as [[| | | |name| |]|]; try discriminate;
      cbn [res_bind]; rewrite Hmap; cbn [res_bind]; eexists; (split; [reflexivity|]);
      cbn [strs_of]; rewrite Hstrs; reflexivity.
Qed.

Lemma authors_of_creators creators :
  forallb creator_ok creators = true ->
  res_bind (res_map (fun creator => py_get creator (u "creator") (JStr [])) creators)
    (fun names => py_join (u ", ") names)
  = Ok (join (u ", ") (map creator_name creators)).
Proof.
  intros H. destruct (creators_names creators H) as (names & -> & Hstrs).
  cbn [res_bind]. unfold py_join. now rewrite Hstrs.
Qed.

Lemma res_bind_eq {A B} (r : res A) (k : A -> res B) a :
  r = Ok a -> res_bind r k = k a.
Proof. now intros ->. Qed.

(** The projection of a well typed record. *)
Lemma paper_of_record_well_typed kv :
  well_typed_record (JObj kv) = true ->
  exists authors year url abstract,
    paper_of_record (JObj kv)
    = Ok (JObj [(u "title", default (JStr []) (assoc (u "title") kv));
                (u "authors", JStr authors);
                (u "publication", default (JStr []) (assoc (u "publicationName") kv));
                (u "year", JStr year);
                (u "url", url);
                (u "abstract", JStr abstract)]) /\
    (assoc (u "creators") kv = None -> authors = []) /\
    (forall creators, assoc (u "creators") kv = Some (JArr creators) ->
       authors = join (u ", ") (map creator_name creators)) /\
    (forall ukv rest, assoc (u "url") kv = Some (JArr (JObj ukv :: rest)) ->
       url = default (JStr []) (assoc (u "value") ukv)) /\
    ((assoc (u "url") kv = None \/ assoc (u "url") kv = Some JNull \/
      assoc (u "url") kv = Some (JArr [])) -> url = JStr []).
Proof.
  intros H. cbn [well_typed_record] in H.
  apply andb_prop in H as [H Habs]. apply andb_prop in H as [H Hurl].
  apply andb_prop in H as [Hcr Hdate].
  unfold str_or_null in Hdate, Habs.
  unfold paper_of_record, py_get_none, py_get. cbn [res_bind].
  assert (exists authors,
            (forall B (k : pystr -> res B),
               res_bind (py_iter (match assoc (u "creators") kv with
                                  | Some x => x
                                  | None => JArr []
                                  end)) (fun creators =>
               res_bind (res_map (fun creator => py_get creator (u "creator") (JStr []))
                           creators) (fun names =>
               res_bind (py_join (u ", ") names) k)) = k authors) /\
            (assoc (u "creators") kv = None -> authors = []) /\
            (forall creators, assoc (u "creators") kv = Some (JArr creators) ->
               authors = join (u ", ") (map creator_name creators)))
    as (authors & Hauthors & Ha1 & Ha2).
  { destruct (assoc (u "creators") kv) as [[| | | | |creators|]|]; try discriminate.
    - destruct (creators_names creators Hcr) as (names & Hmap & Hstrs).
      eexists. split; [|split; [discriminate | intros ? [= <-]; reflexivity]].
      intros B k. cbn [py_iter res_bind]. rewrite Hmap.
      cbn [res_bind]. unfold py_join. rewrite Hstrs. reflexivity.
    - exists []. split; [|split; [reflexivity | discriminate]].
      intros B k. reflexivity. }
  unfold py_get in Hauthors. rewrite Hauthors. clear Hauthors.
  exists authors.
  destruct (assoc (u "publicationDate") kv) as [[| | | |[|c d]| |]|]; try discriminate;
    cbn [truthy res_bind py_slice];
    (destruct (assoc (u "url") kv) as [[| | | | |[|[| | | | | |ukv] rest]|]|];
     try discriminate; cbn [truthy res_bind py_item0];
     (destruct (assoc (u "abstract") kv) as [[| | | |[|c' a]| |]|]; try discriminate;
      cbn [truthy res_bind py_slice py_add_str];
      eexists _, _, _; (split; [reflexivity|]);
      (split; [exact Ha1|]); (split; [exact Ha2|]);
      (split; [try discriminate; intros ? ? [= <- <-]; now destruct (assoc (u "value") ukv)
              | try reflexivity; intros [?|[?|?]]; discriminate]))).
Qed.

Lemma paper_of_record_ok record :
  well_typed_record record = true -> exists paper, paper_of_record record = Ok paper.
Proof.
  destruct record as [| | | | | |kv]; try discriminate.
  intros H. destruct (paper_of_record_well_typed kv H) as (? & ? & ? & ? & -> & _).
  eauto.
Qed.

Lemma res_map_raises {A B} (f : A -> res B) l x e :
  x ∈ l -> f x = Raise e -> exists e', res_map f l = Raise e'.
Proof.
  intros Hin Hx. induction Hin as [x l | x y l Hin IH]; cbn [res_map].
  - rewrite Hx. eauto.
  - destruct (f y); cbn [res_bind]; [|eauto].
    destruct (IH Hx) as [e' ->]. eauto.
Qed.

Lemma res_map_Forall2 {A B} (f : A -> res B) l r :
  Forall2 (fun x y => f x = Ok y) l r -> res_map f l = Ok r.
Proof.
  induction 1 as [|x y l r Hx _ IH]; cbn [res_map]; [reflexivity|].
  rewrite Hx. cbn [res_bind]. now rewrite IH.
Qed.

Lemma res_map_all_ok {A B} (f : A -> res B) l :
  Forall (fun x => exists y, f x = Ok y) l -> exists r, res_map f l = Ok r.
Proof.
  induction 1 as [|x l [y Hx] _ [r IH]]; cbn [res_map]; [eauto|].
  rewrite Hx, IH. cbn [res_bind]. eauto.
Qed.

(** X15.  What the loop of [search_related_papers_task] makes of one
    record.  A well typed record always gives a paper, with the six keys
    title, authors, publication, year, url and abstract in that order:
    title and publication are copied (the empty string when absent), the
    authors are the [creator] names joined by a comma and a space, the url
    is the [value] of the first entry of [url] and the empty string
    without one.  A record that is not an object raises, and so does a
    record one of whose creators is not an object. *)
Theorem X15_projection_of_a_record :
  (forall kv, well_typed_record (JObj kv) = true ->
     exists authors year url abstract,
       paper_of_record (JObj kv)
       = Ok (JObj [(u "title", default (JStr []) (assoc (u "title") kv));
                   (u "authors", JStr authors);
                   (u "publication", default (JStr []) (assoc (u "publicationName") kv));
                   (u "year", JStr year);
                   (u "url", url);
                   (u "abstract", JStr abstract)]) /\
       (assoc (u "creators") kv = None -> authors = []) /\
       (forall creators, assoc (u "creators") kv = Some (JArr creators) ->
          authors = join (u ", ") (map creator_name creators)) /\
       (forall ukv rest, assoc (u "url") kv = Some (JArr (JObj ukv :: rest)) ->
          url = default (JStr []) (assoc (u "value") ukv)) /\
       ((assoc (u "url") kv = None \/ assoc (u "url") kv = Some JNull \/
         assoc (u "url") kv = Some (JArr [])) -> url = JStr [])) /\
  (forall record, (forall kv, record <> JObj kv) ->
     exists e, paper_of_record record = Raise e) /\
  (forall kv creators c,
     assoc (u "creators") kv = Some (JArr creators) ->
     c ∈ creators -> (forall ckv, c <> JObj ckv) ->
     exists e, paper_of_record (JObj kv) = Raise e).
Proof.
  split; [exact paper_of_record_well_typed|]. split.
  - intros record Hno. destruct record as [| | | | | |kv];
      try (eexists; reflexivity). now destruct (Hno kv).
  - intros kv creators c Hcr Hin Hno.
    unfold paper_of_record. unfold py_get at 1 2. cbn [res_bind]. rewrite Hcr.
    cbn [py_iter res_bind].
    destruct (res_map_raises (fun creator => py_get creator (u "creator") (JStr []))
                creators c (AttributeError "object has no attribute 'get'") Hin)
      as [e' ->]; [|eauto].
    destruct c as [| | | | | |ckv]; try reflexivity. now destruct (Hno ckv).
Qed.

Lemma X15_projection_of_a_record_witness :
  paper_of_record sample_record
  = Ok (JObj [(u "title", JStr (u "Light reactions"));
              (u "authors", JStr (u "Hill, R., Bendall, F."));
              (u "publication", JStr (u "Nature"));
              (u "year", JStr (u "1960"));
              (u "url", JStr (u "http://dx.doi.org/10.1038/186136a0"));
              (u "abstract", JStr (u "A short abstract...."))]) /\
  (exists e, paper_of_record (JStr (u "Light reactions")) = Raise e) /\
  (exists e, paper_of_record (JObj [(u "creators", JArr [JNull])]) = Raise e).
Proof.
  destruct X15_projection_of_a_record as (H1 & H2 & H3).
  split; [|split].
  - assert (well_typed_record sample_record = true) as Hw by (vm_compute; reflexivity).
    destruct (H1 _ Hw) as (authors & year & url & abstract & Hp & _ & Ha & Hu & _).
    vm_compute. reflexivity.
  - apply H2. discriminate.
  - apply (H3 [(u "creators", JArr [JNull])] [JNull] JNull);
      [vm_compute; reflexivity | apply list_elem_of_here | discriminate].
Defined.

(** ** The search sub-task *)

(** X14.  [search_related_papers_task] when the index answers with a list
    of records: it sends one GET request, with the query, the credential
    and the count, and visits the first [count] records only.  If each of
    them gives a paper, the papers are returned in the order of the
    records and nothing is printed; well typed records always do.  If one
    of them raises, the papers made of the others are dropped: the result
    is the empty list, and one line with the exception is printed. *)
Theorem X14_search_task_all_or_nothing w query count s key response kv records :
  SPRINGER_API_KEY w = Some key -> key <> [] -> (0 <= count)%Z ->
  requests_get w (now s) (springer_request key query count) = Ok response ->
  raise_for_status response = Ok tt ->
  resp_json response = Ok (JObj kv) ->
  assoc (u "records") kv = Some (JArr records) ->
  let visited := take (Z.to_nat count) records in
  let r := fst (search_related_papers_task w query count s) in
  let s' := snd (search_related_papers_task w query count s) in
  sent s' = sent s ++ [springer_request key query count] /\
  (forall papers,
     Forall2 (fun record paper => paper_of_record record = Ok paper) visited papers ->
     r = Ok papers /\ stdout s' = stdout s) /\
  (forallb well_typed_record visited = true ->
   exists papers,
     r = Ok papers /\ length papers = length visited /\ stdout s' = stdout s) /\
  (forall record e, record ∈ visited -> paper_of_record record = Raise e ->
     r = Ok [] /\ exists e', stdout s' = stdout s ++ [SEARCH_FAILED ++ str_exn e']).
Proof.
  intros Hkey Hne Hc Hget Hst Hjson Hrec visited r s'.
  assert (truthy_opt (SPRINGER_API_KEY w) = true) as Ht.
  { rewrite Hkey. now destruct key. }
  assert (search_related_papers_task w query count s =
            match res_map paper_of_record visited with
            | Ok papers => (Ok papers, requested (springer_request key query count) s)
            | Raise e =>
                (Ok [], snd (print (SEARCH_FAILED ++ str_exn e)
                               (requested (springer_request key query count) s)))
            end) as Hrun.
  { unfold search_related_papers_task, try_except, http_get, bind, tick, record_request,
      lift, ret, print, requested. rewrite Ht, Hkey.
    change (default [] (Some key)) with key. cbn [negb fst snd now].
    rewrite Hget. cbn [fst snd]. rewrite Hst, Hjson.
    cbn [py_in py_item py_slice py_iter]. rewrite Hrec.
    rewrite bool_decide_eq_true_2 by eauto.
    cbn [py_slice py_iter]. rewrite slice_upto_nonneg by exact Hc. fold visited.
    destruct (res_map paper_of_record visited); reflexivity. }
  subst r s'. rewrite Hrun. clear Hrun.
  split; [|split; [|split]].
  - destruct (res_map paper_of_record visited); reflexivity.
  - intros papers HF. rewrite (res_map_Forall2 _ _ _ HF). split; reflexivity.
  - intros Hwt. destruct (res_map_all_ok paper_of_record visited) as [papers Hmap].
    { apply Forall_forall. intros record Hin. apply paper_of_record_ok.
      rewrite forallb_forall in Hwt. apply Hwt. now apply list_elem_of_In. }
    rewrite Hmap. exists papers. split; [reflexivity|].
    split; [exact (res_map_length _ _ _ Hmap) | reflexivity].
  - intros record e Hin Hraise.
    destruct (res_map_raises paper_of_record visited record e Hin Hraise) as [e' ->].
    split; [reflexivity|]. exists e'. reflexivity.
Qed.

Lemma X14_search_task_all_or_nothing_witness :
  (exists papers s',
     search_related_papers_task (index_world mixed_body) (u "light") 1 state0
     = (Ok papers, s') /\ length papers = 1%nat /\ stdout s' = []) /\
  (exists s' line,
     search_related_papers_task (index_world mixed_body) (u "light") 2 state0
     = (Ok [], s') /\ stdout s' = [line] /\
     sent s' = [springer_request (u "springer-key") (u "light") 2]).
Proof.
  split.
  - destruct (X14_search_task_all_or_nothing (index_world mixed_body) (u "light") 1 state0
                (u "springer-key") _ _ _ eq_refl ltac:(discriminate) ltac:(lia)
                eq_refl eq_refl eq_refl eq_refl) as (_ & _ & H & _).
    destruct (H eq_refl) as (papers & Hr & Hlen & Hout).
    exists papers, (snd (search_related_papers_task (index_world mixed_body) (u "light") 1
                           state0)).
    split; [|split; [exact Hlen | exact Hout]].
    rewrite <- Hr. apply surjective_pairing.
  - destruct (X14_search_task_all_or_nothing (index_world mixed_body) (u "light") 2 state0
                (u "springer-key") _ _ _ eq_refl ltac:(discriminate) ltac:(lia)
                eq_refl eq_refl eq_refl eq_refl) as (Hsent & _ & _ & H).
    destruct (H JNull (AttributeError "object has no attribute 'get'"))
      as (Hr & e' & Hout); [apply list_elem_of_further, list_elem_of_here | reflexivity |].
    eexists _, _. split; [|split; [exact Hout | exact Hsent]].
    rewrite <- Hr. apply surjective_pairing.
Defined.

(** ** The query of the search *)

Lemma split_from_run t cur rest :
  Forall (fun c => isspace c = false) t ->
  split_from cur (t ++ rest) = split_from (rev t ++ cur) rest.
Proof.
  revert cur. induction t as [|c t IH]; intros cur H; [reflexivity|].
  inversion H as [|? ? Hc Ht]; subst. cbn [app split_from]. rewrite Hc.
  rewrite (IH (c :: cur) Ht). cbn [rev]. now rewrite <- app_assoc.
Qed.

Lemma split_from_token_end t :
  token t -> split_from [] t = [t].
Proof.
  intros [Hne Hns]. rewrite <- (app_nil_r t) at 1.
  rewrite (split_from_run t [] [] Hns), app_nil_r. cbn [split_from].
  destruct (rev t) eqn:E.
  - apply (f_equal (@rev _)) in E. rewrite rev_involutive in E. now destruct Hne.
  - rewrite <- E. now rewrite rev_involutive.
Qed.

(** Splitting what [join] made of tokens gives the tokens back. *)
Lemma split_join ts :
  Forall token ts -> split (join (u " ") ts) = ts.
Proof.
  unfold split. induction ts as [|t ts IH]; intros H; [reflexivity|].
  inversion H as [|? ? Ht Hts]; subst.
  destruct ts as [|t' ts].
  - cbn [join]. now apply split_from_token_end.
  - change (join (u " ") (t :: t' :: ts)) with (t ++ u " " ++ join (u " ") (t' :: ts)).
    destruct Ht as [Hne Hns].
    rewrite (split_from_run t [] _ Hns), app_nil_r.
    change (u " " ++ join (u " ") (t' :: ts)) with (32 :: join (u " ") (t' :: ts)).
    cbn [split_from]. change (isspace 32) with true. cbv iota.
    rewrite (IH Hts).
    destruct (rev t) eqn:E.
    + apply (f_equal (@rev _)) in E. rewrite rev_involutive in E. now destruct Hne.
    + rewrite <- E. now rewrite rev_involutive.
Qed.

(** X16.  The query that [search_related_papers] builds from the content
    splits back into the tokens it was made of: when the content has a
    token, splitting the query gives exactly the first three tokens of the
    content, so between one and three words; and a content of blanks only,
    which is not empty, gets the default query, which splits into two
    words. *)
Theorem X16_query_is_normalised content :
  (split content <> [] ->
   split (query_of content) = take 3 (split content) /\
   (0 < length (split (query_of content)) <= 3)%nat) /\
  (split content = [] -> split (query_of content) = [u "natural"; u "science"]).
Proof.
  destruct (query_of_spec content) as [Hdef Hq]. split.
  - intros Hne. rewrite (Hq Hne).
    assert (Forall token (take 3 (split content))) as Htok.
    { apply Forall_take. apply split_spec. }
    rewrite (split_join _ Htok). split; [reflexivity|].
    rewrite length_take. destruct (split content) as [|t ts]; [congruence|].
    cbn [length]. destruct (Nat.min_spec 3 (S (length ts))) as [[? ->]|[? ->]]; lia.
  - intros Hnone. rewrite (Hdef Hnone). vm_compute. reflexivity.
Qed.

Lemma X16_query_is_normalised_witness :
  split (query_of (u "  Photosynthesis   converts light energy into sugar "))
  = [u "Photosynthesis"; u "converts"; u "light"] /\
  split (query_of (u "   ")) = [u "natural"; u "science"].
Proof.
  destruct (X16_query_is_normalised
              (u "  Photosynthesis   converts light energy into sugar ")) as [H _].
  destruct (X16_query_is_normalised (u "   ")) as [_ H'].
  split.
  - destruct H as [H _]; [vm_compute; discriminate|]. rewrite H. vm_compute. reflexivity.
  - apply H'. vm_compute. reflexivity.
Defined.

(** ** [utils.py]: saving an upload *)

Lemma save_upload_file_run disk temp_dir upload_file name s :
  filename upload_file = Some name ->
  let path := os_path_join temp_dir name in
  open_fault disk path = None ->
  forall remove,
    (files s !! path = None /\ remove = None \/
     exists n old, files s !! path = Some n /\ node_read n = Ok old /\
                   remove = node_remove n) ->
    let opened := snd (set_files (<[path := mk_node (Ok []) remove]> (files s)) s) in
    save_upload_file disk temp_dir upload_file s
    = match upload_read upload_file with
      | Ok content =>
          match write_fault disk path content with
          | None =>
              (Ok path,
               snd (set_files (<[path := mk_node (Ok content) remove]> (files s)) s))
          | Some e => (Raise e, opened)
          end
      | Raise e => (Raise e, opened)
      end.
Proof.
  intros Hname path Hopen remove Hnode opened.
  unfold save_upload_file. rewrite Hname. fold path.
  unfold open_truncate, write_bytes. rewrite Hopen.
  unfold bind, get, lift, ret, raise, set_files. cbn [fst snd files].
  assert (forall (f : gmap pystr node), True) as _ by auto.
  destruct Hnode as [[Hn ->] | (n & old & Hn & Hread & ->)]; rewrite Hn; [|rewrite Hread];
    cbn [fst snd files];
    (destruct (upload_read upload_file) as [content|e]; [|reflexivity]);
    (destruct (write_fault disk path content); [reflexivity|]);
    cbn [fst snd files]; rewrite lookup_insert_eq; cbn [node_remove];
    rewrite insert_insert_eq; reflexivity.
Qed.

(** X17.  An upload and its extraction.  On a sound disk, when no file
    has the upload's path yet, [save_upload_file] returns the path, the
    temporary directory joined with the file name, and leaves there a file
    with exactly the bytes read from the upload, touching nothing else;
    and when the worker then extracts from that path with no inline text,
    it works on those very bytes and the file store is back to what it was
    before the upload. *)
Theorem X17_upload_then_extraction w disk temp_dir upload_file name content s :
  filename upload_file = Some name ->
  upload_read upload_file = Ok content ->
  let path := os_path_join temp_dir name in
  open_fault disk path = None -> write_fault disk path content = None ->
  files s !! path = None -> path <> [] ->
  exists s1 s2,
    save_upload_file disk temp_dir upload_file s = (Ok path, s1) /\
    files s1 = <[path := regular_file content]> (files s) /\
    async_tasks s1 = async_tasks s /\
    interpretation_history s1 = interpretation_history s /\
    broker s1 = broker s /\ sent s1 = sent s /\ stdout s1 = stdout s /\
    extract_content w (Some path) None s1 = (Ok (extract_bytes w content), s2) /\
    files s2 = files s.
Proof.
  intros Hname Hread path Hopen Hwrite Hfree Hne.
  pose proof (save_upload_file_run disk temp_dir upload_file name s Hname Hopen None
                (or_introl (conj Hfree eq_refl))) as Hrun.
  cbv zeta in Hrun. fold path in Hrun. rewrite Hread, Hwrite in Hrun.
  eexists _, _. split; [exact Hrun|]. cbn [set_files snd files async_tasks
    interpretation_history broker sent stdout].
  repeat (split; [reflexivity|]).
  rewrite (extract_content_file w path None _ (regular_file content) eq_refl Hne)
    by apply lookup_insert_eq.
  split; [reflexivity|].
  unfold after_cleanup. cbn [regular_file node_remove set_files snd files].
  now apply delete_insert_id.
Qed.

Lemma X17_upload_then_extraction_witness :
  exists s1 s2,
    save_upload_file sound_disk TMP (upload_of "paper.txt" paper_bytes) state0
    = (Ok (u "/tmp/paper.txt"), s1) /\
    extract_content plain_world (Some (u "/tmp/paper.txt")) None s1
    = (Ok (u "Chlorophyll absorbs light."), s2) /\
    files s2 = ∅.
Proof.
  destruct (X17_upload_then_extraction plain_world sound_disk TMP
              (upload_of "paper.txt" paper_bytes) (u "paper.txt") paper_bytes state0
              eq_refl eq_refl eq_refl eq_refl ltac:(vm_compute; reflexivity)
              ltac:(vm_compute; discriminate))
    as (s1 & s2 & Hsave & _ & _ & _ & _ & _ & _ & Hext & Hfiles).
  assert (os_path_join TMP (u "paper.txt") = u "/tmp/paper.txt") as Hp
    by (vm_compute; reflexivity).
  rewrite Hp in Hsave, Hext.
  exists s1, s2. split; [exact Hsave|]. split; [|exact Hfiles].
  rewrite Hext. vm_compute. reflexivity.
Defined.

(** X18.  What an upload does to a file that is already at its path, as
    when two uploads have the same file name.  The bytes that were there
    are replaced by the new ones, and nothing is raised.  When the read of
    the upload raises, the exception escapes and the file is left empty:
    the old bytes are lost although nothing was saved; at a path that was
    free, an empty file is left behind.  No other file changes. *)
Theorem X18_upload_overwrites disk temp_dir upload_file name s :
  filename upload_file = Some name ->
  let path := os_path_join temp_dir name in
  let r := fst (save_upload_file disk temp_dir upload_file s) in
  let s' := snd (save_upload_file disk temp_dir upload_file s) in
  open_fault disk path = None ->
  (forall n old content,
     files s !! path = Some n -> node_read n = Ok old ->
     upload_read upload_file = Ok content -> write_fault disk path content = None ->
     r = Ok path /\ files s' !! path = Some (mk_node (Ok content) (node_remove n))) /\
  (forall n old e,
     files s !! path = Some n -> node_read n = Ok old ->
     upload_read upload_file = Raise e ->
     r = Raise e /\ files s' !! path = Some (mk_node (Ok []) (node_remove n))) /\
  (forall e,
     files s !! path = None -> upload_read upload_file = Raise e ->
     r = Raise e /\ files s' !! path = Some (regular_file [])) /\
  same_other_files (Some path) (files s) (files s').
Proof.
  intros Hname path r s' Hopen. subst r s'.
  split; [|split; [|split]].
  - intros n old content Hn Hold Hread Hwrite.
    rewrite (save_upload_file_run disk temp_dir upload_file name s Hname Hopen
               (node_remove n)) by (right; eauto).
    fold path. rewrite Hread, Hwrite. split; [reflexivity|]. apply lookup_insert_eq.
  - intros n old e Hn Hold Hread.
    rewrite (save_upload_file_run disk temp_dir upload_file name s Hname Hopen
               (node_remove n)) by (right; eauto).
    fold path. rewrite Hread. split; [reflexivity|]. apply lookup_insert_eq.
  - intros e Hfree Hread.
    rewrite (save_upload_file_run disk temp_dir upload_file name s Hname Hopen None)
      by (left; eauto).
    fold path. rewrite Hread. split; [reflexivity|]. apply lookup_insert_eq.
  - intros other Hother.
    assert (path <> other) as Hneq by congruence.
    destruct (files s !! path) as [n|] eqn:Hn.
    + destruct (node_read n) as [old|e] eqn:Hold.
      * rewrite (save_upload_file_run disk temp_dir upload_file name s Hname Hopen
                   (node_remove n)) by (right; eauto).
        fold path. destruct (upload_read upload_file) as [content|e];
          [destruct (write_fault disk path content)|];
          cbn [set_files snd files]; now apply lookup_insert_ne.
      * unfold save_upload_file. rewrite Hname. fold path.
        unfold open_truncate, bind, get, raise. rewrite Hopen. cbn [fst snd].
        rewrite Hn, Hold. reflexivity.
    + rewrite (save_upload_file_run disk temp_dir upload_file name s Hname Hopen None)
        by (left; eauto).
      fold path. destruct (upload_read upload_file) as [content|e];
        [destruct (write_fault disk path content)|];
        cbn [set_files snd files]; now apply lookup_insert_ne.
Qed.

Lemma X18_upload_overwrites_witness :
  fst (save_upload_file sound_disk TMP (upload_of "paper.txt" []) uploaded)
  = Ok (u "/tmp/paper.txt") /\
  files (snd (save_upload_file sound_disk TMP (upload_of "paper.txt" []) uploaded))
    !! u "/tmp/paper.txt" = Some (regular_file []) /\
  files (snd (save_upload_file sound_disk TMP (broken_upload "paper.txt") uploaded))
    !! u "/tmp/paper.txt" = Some (regular_file []) /\
  files (snd (save_upload_file sound_disk TMP (broken_upload "new.txt") uploaded))
    !! u "/tmp/paper.txt" = Some (regular_file paper_bytes).
Proof.
  destruct (X18_upload_overwrites sound_disk TMP (upload_of "paper.txt" [])
              (u "paper.txt") uploaded eq_refl eq_refl) as (H1 & _).
  destruct (X18_upload_overwrites sound_disk TMP (broken_upload "paper.txt")
              (u "paper.txt") uploaded eq_refl eq_refl) as (_ & H2 & _).
  destruct (X18_upload_overwrites sound_disk TMP (broken_upload "new.txt")
              (u "new.txt") uploaded eq_refl eq_refl) as (_ & _ & _ & H4).
  destruct (H1 (regular_file paper_bytes) paper_bytes []
              ltac:(vm_compute; reflexivity) eq_refl eq_refl eq_refl) as [Ha Hb].
  destruct (H2 (regular_file paper_bytes) paper_bytes _
              ltac:(vm_compute; reflexivity) eq_refl eq_refl) as [_ Hc].
  split; [exact Ha|]. split; [exact Hb|]. split; [exact Hc|].
  rewrite (H4 (u "/tmp/paper.txt")); [vm_compute; reflexivity|].
  vm_compute. discriminate.
Defined.

Lemma match_slash {A} (c : N) (x y : A) :
  match c with 47 => x | _ => y end = if c =? 47 then x else y.
Proof.
  destruct c as [|p]; [reflexivity|].
  do 6 (destruct p as [p|p|]; try reflexivity).
Qed.

Lemma os_path_join_spec temp_dir name :
  (forall rest, name = 47 :: rest -> os_path_join temp_dir name = name) /\
  ((forall rest, name <> 47 :: rest) ->
   temp_dir `prefix_of` os_path_join temp_dir name /\
   name `suffix_of` os_path_join temp_dir name).
Proof.
  split.
  - intros rest ->. reflexivity.
  - intros Hrel.
    assert (os_path_join temp_dir name = temp_dir ++ name \/
            os_path_join temp_dir name = temp_dir ++ u "/" ++ name) as [-> | ->].
    { assert (os_path_join temp_dir name =
                match last temp_dir with
                | None => temp_dir ++ name
                | Some c => if c =? 47 then temp_dir ++ name
                            else temp_dir ++ u "/" ++ name
                end) as ->.
      { unfold os_path_join. destruct name as [|c name].
        - destruct (last temp_dir) as [c'|]; [apply match_slash | reflexivity].
        - rewrite (match_slash c). destruct (N.eqb_spec c 47) as [->|_];
            [now destruct (Hrel name)|].
          destruct (last temp_dir) as [c'|]; [apply match_slash | reflexivity]. }
      destruct (last temp_dir) as [c|]; [destruct (c =? 47)|]; auto. }
    + split; [now apply prefix_app_r | now apply suffix_app_r].
    + split; [now apply prefix_app_r|].
      rewrite app_assoc. now apply suffix_app_r.
Qed.

(** X19.  The path of an upload is the client's to choose.  Whatever
    [save_upload_file] returns is the temporary directory joined with the
    file name as the client sent it, and a file is at that path afterwards.
    For a file name that starts with a slash the path is the file name
    itself, outside the temporary directory; for any other file name the
    path starts with the temporary directory and ends with the file name,
    which is not normalised.  An upload without a file name raises and
    writes nothing. *)
Theorem X19_upload_path_is_the_clients disk temp_dir upload_file s :
  (forall name path s',
     filename upload_file = Some name ->
     save_upload_file disk temp_dir upload_file s = (Ok path, s') ->
     is_Some (files s' !! path) /\
     (forall rest, name = 47 :: rest -> path = name) /\
     ((forall rest, name <> 47 :: rest) ->
      temp_dir `prefix_of` path /\ name `suffix_of` path)) /\
  (filename upload_file = None ->
   exists e, save_upload_file disk temp_dir upload_file s = (Raise e, s)).
Proof.
  split.
  - intros name path s' Hname Hrun.
    assert (path = os_path_join temp_dir name /\ is_Some (files s' !! path)) as [-> Hsome].
    { unfold save_upload_file in Hrun. rewrite Hname in Hrun.
      unfold open_truncate, write_bytes, bind, get, lift, ret, raise, set_files in Hrun.
      destruct (open_fault disk (os_path_join temp_dir name)); [discriminate|].
      cbn [fst snd files] in Hrun.
      destruct (files s !! os_path_join temp_dir name) as [n|];
        [destruct (node_read n); [|discriminate]|];
        cbn [fst snd files] in Hrun;
        (destruct (upload_read upload_file) as [content|]; [|discriminate]);
        (destruct (write_fault disk (os_path_join temp_dir name) content);
         [discriminate|]);
        cbn [fst snd files] in Hrun; rewrite lookup_insert_eq in Hrun;
        injection Hrun as <- <-; (split; [reflexivity|]);
        cbn [files]; rewrite lookup_insert_eq; eauto. }
    split; [exact Hsome|]. apply os_path_join_spec.
  - intros Hnone. unfold save_upload_file. rewrite Hnone. eexists. reflexivity.
Qed.

Lemma X19_upload_path_is_the_clients_witness :
  fst (save_upload_file sound_disk TMP (upload_of "/etc/cron.d/job" paper_bytes) state0)
  = Ok (u "/etc/cron.d/job") /\
  is_Some (files (snd (save_upload_file sound_disk TMP
                         (upload_of "/etc/cron.d/job" paper_bytes) state0))
           !! u "/etc/cron.d/job").
Proof.
  destruct (X19_upload_path_is_the_clients sound_disk TMP
              (upload_of "/etc/cron.d/job" paper_bytes) state0) as [H _].
  destruct (save_upload_file sound_disk TMP (upload_of "/etc/cron.d/job" paper_bytes) state0)
    as [[path|e] s'] eqn:E; [|vm_compute in E; discriminate].
  destruct (H (u "/etc/cron.d/job") path s' eq_refl eq_refl) as (Hsome & Habs & _).
  cbn [fst snd]. rewrite <- (Habs (List.tl (u "/etc/cron.d/job")) ltac:(vm_compute; reflexivity)).
  split; [reflexivity | exact Hsome].
Defined.

(** ** [utils.py]: the two extractors *)









(** ** [main.py]: a job from its creation to its end *)

Lemma AsyncTask_create_run w kwargs task_id user_id task_type s :
  kw_task_id kwargs = Some task_id -> kw_user_id kwargs = Some user_id ->
  kw_task_type kwargs = Some task_type ->
  db_fault w (now s) = None ->
  AsyncTask_create w kwargs s =
  match async_tasks s !! task_id with
  | Some _ =>
      (Raise (IntegrityError "UNIQUE constraint failed: async_tasks.task_id"),
       snd (tick s))
  | None =>
      let task :=
        AsyncTask.mk task_id user_id task_type (default pending (kw_status kwargs))
          (kw_input_data kwargs) (kw_result kwargs) (kw_error kwargs)
          (utcnow w (S (now s))) (utcnow w (S (S (now s)))) in
      let s' :=
        mk_State (<[task_id := task]> (async_tasks s)) (interpretation_history s)
                 (files s) (broker s) (sent s) (stdout s) (S (S (S (S (now s))))) in
      (match db_fault w (S (S (S (now s)))) with
       | Some e => Raise e
       | None => Ok task
       end, s')
  end.
Proof.
  intros H1 H2 H3 Hdb. unfold AsyncTask_create. rewrite H1, H2, H3.
  unfold check_fault, bind, tick, get, ret, raise, set_async_tasks.
  cbn [fst snd now async_tasks interpretation_history files broker sent stdout].
  rewrite Hdb. cbn [fst snd now async_tasks interpretation_history files broker sent stdout].
  destruct (async_tasks s !! task_id); [reflexivity|].
  cbn [fst snd now async_tasks interpretation_history files broker sent stdout].
  destruct (db_fault w (S (S (S (now s))))); reflexivity.
Qed.

(** X22.  [AsyncTask.create], the database answering.  With the three
    required columns given and no row of that [task_id], it returns the
    new row, which has the columns given, the status [pending] unless one
    was given, and nothing else changes but the job store: the row is
    there under its [task_id], where [get_by_id] finds it, the other rows
    are as before and a keyed store stays keyed.  When a row of that
    [task_id] is there already, or a required column is missing, it raises
    and the job store is as before. *)
Theorem X22_create_then_find w kwargs s :
  db_healthy w ->
  (forall task_id user_id task_type,
     kw_task_id kwargs = Some task_id -> kw_user_id kwargs = Some user_id ->
     kw_task_type kwargs = Some task_type ->
     async_tasks s !! task_id = None ->
     exists j s',
       AsyncTask_create w kwargs s = (Ok j, s') /\
       AsyncTask.task_id j = task_id /\ AsyncTask.user_id j = user_id /\
       AsyncTask.task_type j = task_type /\
       AsyncTask.status j = default pending (kw_status kwargs) /\
       AsyncTask.input_data j = kw_input_data kwargs /\
       AsyncTask.result j = kw_result kwargs /\ AsyncTask.error j = kw_error kwargs /\
       async_tasks s' = <[task_id := j]> (async_tasks s) /\
       fst (AsyncTask_get_by_id w task_id s') = Ok (Some j) /\
       (forall k, k <> task_id -> async_tasks s' !! k = async_tasks s !! k) /\
       (keyed (async_tasks s) -> keyed (async_tasks s')) /\
       interpretation_history s' = interpretation_history s /\ files s' = files s /\
       broker s' = broker s /\ sent s' = sent s /\ stdout s' = stdout s) /\
  ((kw_task_id kwargs = None \/ kw_user_id kwargs = None \/ kw_task_type kwargs = None \/
    exists task_id, kw_task_id kwargs = Some task_id /\
                    is_Some (async_tasks s !! task_id)) ->
   exists e, fst (AsyncTask_create w kwargs s) = Raise e /\
             async_tasks (snd (AsyncTask_create w kwargs s)) = async_tasks s).
Proof.
  intros Hdb. split.
  - intros task_id user_id task_type H1 H2 H3 Hfree.
    rewrite (AsyncTask_create_run w kwargs task_id user_id task_type s H1 H2 H3 (Hdb _)).
    rewrite Hfree, (Hdb (S (S (S (now s))))). cbv zeta.
    eexists _, _. split; [reflexivity|].
    cbn [AsyncTask.task_id AsyncTask.user_id AsyncTask.task_type AsyncTask.status
         AsyncTask.input_data AsyncTask.result AsyncTask.error async_tasks
         interpretation_history files broker sent stdout].
    repeat (split; [reflexivity|]).
    split.
    { unfold AsyncTask_get_by_id, check_fault, bind, tick, get, ret.
      cbn [fst snd now async_tasks]. rewrite (Hdb _). cbn [fst snd async_tasks].
      now rewrite lookup_insert_eq. }
    split; [intros k Hk; now apply lookup_insert_ne|].
    split; [|repeat split].
    intros Hkeyed k j. rewrite lookup_insert. case_decide.
    + intros [= <-]. now subst k.
    + apply Hkeyed.
  - intros Hbad. unfold AsyncTask_create, check_fault, bind, tick, get, raise, ret.
    cbn [fst snd now async_tasks]. rewrite (Hdb _). cbn [fst snd now async_tasks].
    destruct (kw_task_id kwargs) as [task_id|] eqn:H1; [|eexists; split; reflexivity].
    destruct (kw_user_id kwargs) as [user_id|] eqn:H2; [|eexists; split; reflexivity].
    destruct (kw_task_type kwargs) as [task_type|] eqn:H3; [|eexists; split; reflexivity].
    destruct Hbad as [?|[?|[?|(k & [= <-] & [j Hj])]]]; try discriminate.
    cbn [fst snd now async_tasks]. rewrite Hj. eexists. split; reflexivity.
Qed.

Lemma plain_world_db : db_healthy plain_world.
Proof. intros t. reflexivity. Qed.

Lemma X22_create_then_find_witness :
  (exists j s',
     AsyncTask_create plain_world (new_job (u "job-2")) state0 = (Ok j, s') /\
     AsyncTask.status j = pending /\
     fst (AsyncTask_get_by_id plain_world (u "job-2") s') = Ok (Some j) /\
     async_tasks s' !! job_id = Some fresh_job) /\
  (exists e, fst (AsyncTask_create plain_world (new_job job_id) state0) = Raise e).
Proof.
  destruct (X22_create_then_find plain_world (new_job (u "job-2")) state0 plain_world_db)
    as [H _].
  destruct (X22_create_then_find plain_world (new_job job_id) state0 plain_world_db)
    as [_ H'].
  split.
  - destruct (H (u "job-2") owner (u "interpretation") eq_refl eq_refl eq_refl
                ltac:(vm_compute; reflexivity))
      as (j & s' & Hrun & _ & _ & _ & Hst & _ & _ & _ & _ & Hget & Hother & _).
    exists j, s'. split; [exact Hrun|]. split; [exact Hst|]. split; [exact Hget|].
    rewrite (Hother job_id); [vm_compute; reflexivity | vm_compute; discriminate].
  - destruct H' as (e & He & _); [|eauto].
    right. right. right. exists job_id. split; [reflexivity|].
    exists fresh_job. vm_compute. reflexivity.
Defined.

#[local] Instance same_identity_preorder : PreOrder same_identity.
Proof.
  split.
  - intros j. repeat split.
  - intros j1 j2 j3 (A1 & A2 & A3 & A4 & A5) (B1 & B2 & B3 & B4 & B5).
    repeat split; congruence.
Qed.

#[local] Instance keeps_identity_preorder task_id : PreOrder (keeps_identity task_id).
Proof.
  split.
  - intros d j Hj _. exists j. split; [exact Hj | reflexivity].
  - intros d1 d2 d3 H12 H23 j Hj Hid.
    destruct (H12 j Hj Hid) as (j2 & Hj2 & S2).
    destruct (H23 j2 Hj2) as (j3 & Hj3 & S3).
    { destruct S2 as [-> _]. exact Hid. }
    exists j3. split; [exact Hj3 | now transitivity j2].
Qed.

Lemma write_keeps_identity d task_id j status t result error :
  d !! task_id = Some j ->
  keeps_identity task_id d (<[AsyncTask.task_id j := assign j status t result error]> d).
Proof.
  intros Hj j0 Hj0 Hid. rewrite Hj in Hj0. injection Hj0 as <-. rewrite Hid.
  exists (assign j status t result error). split; [apply lookup_insert_eq|].
  repeat split.
Qed.

Lemma run_job_recorded w task_id user_id file_path text :
  db_healthy w ->
  forall fuel retries s r s' n, present task_id s ->
    run_job w fuel retries task_id user_id file_path text s = Some (r, s', n) ->
    outcome_recorded task_id r s'.
Proof.
  intros Hdb fuel. induction fuel as [|fuel IH]; intros retries s r s' n Hp; simpl;
    [discriminate|].
  pose proof (process_paper_task_recorded w retries task_id user_id file_path text s
                Hdb Hp) as H. simpl in H.
  destruct (process_paper_task w retries task_id user_id file_path text s)
    as [[a|[cls msg|exc cd]] s1]; simpl in H.
  - intros [= <- <- <-]. exact H.
  - intros [= <- <- <-]. exact H.
  - intros Hrun. apply (IH (S retries) s1 r s' n); [|exact Hrun].
    now apply outcome_recorded_present in H.
Qed.

(** X4.  From creation to the end.  With the database up, a job that
    [AsyncTask.create] has stored and that the worker then runs, with any
    file reference and text in any world, comes to an end within its three
    retries, and its row is then the row of the same job (same
    [task_id], owner, type, input and creation time) with a terminal
    status that tells the outcome: [completed] with the result returned,
    or [failed] with an error.  It is never left [pending] or
    [processing]. *)
Theorem X4_created_job_comes_to_an_end w kwargs user_id file_path text s j s1 fuel :
  db_healthy w ->
  AsyncTask_create w kwargs s = (Ok j, s1) ->
  (max_retries < fuel)%nat ->
  exists r s' n j',
    run_job w fuel 0 (AsyncTask.task_id j) user_id file_path text s1 = Some (r, s', n) /\
    (n <= max_retries)%nat /\
    async_tasks s' !! AsyncTask.task_id j = Some j' /\
    same_identity j j' /\
    terminal (AsyncTask.status j') /\
    match r with
    | Ok (Some result) =>
        AsyncTask.status j' = completed /\ AsyncTask.result j' = Some result
    | _ => AsyncTask.status j' = failed /\ is_Some (AsyncTask.error j')
    end.
Proof.
  intros Hdb Hcreate Hfuel.
  assert (async_tasks s1 !! AsyncTask.task_id j = Some j) as Hrow.
  { unfold AsyncTask_create, check_fault, bind, tick, get, raise, ret, set_async_tasks
      in Hcreate.
    cbn [fst snd now async_tasks] in Hcreate. rewrite (Hdb _) in Hcreate.
    cbn [fst snd now async_tasks] in Hcreate.
    destruct (kw_task_id kwargs) as [task_id|]; [|discriminate].
    destruct (kw_user_id kwargs) as [uid|]; [|discriminate].
    destruct (kw_task_type kwargs) as [task_type|]; [|discriminate].
    cbn [fst snd now async_tasks] in Hcreate.
    destruct (async_tasks s !! task_id); [discriminate|].
    cbn [fst snd now async_tasks] in Hcreate. rewrite (Hdb _) in Hcreate.
    injection Hcreate as <- <-. cbn [async_tasks AsyncTask.task_id].
    apply lookup_insert_eq. }
  set (task_id := AsyncTask.task_id j) in *.
  assert (present task_id s1) as Hp by (exists j; split; [exact Hrow | reflexivity]).
  destruct (run_job_total w task_id user_id file_path text fuel 0 s1)
    as (r & s' & n & Hrun & _ & Hn & _); [lia..|].
  pose proof (run_job_recorded w task_id user_id file_path text Hdb fuel 0 s1 r s' n Hp Hrun)
    as (j' & Hj' & Hid & Hout).
  assert (keeps_identity task_id (async_tasks s1) (async_tasks s')) as Hkeep.
  { apply (run_job_steps async_tasks (keeps_identity task_id) w task_id user_id file_path
             text) with (fuel := fuel) (retries := 0%nat) (r := r) (n := n); [|exact Hrun].
    intros retries. apply process_paper_task_store; [exact _|].
    intros. now apply write_keeps_identity. }
  destruct (Hkeep j Hrow eq_refl) as (j'' & Hj'' & Hsame).
  rewrite Hj' in Hj''. injection Hj'' as <-.
  exists r, s', n, j'. split; [exact Hrun|]. split; [exact Hn|].
  split; [exact Hj'|]. split; [exact Hsame|]. split; [|exact Hout].
  destruct r as [[result|]|e]; destruct Hout as [Hst _]; rewrite Hst;
    [now left | now right | now right].
Qed.

Lemma X4_created_job_comes_to_an_end_witness :
  exists j s1 result s' j',
    AsyncTask_create plain_world (new_job (u "job-2")) state0 = (Ok j, s1) /\
    run_job plain_world 4 0 (u "job-2") owner None (Some sample_text) s1
    = Some (Ok (Some result), s', 0%nat) /\
    async_tasks s' !! u "job-2" = Some j' /\
    AsyncTask.status j' = completed /\ AsyncTask.result j' = Some result /\
    AsyncTask.input_data j' = Some (JObj [(u "filename", JStr (u "paper.txt"))]).
Proof.
  assert (exists j s1,
            AsyncTask_create plain_world (new_job (u "job-2")) state0 = (Ok j, s1) /\
            AsyncTask.task_id j = u "job-2" /\
            AsyncTask.input_data j = Some (JObj [(u "filename", JStr (u "paper.txt"))]))
    as (j & s1 & Hcreate & Hid & Hin)
    by (eexists _, _; vm_compute; repeat split; reflexivity).
  destruct (X4_created_job_comes_to_an_end plain_world (new_job (u "job-2")) owner None
              (Some sample_text) state0 j s1 4 plain_world_db Hcreate
              ltac:(unfold max_retries; lia))
    as (r & s' & n & j' & Hrun & _ & Hrow & Hsame & _ & Hout).
  rewrite Hid in Hrun, Hrow.
  assert (exists result s'',
            run_job plain_world 4 0 (u "job-2") owner None (Some sample_text) s1
            = Some (Ok (Some result), s'', 0%nat)) as (result & s'' & Hrun').
  { assert (s1 = snd (AsyncTask_create plain_world (new_job (u "job-2")) state0)) as ->
      by now rewrite Hcreate.
    eexists _, _. vm_compute. reflexivity. }
  rewrite Hrun' in Hrun. injection Hrun as <- <- <-.
  destruct Hout as [Hst Hres]. destruct Hsame as (_ & _ & _ & Hin' & _).
  exists j, s1, result, s'', j'. split; [exact Hcreate|]. split; [exact Hrun'|].
  split; [exact Hrow|]. split; [exact Hst|]. split; [exact Hres|]. congruence.
Defined.
